(** * Seedling GitHub issue checker: the fetch / analyze / normalize pipeline

    A shallow embedding of [main.py]: [fetch_github_data],
    [analyze_with_gemini] and [render_dashboard], together with the parts of
    the Python runtime they rely on ([str] methods, [dict], the [json]
    module), and the properties of the pipeline stated over them.

    Conventions.
    - A Python [str] is the list of its code points ([pystr]).
    - A Python exception is a value ([exn]); code that may raise returns a
      [result]; [try]/[except Exception] is a [match] on that result.
    - The HTTP layer, the model service and the standard output are oracles
      over an abstract world; every call is recorded in a trace. *)

From Stdlib Require Import NArith ZArith Bool Lia Ascii String DecimalString List.
From Stdlib Require SpecFloat.
Import ListNotations.

Set Implicit Arguments.

(* ================================================================== *)
(** * Python strings *)
(* ================================================================== *)

Definition pystr := list N.

(** The code points of an ASCII literal. *)
Definition u (s : string) : pystr := map N_of_ascii (list_ascii_of_string s).

Definition DQ : N := 34%N.  (* the double quote *)
Definition LF : N := 10%N.  (* the line feed *)
Definition BSL : N := 92%N. (* the backslash *)

(** An ASCII literal between double quotes. *)
Definition quote (s : string) : pystr := DQ :: u s ++ [DQ].

Module Str.

Fixpoint eqb (a b : pystr) : bool :=
  match a, b with
  | [], [] => true
  | x :: a', y :: b' => N.eqb x y && eqb a' b'
  | _, _ => false
  end.

(** [s.startswith(p)] *)
Fixpoint startswith (p s : pystr) : bool :=
  match p, s with
  | [], _ => true
  | x :: p', y :: s' => N.eqb x y && startswith p' s'
  | _ :: _, [] => false
  end.

(** [sub in s] for two strings: substring test. *)
Fixpoint contains (sub s : pystr) : bool :=
  startswith sub s ||
  match s with
  | [] => false
  | _ :: s' => contains sub s'
  end.

(** [s.replace(old, new)] for a non-empty [old]: occurrences are found
    from the left and do not overlap.  [skip] counts the characters of
    the occurrence just replaced that are still to be dropped. *)
Fixpoint replace_from (old new : pystr) (skip : nat) (s : pystr) : pystr :=
  match s with
  | [] => []
  | c :: s' =>
      match skip with
      | S k => replace_from old new k s'
      | O =>
          if startswith old s
          then new ++ replace_from old new (length old - 1) s'
          else c :: replace_from old new 0 s'
      end
  end.

Definition replace (old new s : pystr) : pystr := replace_from old new 0 s.

(** [s.split(sep)] for a non-empty [sep]; [cur] is the part being read,
    in reverse. *)
Fixpoint split_from (sep : pystr) (skip : nat) (cur : pystr) (s : pystr)
  : list pystr :=
  match s with
  | [] => [rev cur]
  | c :: s' =>
      match skip with
      | S k => split_from sep k cur s'
      | O =>
          if startswith sep s
          then rev cur :: split_from sep (length sep - 1) [] s'
          else split_from sep 0 (c :: cur) s'
      end
  end.

Definition split (sep s : pystr) : list pystr := split_from sep 0 [] s.

(** [str.isspace] on one code point (the Unicode white space of CPython). *)
Definition isspace (c : N) : bool :=
  (((9 <=? c) && (c <=? 13)) || ((28 <=? c) && (c <=? 32))
   || (c =? 133) || (c =? 160) || (c =? 5760)
   || ((8192 <=? c) && (c <=? 8202))
   || (c =? 8232) || (c =? 8233) || (c =? 8239) || (c =? 8287)
   || (c =? 12288))%N.

Fixpoint lstrip_by (drop : N -> bool) (s : pystr) : pystr :=
  match s with
  | [] => []
  | c :: s' => if drop c then lstrip_by drop s' else s
  end.

Definition rstrip_by (drop : N -> bool) (s : pystr) : pystr :=
  fold_right
    (fun c acc => match acc with
                  | [] => if drop c then [] else [c]
                  | _ :: _ => c :: acc
                  end) [] s.

(** [s.strip()] *)
Definition strip (s : pystr) : pystr := lstrip_by isspace (rstrip_by isspace s).

(** [s.rstrip(chars)] *)
Definition rstrip (chars s : pystr) : pystr :=
  rstrip_by (fun c => existsb (N.eqb c) chars) s.

(** [str(n)] for an [int]. *)
Definition of_Z (z : Z) : pystr := u (NilZero.string_of_int (Z.to_int z)).

(** [sep.join(parts)] *)
Fixpoint join (sep : pystr) (parts : list pystr) : pystr :=
  match parts with
  | [] => []
  | [p] => p
  | p :: ps => p ++ sep ++ join sep ps
  end.

End Str.

(* ================================================================== *)
(** * Floating-point numbers *)
(* ================================================================== *)

(** [float(lexeme)] for the lexemes [json.loads] hands to [float]: the
    binary64 number nearest to the decimal, ties to even, as CPython's
    [strtod] gives it; [Infinity], [-Infinity] and [NaN] for the three
    constants.  The value is only needed where a [float] is the key of a
    dictionary. *)
Module PyFloat.

Local Open Scope N_scope.

Definition is_digit (c : N) : bool := (48 <=? c) && (c <=? 57).

Fixpoint span_digits (s : pystr) : pystr * pystr :=
  match s with
  | [] => ([], [])
  | c :: r =>
      if is_digit c then let (d, r') := span_digits r in (c :: d, r')
      else ([], s)
  end.

Definition digits_value (ds : pystr) : Z :=
  fold_left (fun acc c => (acc * 10 + Z.of_N (c - 48))%Z) ds 0%Z.

Definition prec : Z := 53.
Definition emax : Z := 1024.

(** The binary64 number nearest to [m * 10 ^ e10], with the sign [neg]. *)
Definition of_decimal (neg : bool) (m e10 : Z) : SpecFloat.spec_float :=
  if (0 <=? e10)%Z
  then
    match (m * 10 ^ e10)%Z with
    | Zpos p => SpecFloat.binary_round prec emax neg p 0
    | _ => SpecFloat.S754_zero neg
    end
  else
    match m with
    | Zpos p =>
        let '(q, e, l) :=
          SpecFloat.SFdiv_core_binary prec emax (Zpos p) 0 (10 ^ (- e10))%Z 0 in
        SpecFloat.binary_round_aux prec emax neg q e l
    | _ => SpecFloat.S754_zero neg
    end.

(** A lexeme is a sign, digits, an optional fraction and an optional
    exponent, or one of the three constants. *)
Definition of_lexeme (lexeme : pystr) : SpecFloat.spec_float :=
  let '(neg, s) :=
    match lexeme with
    | c :: r => if c =? 45 then (true, r) else (false, lexeme)
    | [] => (false, lexeme)
    end in
  match s with
  | 78 :: _ => SpecFloat.S754_nan
  | 73 :: _ => SpecFloat.S754_infinity neg
  | _ =>
      let (ip, s1) := span_digits s in
      let (fp, s2) :=
        match s1 with
        | 46 :: r => span_digits r
        | _ => ([], s1)
        end in
      let ex :=
        match s2 with
        | _ :: 45 :: ds => (- digits_value ds)%Z
        | _ :: 43 :: ds => digits_value ds
        | _ :: ds => digits_value ds
        | [] => 0%Z
        end in
      of_decimal neg (digits_value (ip ++ fp)) (ex - Z.of_nat (length fp))
  end.

End PyFloat.

(* ================================================================== *)
(** * Exceptions and results *)
(* ================================================================== *)

(** An exception object: its class and [str(e)].  Every exception of the
    model is an instance of [Exception], so [except Exception] and a bare
    [except] both catch it. *)
Record exn : Type := Exn { exn_class : pystr; exn_str : pystr }.

Inductive result (A : Type) : Type :=
| Ok (a : A)
| Raise (e : exn).
Arguments Ok {A} a.
Arguments Raise {A} e.

Definition is_ok {A} (r : result A) : bool :=
  match r with Ok _ => true | Raise _ => false end.

Definition TypeError (msg : pystr) : exn := Exn (u "TypeError") msg.
Definition ValueError (msg : pystr) : exn := Exn (u "ValueError") msg.
Definition AttributeError (msg : pystr) : exn := Exn (u "AttributeError") msg.
Definition IndexError (msg : pystr) : exn := Exn (u "IndexError") msg.
Definition RecursionError (msg : pystr) : exn := Exn (u "RecursionError") msg.

(* ================================================================== *)
(** * Python values *)
(* ================================================================== *)

(** The values [json.loads] produces, and what [dict.update] can build
    from them.  A [float] is kept as the lexeme it was read from; its value
    is [PyFloat.of_lexeme] of the lexeme. *)
#[local] Unset Elimination Schemes.
Inductive pyval : Type :=
| VNone
| VBool (b : bool)
| VInt (z : Z)
| VFloat (lexeme : pystr)
| VStr (s : pystr)
| VList (l : list pyval)
| VDict (d : list (pyval * pyval)).
#[local] Set Elimination Schemes.

(** A [dict]: its items in insertion order, keys pairwise different. *)
Definition dict := list (pyval * pyval).

(** [type(v).__name__] *)
Definition type_name (v : pyval) : pystr :=
  match v with
  | VNone => u "NoneType"
  | VBool _ => u "bool"
  | VInt _ => u "int"
  | VFloat _ => u "float"
  | VStr _ => u "str"
  | VList _ => u "list"
  | VDict _ => u "dict"
  end.

(** What a [dict] compares of a key.  Numbers are compared by value,
    whatever the type that carries them: [True == 1 == 1.0] are one key, and
    so are [0], [False], [0.0] and [-0.0].  A [nan] that [json.loads] built is
    a key equal to no other key (each one is an object of its own); a list or
    a dictionary is no key at all. *)
Inductive key : Type :=
| KNone
| KNum (z : Z)                              (* an integer: bool, int or float *)
| KFrac (s : bool) (m : positive) (e : Z)   (* a float that is no integer *)
| KInf (s : bool)
| KStr (s : pystr)
| KNaN
| KUnhashable.

Definition key_of_float (f : SpecFloat.spec_float) : key :=
  match f with
  | SpecFloat.S754_zero _ => KNum 0
  | SpecFloat.S754_infinity s => KInf s
  | SpecFloat.S754_nan => KNaN
  | SpecFloat.S754_finite s m e =>
      if (0 <=? e)%Z
      then KNum (if s then - (Zpos m * 2 ^ e) else Zpos m * 2 ^ e)%Z
      else if (Zpos m mod 2 ^ (- e) =? 0)%Z
           then KNum (if s then - (Zpos m / 2 ^ (- e)) else Zpos m / 2 ^ (- e))%Z
           else KFrac s m e
  end.

Definition key_of (v : pyval) : key :=
  match v with
  | VNone => KNone
  | VBool b => KNum (Z.b2z b)
  | VInt z => KNum z
  | VFloat lexeme => key_of_float (PyFloat.of_lexeme lexeme)
  | VStr s => KStr s
  | VList _ | VDict _ => KUnhashable
  end.

Definition key_beq (a b : key) : bool :=
  match a, b with
  | KNone, KNone => true
  | KNum x, KNum y => Z.eqb x y
  | KFrac s m e, KFrac s' m' e' => Bool.eqb s s' && Pos.eqb m m' && Z.eqb e e'
  | KInf s, KInf s' => Bool.eqb s s'
  | KStr x, KStr y => Str.eqb x y
  | _, _ => false
  end.

(** [a == b] between two keys, as a [dict] compares them. *)
Definition key_eqb (a b : pyval) : bool := key_beq (key_of a) (key_of b).

(** [d.get(k)] / [k in d] *)
Fixpoint dict_get (k : pyval) (d : dict) : option pyval :=
  match d with
  | [] => None
  | (k', v) :: d' => if key_eqb k' k then Some v else dict_get k d'
  end.

Definition dict_has (k : pyval) (d : dict) : bool :=
  match dict_get k d with Some _ => true | None => false end.

(** [d[k] = v]: an existing key keeps its place, a new one goes last. *)
Fixpoint dict_set (k v : pyval) (d : dict) : dict :=
  match d with
  | [] => [(k, v)]
  | (k', v') :: d' =>
      if key_eqb k' k then (k', v) :: d' else (k', v') :: dict_set k v d'
  end.

(** The keys of a dictionary are pairwise different. *)
Fixpoint dict_wf (d : dict) : Prop :=
  match d with
  | [] => True
  | (k, _) :: d' => dict_get k d' = None /\ dict_wf d'
  end.

(** A value that, when it is a dictionary, has pairwise different keys. *)
Definition top_wf (v : pyval) : Prop :=
  match v with VDict d => dict_wf d | _ => True end.

(** [dict(pairs)] and [d.update(other)] for a mapping [other]. *)
Definition dict_update_items (d : dict) (items : list (pyval * pyval)) : dict :=
  fold_left (fun acc kv => dict_set (fst kv) (snd kv) acc) items d.

(* ================================================================== *)
(** * The [json] module of the standard library *)
(* ================================================================== *)

(** [json.loads] follows CPython 3.11's scanner (what [import json] runs):
    same grammar, same messages and positions.  A [float] comes back as
    its lexeme, which [PyFloat.of_lexeme] evaluates.  One deliberate limit:
    the interpreter's recursion limit on deeply nested documents is not
    modelled: the scanner runs on fuel, and the fuel [loads] gives it is
    enough for every document ([loads_fuel_is_enough]). *)
Module Json.

Local Open Scope N_scope.

Definition ch (a : ascii) : N := N_of_ascii a.

(** A failure of the scanner, reported [togo] characters before the end
    of the document. *)
Inductive fault : Type :=
| Stop (togo : nat)               (* StopIteration(idx): no value here *)
| Bad (msg : pystr) (togo : nat)  (* JSONDecodeError(msg, doc, idx) *)
| Other (e : exn).

Inductive scan (A : Type) : Type :=
| Got (a : A) (rest : pystr)
| Fail (f : fault).
Arguments Got {A} a rest.
Arguments Fail {A} f.

Definition is_ws (c : N) : bool :=
  (c =? 32) || (c =? 9) || (c =? 10) || (c =? 13).

Definition skip_ws (s : pystr) : pystr := Str.lstrip_by is_ws s.

Definition is_digit (c : N) : bool := (48 <=? c) && (c <=? 57).

Definition hex_digit (c : N) : option N :=
  if is_digit c then Some (c - 48)
  else if (97 <=? c) && (c <=? 102) then Some (c - 87)
  else if (65 <=? c) && (c <=? 70) then Some (c - 55)
  else None.

Definition hex4 (a b c d : N) : option N :=
  match hex_digit a, hex_digit b, hex_digit c, hex_digit d with
  | Some x, Some y, Some z, Some w => Some (((x * 16 + y) * 16 + z) * 16 + w)
  | _, _, _, _ => None
  end.

(** The one-letter escapes ([BACKSLASH] in [json.decoder]). *)
Definition backslash (e : N) : option N :=
  if (e =? 34) || (e =? 92) || (e =? 47) then Some e
  else if e =? ch "b" then Some 8
  else if e =? ch "f" then Some 12
  else if e =? ch "n" then Some 10
  else if e =? ch "r" then Some 13
  else if e =? ch "t" then Some 9
  else None.

Definition is_high_surrogate (c : N) : bool := (55296 <=? c) && (c <=? 56319).
Definition is_low_surrogate (c : N) : bool := (56320 <=? c) && (c <=? 57343).
Definition join_surrogates (hi lo : N) : N :=
  65536 + (N.lor (N.shiftl (hi - 55296) 10) (lo - 56320)).

Definition unterminated : pystr := u "Unterminated string starting at".
Definition bad_uXXXX : pystr := u "Invalid \uXXXX escape".

(** [scanstring]: [s] starts after the opening quote, which is [start]
    characters before the end; [acc] holds what was read, reversed. *)
Fixpoint scanstring (start : nat) (acc : pystr) (s : pystr) : scan pystr :=
  match s with
  | [] => Fail (Bad unterminated start)
  | c :: r =>
      if c =? DQ then Got (rev acc) r
      else if c =? BSL then
        match r with
        | [] => Fail (Bad unterminated start)
        | e :: r1 =>
            if e =? ch "u" then
              match r1 with
              | a :: b :: c3 :: d :: ((_ :: _) as r2) =>
                  match hex4 a b c3 d with
                  | None => Fail (Bad bad_uXXXX (length r))
                  | Some hi =>
                      match r2 with
                      | b2 :: u2 :: a' :: b' :: c' :: d' :: ((_ :: _) as r3) =>
                          if is_high_surrogate hi && (b2 =? BSL) && (u2 =? ch "u")
                          then
                            match hex4 a' b' c' d' with
                            | None => Fail (Bad bad_uXXXX (length r3 + 5))
                            | Some lo =>
                                if is_low_surrogate lo
                                then scanstring start (join_surrogates hi lo :: acc) r3
                                else scanstring start (hi :: acc) r2
                            end
                          else scanstring start (hi :: acc) r2
                      | _ => scanstring start (hi :: acc) r2
                      end
                  end
              | _ => Fail (Bad bad_uXXXX (length r))
              end
            else
              match backslash e with
              | Some x => scanstring start (x :: acc) r1
              | None => Fail (Bad (u "Invalid \escape") (length s))
              end
        end
      else if c <=? 31 then Fail (Bad (u "Invalid control character at") (length s))
      else scanstring start (c :: acc) r
  end.

Fixpoint span_digits (s : pystr) : pystr * pystr :=
  match s with
  | [] => ([], [])
  | c :: r =>
      if is_digit c then let (d, r') := span_digits r in (c :: d, r')
      else ([], s)
  end.

(** [NUMBER_RE]: an optional minus sign, then [0] or a digit other than
    [0] followed by digits; an optional fraction (a dot and digits); an
    optional exponent ([e] or [E], an optional sign, digits).  Gives the
    integer part with its sign, the fraction, the exponent and the rest. *)
Definition match_number (s : pystr) : option (pystr * pystr * pystr * pystr) :=
  let '(sign, s1) :=
    match s with
    | c :: r => if c =? ch "-" then ([c], r) else ([], s)
    | [] => ([], s)
    end in
  match s1 with
  | [] => None
  | c :: r =>
      let int_part :=
        if (49 <=? c) && (c <=? 57)
        then let (d, r') := span_digits r in Some (c :: d, r')
        else if c =? 48 then Some ([c], r) else None in
      match int_part with
      | None => None
      | Some (ip, s2) =>
          let '(frac, s3) :=
            match s2 with
            | dot :: d1 :: r' =>
                if (dot =? ch ".") && is_digit d1
                then let (d, r'') := span_digits r' in (dot :: d1 :: d, r'')
                else ([], s2)
            | _ => ([], s2)
            end in
          let '(ex, s4) :=
            match s3 with
            | e :: r' =>
                if (e =? ch "e") || (e =? ch "E") then
                  let '(sg, r1) :=
                    match r' with
                    | g :: r'' =>
                        if (g =? ch "+") || (g =? ch "-") then ([g], r'') else ([], r')
                    | [] => ([], r')
                    end in
                  let (d, r2) := span_digits r1 in
                  match d with
                  | [] => ([], s3)
                  | _ :: _ => (e :: sg ++ d, r2)
                  end
                else ([], s3)
            | [] => ([], s3)
            end in
          Some (sign ++ ip, frac, ex, s4)
      end
  end.

Definition digits_value (ds : pystr) : Z :=
  fold_left (fun acc c => (acc * 10 + Z.of_N (c - 48))%Z) ds 0%Z.

(** [int(lexeme)], with the interpreter's limit of 4300 digits. *)
Definition parse_int (lexeme : pystr) : result pyval :=
  let '(neg, ds) :=
    match lexeme with
    | c :: r => if c =? ch "-" then (true, r) else (false, lexeme)
    | [] => (false, lexeme)
    end in
  if (4300 <? length ds)%nat
  then Raise (ValueError
                (u "Exceeds the limit (4300 digits) for integer string conversion: value has "
                 ++ Str.of_Z (Z.of_nat (length ds))
                 ++ u " digits; use sys.set_int_max_str_digits() to increase the limit"))
  else Ok (VInt (if neg then - digits_value ds else digits_value ds)%Z).

Definition out_of_fuel : exn :=
  RecursionError (u "maximum recursion depth exceeded while decoding a JSON document").

Definition expecting_name : pystr :=
  u "Expecting property name enclosed in double quotes".
Definition expecting_colon : pystr := u "Expecting ':' delimiter".
Definition expecting_comma : pystr := u "Expecting ',' delimiter".

(** [scan_once] with the loops of [JSONObject] and [JSONArray]; every
    call spends one unit of fuel. *)
Fixpoint scan_once (fuel : nat) (s : pystr) {struct fuel} : scan pyval :=
  match fuel with
  | O => Fail (Other out_of_fuel)
  | S fuel' =>
      match s with
      | [] => Fail (Stop 0)
      | c :: r =>
          if c =? DQ then
            match scanstring (length s) [] r with
            | Got str rest => Got (VStr str) rest
            | Fail f => Fail f
            end
          else if c =? ch "{" then
            match skip_ws r with
            | c1 :: r1 =>
                if c1 =? ch "}" then Got (VDict []) r1
                else object_items fuel' [] (c1 :: r1)
            | [] => object_items fuel' [] []
            end
          else if c =? ch "[" then
            match skip_ws r with
            | c1 :: r1 =>
                if c1 =? ch "]" then Got (VList []) r1
                else array_items fuel' [] (c1 :: r1)
            | [] => array_items fuel' [] []
            end
          else if Str.startswith (u "null") s then Got VNone (skipn 4 s)
          else if Str.startswith (u "true") s then Got (VBool true) (skipn 4 s)
          else if Str.startswith (u "false") s then Got (VBool false) (skipn 5 s)
          else if Str.startswith (u "NaN") s then Got (VFloat (u "NaN")) (skipn 3 s)
          else if Str.startswith (u "Infinity") s
               then Got (VFloat (u "Infinity")) (skipn 8 s)
          else if Str.startswith (u "-Infinity") s
               then Got (VFloat (u "-Infinity")) (skipn 9 s)
          else
            match match_number s with
            | None => Fail (Stop (length s))
            | Some (ip, [], [], rest) =>
                match parse_int ip with
                | Ok v => Got v rest
                | Raise e => Fail (Other e)
                end
            | Some (ip, frac, ex, rest) => Got (VFloat (ip ++ frac ++ ex)) rest
            end
      end
  end

with object_items (fuel : nat) (acc : dict) (s : pystr) {struct fuel} : scan pyval :=
  match fuel with
  | O => Fail (Other out_of_fuel)
  | S fuel' =>
      match s with
      | [] => Fail (Bad expecting_name 0)
      | q :: r =>
          if q =? DQ then
            match scanstring (length s) [] r with
            | Fail f => Fail f
            | Got key r1 =>
                match skip_ws r1 with
                | [] => Fail (Bad expecting_colon 0)
                | colon :: r3 =>
                    if colon =? ch ":" then
                      match scan_once fuel' (skip_ws r3) with
                      | Fail f => Fail f
                      | Got v r5 =>
                          let acc' := dict_set (VStr key) v acc in
                          match skip_ws r5 with
                          | [] => Fail (Bad expecting_comma 0)
                          | d :: r7 =>
                              if d =? ch "}" then Got (VDict acc') r7
                              else if d =? ch ","
                              then object_items fuel' acc' (skip_ws r7)
                              else Fail (Bad expecting_comma (length (d :: r7)))
                          end
                      end
                    else Fail (Bad expecting_colon (length (colon :: r3)))
                end
            end
          else Fail (Bad expecting_name (length s))
      end
  end

with array_items (fuel : nat) (acc : list pyval) (s : pystr) {struct fuel} : scan pyval :=
  match fuel with
  | O => Fail (Other out_of_fuel)
  | S fuel' =>
      match scan_once fuel' s with
      | Fail f => Fail f
      | Got v r1 =>
          let acc' := acc ++ [v] in
          match skip_ws r1 with
          | [] => Fail (Bad expecting_comma 0)
          | d :: r3 =>
              if d =? ch "]" then Got (VList acc') r3
              else if d =? ch ","
              then array_items fuel' acc' (skip_ws r3)
              else Fail (Bad expecting_comma (length (d :: r3)))
          end
      end
  end.

(** [JSONDecodeError(msg, doc, pos)]: the message carries the line, the
    column and the index of [pos]. *)
Definition JSONDecodeError (msg doc : pystr) (pos : nat) : exn :=
  let before := firstn pos doc in
  let lineno := S (count_occ N.eq_dec before LF) in
  let colno := S (length (hd [] (rev (Str.split [LF] before)))) in
  Exn (u "JSONDecodeError")
      (msg ++ u ": line " ++ Str.of_Z (Z.of_nat lineno)
           ++ u " column " ++ Str.of_Z (Z.of_nat colno)
           ++ u " (char " ++ Str.of_Z (Z.of_nat pos) ++ u ")").

(** [json.loads(doc)] for a [str]. *)
Definition loads (doc : pystr) : result pyval :=
  let len := length doc in
  if Str.startswith [65279] doc
  then Raise (JSONDecodeError (u "Unexpected UTF-8 BOM (decode using utf-8-sig)") doc 0)
  else
    match scan_once (2 * len + 1) (skip_ws doc) with
    | Fail (Stop togo) => Raise (JSONDecodeError (u "Expecting value") doc (len - togo))
    | Fail (Bad msg togo) => Raise (JSONDecodeError msg doc (len - togo))
    | Fail (Other e) => Raise e
    | Got v rest =>
        match skip_ws rest with
        | [] => Ok v
        | (_ :: _) as rest' =>
            Raise (JSONDecodeError (u "Extra data") doc (len - length rest'))
        end
    end.

End Json.

(** [json.dumps] as the program calls it: on a [dict] whose keys and
    values are strings, with the default separators and [ensure_ascii]. *)
Module JsonEncode.

Local Open Scope N_scope.

Definition hexchar (d : N) : N := if d <? 10 then 48 + d else 87 + d.

(** ['{0:04x}'.format(n)] for [n < 0x10000] *)
Definition hex4_of (n : N) : pystr :=
  [hexchar (n / 4096 mod 16); hexchar (n / 256 mod 16);
   hexchar (n / 16 mod 16); hexchar (n mod 16)].

Definition uXXXX (n : N) : pystr := BSL :: Json.ch "u" :: hex4_of n.

(** [ESCAPE_DCT] and the [replace] helper of [py_encode_basestring_ascii]. *)
Definition escape_char (c : N) : pystr :=
  if c =? BSL then [BSL; BSL]
  else if c =? DQ then [BSL; DQ]
  else if c =? 8 then [BSL; Json.ch "b"]
  else if c =? 12 then [BSL; Json.ch "f"]
  else if c =? 10 then [BSL; Json.ch "n"]
  else if c =? 13 then [BSL; Json.ch "r"]
  else if c =? 9 then [BSL; Json.ch "t"]
  else if (32 <=? c) && (c <=? 126) then [c]
  else if c <? 65536 then uXXXX c
  else
    let n := c - 65536 in
    let s1 := N.lor 55296 (N.land (N.shiftr n 10) 1023) in
    let s2 := N.lor 56320 (N.land n 1023) in
    uXXXX s1 ++ uXXXX s2.

Definition escape (s : pystr) : pystr := flat_map escape_char s.

Definition encode_basestring_ascii (s : pystr) : pystr :=
  DQ :: escape s ++ [DQ].

Definition dumps (items : list (pystr * pystr)) : pystr :=
  u "{"
  ++ Str.join (u ", ")
       (map (fun kv => encode_basestring_ascii (fst kv) ++ u ": "
                       ++ encode_basestring_ascii (snd kv)) items)
  ++ u "}".

End JsonEncode.

(** What [scanstring] reads in one step: a plain character, a one-letter
    escape, or a [\uXXXX] escape. *)
Inductive scan_unit : pystr -> Prop :=
| unit_plain (c : N) :
    (32 <=? c)%N = true -> c <> DQ -> c <> BSL -> scan_unit [c]
| unit_letter (e x : N) :
    Json.backslash e = Some x -> scan_unit [BSL; e]
| unit_hex (a b c d n : N) :
    Json.hex4 a b c d = Some n -> scan_unit [BSL; Json.ch "u"; a; b; c; d].

(* ================================================================== *)
(** * Operations of the interpreter on values *)
(* ================================================================== *)

Definition quoted_type (v : pyval) : pystr := u "'" ++ type_name v ++ u "'".

(** [v.get(key)]: only a [dict] has the method. *)
Definition py_get (v : pyval) (key : pystr) : result pyval :=
  match v with
  | VDict d => Ok (match dict_get (VStr key) d with Some x => x | None => VNone end)
  | _ => Raise (AttributeError (quoted_type v ++ u " object has no attribute 'get'"))
  end.

(** [iter(v)]: the items a [for] loop visits. *)
Definition py_iter (v : pyval) : result (list pyval) :=
  match v with
  | VList l => Ok l
  | VDict d => Ok (map fst d)
  | VStr s => Ok (map (fun c => VStr [c]) s)
  | _ => Raise (TypeError (quoted_type v ++ u " object is not iterable"))
  end.

(** [key in v] for a string [key]. *)
Definition py_contains (key : pystr) (v : pyval) : result bool :=
  match v with
  | VDict d => Ok (dict_has (VStr key) d)
  | VList l => Ok (existsb (key_eqb (VStr key)) l)
  | VStr s => Ok (Str.contains key s)
  | _ => Raise (TypeError (u "argument of type " ++ quoted_type v ++ u " is not iterable"))
  end.

(** [v[key]] for a string [key]. *)
Definition py_getitem (v : pyval) (key : pystr) : result pyval :=
  match v with
  | VDict d =>
      match dict_get (VStr key) d with
      | Some x => Ok x
      | None => Raise (Exn (u "KeyError") (u "'" ++ key ++ u "'"))
      end
  | VList _ => Raise (TypeError (u "list indices must be integers or slices, not str"))
  | VStr _ => Raise (TypeError (u "string indices must be integers, not 'str'"))
  | _ => Raise (TypeError (quoted_type v ++ u " object is not subscriptable"))
  end.

Definition hashable (k : pyval) : bool :=
  match k with VList _ | VDict _ => false | _ => true end.

(** [d.update(seq)] for a sequence of pairs ([PyDict_MergeFromSeq2]): the
    pairs already stored stay stored when a later element is refused, so
    the dictionary comes back together with the outcome. *)
Fixpoint dict_merge_seq (d : dict) (i : Z) (elems : list pyval)
  : dict * result unit :=
  match elems with
  | [] => (d, Ok tt)
  | e :: rest =>
      match py_iter e with
      | Raise _ =>
          (d, Raise (TypeError (u "cannot convert dictionary update sequence element #"
                                ++ Str.of_Z i ++ u " to a sequence")))
      | Ok [k; v] =>
          if hashable k then dict_merge_seq (dict_set k v d) (i + 1) rest
          else (d, Raise (TypeError (u "unhashable type: " ++ quoted_type k)))
      | Ok fast =>
          (d, Raise (ValueError (u "dictionary update sequence element #"
                                 ++ Str.of_Z i ++ u " has length "
                                 ++ Str.of_Z (Z.of_nat (length fast))
                                 ++ u "; 2 is required")))
      end
  end.

(** [d.update(other)] *)
Definition dict_update (d : dict) (other : pyval) : dict * result unit :=
  match other with
  | VDict items => (dict_update_items d items, Ok tt)
  | _ =>
      match py_iter other with
      | Ok elems => dict_merge_seq d 0 elems
      | Raise e => (d, Raise e)
      end
  end.

(** Truth value of an optional string ([None] and [''] are false). *)
Definition truthy (s : option pystr) : bool :=
  match s with
  | Some (_ :: _) => true
  | _ => false
  end.

(** [parts[-k]], for [k] from 1. *)
Definition index_from_end {A} (l : list A) (k : nat) : result A :=
  match nth_error (rev l) (k - 1) with
  | Some x => Ok x
  | None => Raise (IndexError (u "list index out of range"))
  end.

(* ================================================================== *)
(** * The outside world *)
(* ================================================================== *)

(** What [requests.get] hands back: the status and the outcome of
    [.json()] on the body. *)
Record http_response : Type :=
  { status_code : Z; json : result pyval }.

(** What [generate_content] hands back: the outcome of reading [.text]. *)
Record generation : Type := { text : result pystr }.

(** An entry of [genai.list_models()]. *)
Record model_info : Type :=
  { name : pystr; supported_generation_methods : list pystr }.

Definition headers := list (pystr * pystr).

Inductive event : Type :=
| EvGet (url : pystr) (hs : headers)         (* requests.get(url, headers=hs) *)
| EvGenerate (model prompt : pystr)         (* GenerativeModel(model).generate_content(prompt) *)
| EvListModels                              (* genai.list_models() *)
| EvPrint (line : pystr).                   (* print(line) *)

Record template_context : Type :=
  { ctx_repo_url : pystr;
    ctx_repo_name : pystr;
    ctx_issue_number : Z;
    ctx_issue_title : pyval;
    ctx_issues_list : pyval;
    ctx_analysis : dict;
    ctx_page : Z }.

(** [templates.TemplateResponse(name, context)], the [request] entry of
    the context left out. *)
Inductive template_response : Type :=
| IndexHtml (error : pystr)
| DashboardHtml (context : template_context).

(** The dictionary [fetch_github_data] returns on success. *)
Record github_data : Type :=
  { owner : pystr;
    repo : pystr;
    issue_title : pyval;
    full_text : pystr;
    issues_list : pyval;
    current_page : Z }.

Definition GITHUB_TOKEN : option pystr := None.

Definition target_model_name : pystr := u "gemini-2.5-flash".
Definition fallback_model_name : pystr := u "gemini-2.0-flash".

(** The value [safe_analysis] starts from. *)
Definition safe_default : dict :=
  [ (VStr (u "summary"), VStr (u "AI could not analyze this issue."));
    (VStr (u "type"), VStr (u "other"));
    (VStr (u "priority_score"), VInt 0);
    (VStr (u "suggested_labels"), VList [VStr (u "error")]);
    (VStr (u "potential_impact"), VStr (u "Unknown")) ].

(** [safe_default] with its summary replaced. *)
Definition with_summary (summary : pystr) : dict :=
  [ (VStr (u "summary"), VStr summary);
    (VStr (u "type"), VStr (u "other"));
    (VStr (u "priority_score"), VInt 0);
    (VStr (u "suggested_labels"), VList [VStr (u "error")]);
    (VStr (u "potential_impact"), VStr (u "Unknown")) ].


(** ** Analyzer outputs used as examples *)

(** [{"type": "bug", "priority_score": 4}] *)
Definition doc_type_priority : pystr :=
  u "{" ++ quote "type" ++ u ": " ++ quote "bug" ++ u ", "
    ++ quote "priority_score" ++ u ": 4}".

(** [{"error": "quota exceeded"}] *)
Definition doc_quota : pystr :=
  u "{" ++ quote "error" ++ u ": " ++ quote "quota exceeded" ++ u "}".

(** [{"type": "bug", "severity": "high"}] *)
Definition doc_extra_key : pystr :=
  u "{" ++ quote "type" ++ u ": " ++ quote "bug" ++ u ", "
    ++ quote "severity" ++ u ": " ++ quote "high" ++ u "}".

(** [{"priority_score": 99}] *)
Definition doc_priority_99 : pystr :=
  u "{" ++ quote "priority_score" ++ u ": 99}".

(** [Sorry, I cannot help with that.] *)
Definition doc_prose : pystr := u "Sorry, I cannot help with that.".



(** The field of the assembled analysis that holds the priority. *)
Definition priority_score (analysis : dict) : option pyval :=
  dict_get (VStr (u "priority_score")) analysis.

(** An integer from 0 to 5. *)
Definition in_priority_range (v : option pyval) : bool :=
  match v with
  | Some (VInt z) => (0 <=? z)%Z && (z <=? 5)%Z
  | _ => false
  end.

(** The f-string of [analyze_with_gemini], up to and after [{issue_text}]. *)
Definition prompt_head : pystr :=
  Str.join [LF]
    [ [];
      u "    You are an expert Engineering Manager. Analyze the following GitHub issue and return ONLY a JSON object.";
      u "    ";
      u "    Format requirements:";
      u "    {";
      u "        " ++ quote "summary" ++ u ": " ++ quote "One sentence summary" ++ u ",";
      u "        " ++ quote "type" ++ u ": " ++ quote "bug" ++ u " | " ++ quote "feature_request"
        ++ u " | " ++ quote "documentation" ++ u " | " ++ quote "question" ++ u " | "
        ++ quote "other" ++ u ",";
      u "        " ++ quote "priority_score" ++ u ": 1-5 (int),";
      u "        " ++ quote "suggested_labels" ++ u ": [" ++ quote "label1" ++ u ", "
        ++ quote "label2" ++ u "],";
      u "        " ++ quote "potential_impact" ++ u ": " ++ quote "Short sentence on user impact";
      u "    }";
      [];
      u "    Issue Data:";
      u "    " ].

Definition prompt_tail : pystr := LF :: u "    ".

Definition make_prompt (issue_text : pystr) : pystr :=
  prompt_head ++ issue_text ++ prompt_tail.

(** [parts = repo_url.rstrip("/").split("/")] and
    [owner, repo = parts[-2], parts[-1]]. *)
Definition owner_and_repo (repo_url : pystr) : result (pystr * pystr) :=
  let parts := Str.split (u "/") (Str.rstrip (u "/") repo_url) in
  match index_from_end parts 2 with
  | Raise e => Raise e
  | Ok owner =>
      match index_from_end parts 1 with
      | Raise e => Raise e
      | Ok repo => Ok (owner, repo)
      end
  end.

Definition request_headers : headers :=
  let hs := [(u "Accept", u "application/vnd.github.v3+json")] in
  if truthy GITHUB_TOKEN
  then hs ++ [(u "Authorization",
               u "token " ++ match GITHUB_TOKEN with Some t => t | None => [] end)]
  else hs.

Definition api : pystr := u "https://api.github.com/repos/".

Definition issue_url (owner repo : pystr) (issue_number : Z) : pystr :=
  api ++ owner ++ u "/" ++ repo ++ u "/issues/" ++ Str.of_Z issue_number.

Definition comments_url (owner repo : pystr) (issue_number : Z) : pystr :=
  api ++ owner ++ u "/" ++ repo ++ u "/issues/" ++ Str.of_Z issue_number
      ++ u "/comments".

Definition issues_list_url (owner repo : pystr) (page : Z) : pystr :=
  api ++ owner ++ u "/" ++ repo
      ++ u "/issues?per_page=30&state=all&sort=updated&page=" ++ Str.of_Z page.

(** ** A scripted world

    A world that answers from two scripts, one for the HTTP layer and one
    for the model service, each consumed one answer per call; the listing
    of models is fixed.  Used to run the pipeline on concrete scenarios. *)
Record script : Type :=
  { http_answers : list (result http_response);
    model_answers : list (result generation);
    listing : list model_info * option exn }.

Definition ConnectionError (msg : pystr) : exn := Exn (u "ConnectionError") msg.

Definition scripted_get (url : pystr) (hs : headers) (w : script)
  : result http_response * script :=
  match http_answers w with
  | a :: rest =>
      (a, {| http_answers := rest; model_answers := model_answers w;
             listing := listing w |})
  | [] => (Raise (ConnectionError (u "no route to host")), w)
  end.

Definition scripted_generate (model prompt : pystr) (w : script)
  : result generation * script :=
  match model_answers w with
  | a :: rest =>
      (a, {| http_answers := http_answers w; model_answers := rest;
             listing := listing w |})
  | [] => (Raise (Exn (u "ResourceExhausted") (u "429 quota exceeded")), w)
  end.

Definition scripted_list_models (w : script)
  : (list model_info * option exn) * script := (listing w, w).

(** The standard output of the scenarios is an open UTF-8 stream: [print]
    raises [UnicodeEncodeError] on a text that holds a surrogate, which
    UTF-8 does not encode, and returns on every other text. *)
Definition is_surrogate (c : N) : bool := ((55296 <=? c) && (c <=? 57343))%N.

Definition UnicodeEncodeError (msg : pystr) : exn := Exn (u "UnicodeEncodeError") msg.

(** The first run of surrogates: where it starts, its first character and
    its length. *)
Fixpoint first_surrogates (pos : nat) (s : pystr) : option (nat * N * nat) :=
  match s with
  | [] => None
  | c :: r =>
      if is_surrogate c
      then Some (pos, c, S (length r - length (Str.lstrip_by is_surrogate r)))
      else first_surrogates (S pos) r
  end.

Definition scripted_print (line : pystr) (w : script) : result unit * script :=
  match first_surrogates 0 line with
  | None => (Ok tt, w)
  | Some (pos, c, 1) =>
      (Raise (UnicodeEncodeError
                (u "'utf-8' codec can't encode character '" ++ BSL :: u "u"
                   ++ JsonEncode.hex4_of c ++ u "' in position "
                   ++ Str.of_Z (Z.of_nat pos) ++ u ": surrogates not allowed")), w)
  | Some (pos, _, len) =>
      (Raise (UnicodeEncodeError
                (u "'utf-8' codec can't encode characters in position "
                   ++ Str.of_Z (Z.of_nat pos) ++ u "-"
                   ++ Str.of_Z (Z.of_nat (pos + len - 1))
                   ++ u ": surrogates not allowed")), w)
  end.

(** ** Scenarios *)

Definition issue_json : pyval :=
  VDict [ (VStr (u "title"), VStr (u "Crash on start"));
          (VStr (u "body"), VStr (u "It crashes.")) ].

Definition comments_json : pyval :=
  VList [ VDict [ (VStr (u "body"), VStr (u "Same here.")) ] ].

Definition ok_response (v : pyval) : result http_response :=
  Ok {| status_code := 200; json := Ok v |}.

Definition not_found : result http_response :=
  Ok {| status_code := 404;
        json := Ok (VDict [ (VStr (u "message"), VStr (u "Not Found")) ]) |}.

Definition answer (raw : pystr) : result generation := Ok {| text := Ok raw |}.

Definition repo_url_example : pystr := u "https://github.com/octo/seed/".

(** The three requests succeed and the primary model answers [raw]. *)
Definition world_answering (raw : pystr) : script :=
  {| http_answers :=
       [ ok_response issue_json; ok_response comments_json; ok_response (VList []) ];
     model_answers := [ answer raw ];
     listing := ([], None) |}.

(** The issue does not exist; the two other requests are answered. *)
Definition world_not_found : script :=
  {| http_answers := [ not_found; ok_response (VList []); ok_response (VList []) ];
     model_answers := [ answer (u "{}") ];
     listing := ([], None) |}.

(** The issue does not exist and the connection drops on the comments
    request. *)
Definition world_not_found_then_down : script :=
  {| http_answers := [ not_found; Raise (ConnectionError (u "Connection aborted.")) ];
     model_answers := [ answer (u "{}") ];
     listing := ([], None) |}.

(** The first request raises an exception without a message. *)
Definition world_silent_timeout : script :=
  {| http_answers := [ Raise (Exn (u "Timeout") []) ];
     model_answers := [ answer (u "{}") ];
     listing := ([], None) |}.

(** The primary model is refused and the fallback model answers [raw]. *)
Definition world_primary_down (raw : pystr) : script :=
  {| http_answers := [];
     model_answers :=
       [ Raise (Exn (u "NotFound") (u "404 models/gemini-2.5-flash is not found"));
         answer raw ];
     listing := ([], None) |}.

(** A payload between the code-fence markers of Markdown, as in
    ["```json\n{...}\n```"]. *)
Definition fenced (payload : pystr) : pystr :=
  u "```json" ++ [LF] ++ payload ++ [LF] ++ u "```".

(** [{"summary": "Use ``` to quote"}] *)
Definition doc_backticks : pystr :=
  u "{" ++ quote "summary" ++ u ": " ++ quote "Use ``` to quote" ++ u "}".

(** A stand-in for [repr], exact on the values the scenarios format. *)
Definition plain_repr (v : pyval) : pystr :=
  match v with
  | VList [] => u "[]"
  | _ => u "..."
  end.


(** The context of the dashboard for fetched [data] and an [analysis]. *)
Definition dashboard_of (repo_url : pystr) (issue_number page : Z)
           (data : github_data) (analysis : dict) : template_context :=
  {| ctx_repo_url := repo_url;
     ctx_repo_name := owner data ++ u "/" ++ repo data;
     ctx_issue_number := issue_number;
     ctx_issue_title := issue_title data;
     ctx_issues_list := issues_list data;
     ctx_analysis := analysis;
     ctx_page := page |}.

(** The number of model invocations recorded in a trace. *)
Definition generate_calls (tr : list event) : nat :=
  length (filter (fun e => match e with EvGenerate _ _ => true | _ => false end) tr).

(** The model invocations of a trace, in order. *)
Definition invocations (tr : list event) : list (pystr * pystr) :=
  flat_map (fun e => match e with EvGenerate m p => [(m, p)] | _ => [] end) tr.

(** What [print] wrote and what was asked of the model service after a
    failure [e] of the primary model. *)
Definition fallback_events (prompt : pystr) (e : exn) : list event :=
  [ EvGenerate target_model_name prompt;
    EvPrint (u "Error using " ++ target_model_name ++ u ": " ++ exn_str e);
    EvPrint (u "Retrying with fallback model: " ++ fallback_model_name);
    EvGenerate fallback_model_name prompt ].

(** The message of the error object when both models fail. *)
Definition both_failed_message (repr : pyval -> pystr)
           (available_models : list pystr) (fallback_e : exn) : pystr :=
  u "Model " ++ target_model_name ++ u " failed. Fallback " ++ fallback_model_name
    ++ u " also failed. Available models: "
    ++ repr (VList (map VStr available_models))
    ++ u ". Error: " ++ exn_str fallback_e.

(** The two lines [analyze_with_gemini] prints after a failure [e] of the
    primary model. *)
Definition error_using (e : exn) : pystr :=
  u "Error using " ++ target_model_name ++ u ": " ++ exn_str e.

Definition retrying : pystr :=
  u "Retrying with fallback model: " ++ fallback_model_name.

Section Pipeline.

(** The state of the network, of the model service and of the standard
    output, and how each call answers and moves it.  [builtin_print] is
    [print] on one string: it raises when the stream refuses the text (a
    text the encoding of [sys.stdout] cannot encode, a stream that is closed
    or broken).  [repr] is the built-in [repr]. *)
Variable World : Type.
Variable requests_get : pystr -> headers -> World -> result http_response * World.
Variable generate_content : pystr -> pystr -> World -> result generation * World.
Variable list_models : World -> (list model_info * option exn) * World.
Variable builtin_print : pystr -> World -> result unit * World.
Variable repr : pyval -> pystr.

Record state : Type := { world : World; trace : list event }.

(** ** Computations: state passing with exceptions *)

Definition M (A : Type) : Type := state -> result A * state.

Definition ret {A} (a : A) : M A := fun st => (Ok a, st).

Definition raise {A} (e : exn) : M A := fun st => (Raise e, st).

Definition bind {A B} (m : M A) (k : A -> M B) : M B :=
  fun st =>
    match m st with
    | (Ok a, st') => k a st'
    | (Raise e, st') => (Raise e, st')
    end.

(** [try: body  except Exception as e: handler] *)
Definition try_except {A} (body : M A) (handler : exn -> M A) : M A :=
  fun st =>
    match body st with
    | (Ok a, st') => (Ok a, st')
    | (Raise e, st') => handler e st'
    end.

Definition lift {A} (r : result A) : M A := fun st => (r, st).

Definition log (e : event) (st : state) : state :=
  {| world := world st; trace := trace st ++ [e] |}.

Notation "x <- m ;; k" := (bind m (fun x => k))
  (at level 61, m at next level, right associativity).
Notation "m ;;; k" := (bind m (fun _ => k))
  (at level 61, right associativity).

Definition http_get (url : pystr) (hs : headers) : M http_response :=
  fun st =>
    let (r, w) := requests_get url hs (world st) in
    (r, log (EvGet url hs) {| world := w; trace := trace st |}).

Definition invoke_model (model prompt : pystr) : M generation :=
  fun st =>
    let (r, w) := generate_content model prompt (world st) in
    (r, log (EvGenerate model prompt) {| world := w; trace := trace st |}).

Definition print (line : pystr) : M unit :=
  fun st =>
    let (r, w) := builtin_print line (world st) in
    (r, log (EvPrint line) {| world := w; trace := trace st |}).

(** [str(v)], as an f-string formats a value. *)
Definition py_str (v : pyval) : pystr :=
  match v with
  | VStr s => s
  | VNone => u "None"
  | VBool true => u "True"
  | VBool false => u "False"
  | VInt z => Str.of_Z z
  | _ => repr v
  end.

(** ** [fetch_github_data] *)

(** The [for comment in comments_data] loop. *)
Fixpoint add_comments (full_text : pystr) (comments : list pyval) : result pystr :=
  match comments with
  | [] => Ok full_text
  | comment :: rest =>
      match py_get comment (u "body") with
      | Ok body =>
          add_comments (full_text ++ u "Comment: " ++ py_str body ++ [LF]) rest
      | Raise e => Raise e
      end
  end.

Definition fetch_github_data (repo_url : pystr) (issue_number page : Z)
  : M (option github_data * option pystr) :=
  try_except
    (names <- lift (owner_and_repo repo_url) ;;
     let '(owner, repo) := names in
     let hs := request_headers in
     issue_res <- http_get (issue_url owner repo issue_number) hs ;;
     comments_res <- http_get (comments_url owner repo issue_number) hs ;;
     issues_list_res <- http_get (issues_list_url owner repo page) hs ;;
     if negb (status_code issue_res =? 200)%Z
     then ret (None, Some (u "Error fetching issue: "
                           ++ Str.of_Z (status_code issue_res)))
     else
       issue_data <- lift (json issue_res) ;;
       comments_data <-
         (if (status_code comments_res =? 200)%Z
          then lift (json comments_res) else ret (VList [])) ;;
       issues_list_data <-
         (if (status_code issues_list_res =? 200)%Z
          then lift (json issues_list_res) else ret (VList [])) ;;
       title <- lift (py_get issue_data (u "title")) ;;
       body <- lift (py_get issue_data (u "body")) ;;
       let full_text :=
         u "Title: " ++ py_str title ++ [LF; LF] ++ u "Body:" ++ [LF]
           ++ py_str body ++ [LF; LF] in
       comments <- lift (py_iter comments_data) ;;
       full_text <- lift (add_comments full_text comments) ;;
       issue_title <- lift (py_get issue_data (u "title")) ;;
       ret (Some {| owner := owner;
                    repo := repo;
                    issue_title := issue_title;
                    full_text := full_text;
                    issues_list := issues_list_data;
                    current_page := page |},
            None))
    (fun e => ret (None, Some (exn_str e))).

(** ** [analyze_with_gemini] *)

Definition supports_generate (m : model_info) : bool :=
  existsb (Str.eqb (u "generateContent")) (supported_generation_methods m).

(** The listing loop under its bare [except: pass]: the names appended
    before a failure of the listing are kept. *)
Definition enumerate_models : M (list pystr) :=
  fun st =>
    let '((listed, failure), w) := list_models (world st) in
    let available_models := map name (filter supports_generate listed) in
    let st' := log EvListModels {| world := w; trace := trace st |} in
    match failure with
    | None => (Ok available_models, st')
    | Some _ => (Ok available_models, st')
    end.

(** [response.text.replace("```json", "").replace("```", "").strip()] *)
Definition clean (raw : pystr) : pystr :=
  Str.strip (Str.replace (u "```") [] (Str.replace (u "```json") [] raw)).

Definition error_json (message : pystr) : pystr :=
  JsonEncode.dumps [(u "error", message)].

(** The last [try] of the function. *)
Definition extract_text (response : generation) : M pystr :=
  try_except
    (raw <- lift (text response) ;;
     ret (clean raw))
    (fun e => ret (error_json (u "AI Parsing failed: " ++ exn_str e))).

(** [inl response]: the first [try] statement ended with [response]
    bound; [inr s]: it ended in the [return s] of the inner handler. *)
Definition analyze_with_gemini (issue_text : pystr) : M pystr :=
  let prompt := make_prompt issue_text in
  outcome <-
    try_except
      (response <- invoke_model target_model_name prompt ;;
       ret (inl response))
      (fun e =>
         print (u "Error using " ++ target_model_name ++ u ": " ++ exn_str e) ;;;
         try_except
           (print (u "Retrying with fallback model: " ++ fallback_model_name) ;;;
            response <- invoke_model fallback_model_name prompt ;;
            ret (inl response))
           (fun fallback_e =>
              available_models <- enumerate_models ;;
              ret (inr (error_json
                          (u "Model " ++ target_model_name
                             ++ u " failed. Fallback " ++ fallback_model_name
                             ++ u " also failed. Available models: "
                             ++ repr (VList (map VStr available_models))
                             ++ u ". Error: " ++ exn_str fallback_e))))) ;;
  match outcome with
  | inr returned => ret returned
  | inl response => extract_text response
  end.

(** ** [render_dashboard] *)

(** The body of the [try] on [json.loads]: [safe_analysis] as the body
    leaves it, and how the body ended. *)
Definition merge_analysis (safe_analysis : dict) (ai_response_json : pystr)
  : dict * result unit :=
  match Json.loads ai_response_json with
  | Raise e => (safe_analysis, Raise e)
  | Ok parsed_data =>
      match py_contains (u "error") parsed_data with
      | Raise e => (safe_analysis, Raise e)
      | Ok true =>
          match py_getitem parsed_data (u "error") with
          | Raise e => (safe_analysis, Raise e)
          | Ok err =>
              (dict_set (VStr (u "summary")) (VStr (u "AI Error: " ++ py_str err))
                        safe_analysis, Ok tt)
          end
      | Ok false => dict_update safe_analysis parsed_data
      end
  end.

(** [safe_analysis] after the [try]/[except] on the analyzer's output. *)
Definition normalize (ai_response_json : pystr) : dict :=
  match merge_analysis safe_default ai_response_json with
  | (safe_analysis, Ok _) => safe_analysis
  | (safe_analysis, Raise e) =>
      dict_set (VStr (u "summary"))
               (VStr (u "Error parsing AI response: " ++ exn_str e))
               safe_analysis
  end.

(** [data["full_text"]] and the other subscripts of [data]. *)
Definition subscript_data (data : option github_data) : result github_data :=
  match data with
  | Some d => Ok d
  | None => Raise (TypeError (u "'NoneType' object is not subscriptable"))
  end.

Definition render_dashboard (repo_url : pystr) (issue_number page : Z)
  : M template_response :=
  fetched <- fetch_github_data repo_url issue_number page ;;
  let '(data, error) := fetched in
  if truthy error
  then ret (IndexHtml (u "Could not find issue: "
                       ++ match error with Some e => e | None => [] end))
  else
    data <- lift (subscript_data data) ;;
    ai_response_json <- analyze_with_gemini (full_text data) ;;
    let safe_analysis := normalize ai_response_json in
    ret (DashboardHtml
           {| ctx_repo_url := repo_url;
              ctx_repo_name := owner data ++ u "/" ++ repo data;
              ctx_issue_number := issue_number;
              ctx_issue_title := issue_title data;
              ctx_issues_list := issues_list data;
              ctx_analysis := safe_analysis;
              ctx_page := page |}).

Definition start (w : World) : state := {| world := w; trace := [] |}.

(** The state once the primary model has answered, and once the
    fallback model has answered after a failure [e] of the primary. *)
Definition after_primary (t : pystr) (st : state) (w1 : World) : state :=
  {| world := w1; trace := trace st ++ [EvGenerate target_model_name (make_prompt t)] |}.

Definition after_fallback (t : pystr) (st : state) (e : exn) (w2 : World)
  : state :=
  {| world := w2;
     trace :=
       trace st
         ++ [EvGenerate target_model_name (make_prompt t);
             EvPrint (u "Error using " ++ target_model_name ++ u ": " ++ exn_str e);
             EvPrint (u "Retrying with fallback model: " ++ fallback_model_name);
             EvGenerate fallback_model_name (make_prompt t)] |}.


(** The primary model raises [e] and the two lines are printed: the
    fallback model is about to be invoked, in the world [w]. *)
Definition falls_back (issue_text : pystr) (st : state) (e : exn) (w : World)
  : Prop :=
  exists w1 w2,
    generate_content target_model_name (make_prompt issue_text) (world st)
    = (Raise e, w1)
    /\ builtin_print (error_using e) w1 = (Ok tt, w2)
    /\ builtin_print retrying w2 = (Ok tt, w).

(** A model answers [issue_text] with [response]: the primary model, or
    the fallback model, invoked after a failure of the primary. *)
Definition answers (issue_text : pystr) (st : state) (response : generation) : Prop :=
  (exists w1,
      generate_content target_model_name (make_prompt issue_text) (world st)
      = (Ok response, w1))
  \/ (exists e w w',
         falls_back issue_text st e w
         /\ generate_content fallback_model_name (make_prompt issue_text) w
            = (Ok response, w')).

(** The five ways through the analyzer, each with what it returns and
    the state it leaves. *)
Inductive analyzer_path (t : pystr) (st : state)
  : result pystr * state -> Prop :=
| path_primary (resp : generation) (w1 : World) :
    generate_content target_model_name (make_prompt t) (world st) = (Ok resp, w1) ->
    analyzer_path t st (extract_text resp (after_primary t st w1))
| path_first_print (e : exn) (w1 : World) (pe : exn) (w2 : World) :
    generate_content target_model_name (make_prompt t) (world st) = (Raise e, w1) ->
    builtin_print (error_using e) w1 = (Raise pe, w2) ->
    analyzer_path t st
      (Raise pe,
       {| world := w2;
          trace := trace st ++ [EvGenerate target_model_name (make_prompt t);
                                EvPrint (error_using e)] |})
| path_second_print (e : exn) (w1 w2 : World) (pe : exn) (w3 : World)
                    (listed : list model_info) (failure : option exn) (w4 : World) :
    generate_content target_model_name (make_prompt t) (world st) = (Raise e, w1) ->
    builtin_print (error_using e) w1 = (Ok tt, w2) ->
    builtin_print retrying w2 = (Raise pe, w3) ->
    list_models w3 = ((listed, failure), w4) ->
    analyzer_path t st
      (Ok (error_json
             (both_failed_message repr (map name (filter supports_generate listed)) pe)),
       {| world := w4;
          trace := trace st ++ [EvGenerate target_model_name (make_prompt t);
                                EvPrint (error_using e); EvPrint retrying;
                                EvListModels] |})
| path_fallback (e : exn) (w : World) (resp : generation) (w' : World) :
    falls_back t st e w ->
    generate_content fallback_model_name (make_prompt t) w = (Ok resp, w') ->
    analyzer_path t st (extract_text resp (after_fallback t st e w'))
| path_both_fail (e : exn) (w : World) (e2 : exn) (w' : World)
                 (listed : list model_info) (failure : option exn) (w'' : World) :
    falls_back t st e w ->
    generate_content fallback_model_name (make_prompt t) w = (Raise e2, w') ->
    list_models w' = ((listed, failure), w'') ->
    analyzer_path t st
      (Ok (error_json
             (both_failed_message repr (map name (filter supports_generate listed)) e2)),
       {| world := w'';
          trace := trace st ++ fallback_events (make_prompt t) e ++ [EvListModels] |}).

End Pipeline.

(* ================================================================== *)
(** * The routes, and what the further properties are stated with *)
(* ================================================================== *)

Section Routes.

Variable World : Type.
Variable requests_get : pystr -> headers -> World -> result http_response * World.
Variable generate_content : pystr -> pystr -> World -> result generation * World.
Variable list_models : World -> (list model_info * option exn) * World.
Variable builtin_print : pystr -> World -> result unit * World.
Variable repr : pyval -> pystr.

(** [POST /analyze]: a new submission starts at page 1. *)
Definition analyze_post (repo_url : pystr) (issue_number : Z)
  : M World template_response :=
  render_dashboard requests_get generate_content list_models builtin_print repr
                   repo_url issue_number 1.

(** [GET /analyze]: the page comes from the link. *)
Definition analyze_get (repo_url : pystr) (issue_number page : Z)
  : M World template_response :=
  render_dashboard requests_get generate_content list_models builtin_print repr
                   repo_url issue_number page.

End Routes.

Definition SLASH : N := 47%N.

(** No [/] in a string. *)
Definition no_slash (s : pystr) : bool := negb (existsb (N.eqb SLASH) s).

(** [res.json() if res.status_code == 200 else []] *)
Definition json_or_empty (res : http_response) : result pyval :=
  if (status_code res =? 200)%Z then json res else Ok (VList []).

Definition is_dict (v : pyval) : bool :=
  match v with VDict _ => true | _ => false end.

(** [v.get(key)] on a value known to be a dictionary. *)
Definition field (v : pyval) (key : string) : pyval :=
  match v with
  | VDict d => match dict_get (VStr (u key)) d with Some x => x | None => VNone end
  | _ => VNone
  end.

(** The text [fetch_github_data] builds for the model: the title and the
    body of the issue, then one line per comment. *)
Definition header_text (repr : pyval -> pystr) (issue : pyval) : pystr :=
  u "Title: " ++ py_str repr (field issue "title") ++ [LF; LF] ++ u "Body:" ++ [LF]
    ++ py_str repr (field issue "body") ++ [LF; LF].

Definition comment_line (repr : pyval -> pystr) (comment : pyval) : pystr :=
  u "Comment: " ++ py_str repr (field comment "body") ++ [LF].

(** The three requests of a fetch, in the order they are made. *)
Definition fetch_requests (owner repo : pystr) (issue_number page : Z) : list event :=
  [ EvGet (issue_url owner repo issue_number) request_headers;
    EvGet (comments_url owner repo issue_number) request_headers;
    EvGet (issues_list_url owner repo page) request_headers ].

Definition is_get (e : event) : bool :=
  match e with EvGet _ _ => true | _ => false end.

(** A code point of a character, not of half a surrogate pair. *)
Definition is_scalar (c : N) : bool :=
  ((c <? 55296) || ((57343 <? c) && (c <? 1114112)))%N.

(** ** Further scenarios *)

Definition status_only (code : Z) : result http_response :=
  Ok {| status_code := code;
        json := Raise (Exn (u "JSONDecodeError")
                           (u "Expecting value: line 1 column 1 (char 0)")) |}.

(** The issue is fetched; the two other requests are refused. *)
Definition world_issue_only : script :=
  {| http_answers := [ ok_response issue_json; status_only 500; status_only 403 ];
     model_answers := [ answer (u "{}") ];
     listing := ([], None) |}.

(** The issue comes back as an array. *)
Definition world_issue_is_array : script :=
  {| http_answers :=
       [ ok_response (VList []); ok_response comments_json; ok_response (VList []) ];
     model_answers := [ answer (u "{}") ];
     listing := ([], None) |}.

(** The second comment is a string. *)
Definition world_comment_is_string : script :=
  {| http_answers :=
       [ ok_response issue_json;
         ok_response (VList [ VDict [ (VStr (u "body"), VStr (u "Same here.")) ];
                              VStr (u "oops");
                              VDict [] ]);
         ok_response (VList []) ];
     model_answers := [ answer (u "{}") ];
     listing := ([], None) |}.

(** The number of back quotes a string starts with. *)
Fixpoint leading_ticks (s : pystr) : nat :=
  match s with
  | c :: s' => if (96 =? c)%N then S (leading_ticks s') else 0
  | [] => 0
  end.

(** The three requests succeed and no model is available. *)
Definition world_models_down : script :=
  {| http_answers :=
       [ ok_response issue_json; ok_response comments_json; ok_response (VList []) ];
     model_answers := [];
     listing := ([], None) |}.

(** The three requests succeed and the primary model returns a response
    whose [text] cannot be read. *)
Definition blocked : generation :=
  {| text := Raise (Exn (u "ValueError") (u "The response was blocked.")) |}.

Definition world_blocked : script :=
  {| http_answers :=
       [ ok_response issue_json; ok_response comments_json; ok_response (VList []) ];
     model_answers := [ Ok blocked ];
     listing := ([], None) |}.

(** The data fetched in the scenarios whose three requests succeed. *)
Definition data_example : github_data :=
  {| owner := u "octo"; repo := u "seed";
     issue_title := VStr (u "Crash on start");
     full_text :=
       u "Title: Crash on start" ++ [LF; LF] ++ u "Body:" ++ [LF]
         ++ u "It crashes." ++ [LF; LF] ++ u "Comment: Same here." ++ [LF];
     issues_list := VList [];
     current_page := 1 |}.





(** The primary model is refused with a message that holds half a
    surrogate pair; the fallback model would answer [raw]. *)
Definition garbled : exn :=
  Exn (u "InvalidArgument") (u "400 unreadable input: " ++ [55357%N]).

Definition world_primary_garbled (raw : pystr) : script :=
  {| http_answers := [];
     model_answers := [ Raise garbled; answer raw ];
     listing := ([], None) |}.

(** What a dashboard owes to the request it answers: the URL, the issue
    number and the page come back as they were given, the name is the owner
    and the repository of the URL, and the issue list was asked for that
    page. *)
Definition echoes (repo_url : pystr) (issue_number page : Z)
           (ctx : template_context) (tr : list event) : Prop :=
  ctx_repo_url ctx = repo_url
  /\ ctx_issue_number ctx = issue_number
  /\ ctx_page ctx = page
  /\ exists o r,
      owner_and_repo repo_url = Ok (o, r)
      /\ ctx_repo_name ctx = o ++ u "/" ++ r
      /\ In (EvGet (issues_list_url o r page) request_headers) tr.

(* ================================================================== *)
(** * Properties *)
(* ================================================================== *)

Unset Implicit Arguments.

(** ** Strings *)

Lemma Str_eqb_eq (a b : pystr) : Str.eqb a b = true <-> a = b.
Proof.
  revert b; induction a as [|x a IH]; intros [|y b]; simpl; split;
    try congruence; try discriminate.
  - intros H. apply andb_true_iff in H as [H1 H2].
    apply N.eqb_eq in H1. apply IH in H2. congruence.
  - intros H. injection H as -> ->. rewrite N.eqb_refl. simpl. now apply IH.
Qed.

Lemma Str_eqb_refl (a : pystr) : Str.eqb a a = true.
Proof. now apply Str_eqb_eq. Qed.

Example split_url :
  Str.split (u "/") (Str.rstrip (u "/") (u "https://github.com/o/r//"))
  = [u "https:"; []; u "github.com"; u "o"; u "r"].
Proof. reflexivity. Qed.

Example replace_overlap :
  Str.replace (u "```") [] (Str.replace (u "```json") [] (u "`````json")) = u "``".
Proof. reflexivity. Qed.

Example strip_ex : Str.strip ([LF; 32%N] ++ u "a b" ++ [9%N; 12288%N]) = u "a b".
Proof. reflexivity. Qed.

Example of_Z_ex : Str.of_Z 404 = u "404" /\ Str.of_Z (-7) = u "-7" /\ Str.of_Z 0 = u "0".
Proof. repeat split. Qed.

(** Numbers are one key when they are equal, whatever their type:
    [{}.update([[1, 'a'], [1.0, 'b'], [True, 'c']])] leaves [{1: 'c'}]. *)
Example numbers_are_one_key :
  fst (dict_update []
         (VList [ VList [VInt 1; VStr (u "a")];
                  VList [VFloat (u "1.0"); VStr (u "b")];
                  VList [VBool true; VStr (u "c")] ]))
  = [(VInt 1, VStr (u "c"))]
  /\ key_eqb (VFloat (u "0.1")) (VFloat (u "1e-1")) = true
  /\ key_eqb (VInt 0) (VFloat (u "-0.0")) = true
  /\ key_eqb (VFloat (u "1e22")) (VInt (10 ^ 22)) = true
  /\ key_eqb (VFloat (u "9007199254740993.0")) (VInt 9007199254740993) = false
  /\ key_eqb (VFloat (u "9007199254740993.0")) (VInt 9007199254740992) = true
  /\ key_eqb (VFloat (u "NaN")) (VFloat (u "NaN")) = false
  /\ key_eqb (VFloat (u "1e999")) (VFloat (u "Infinity")) = true.
Proof. repeat split. Qed.

(** [print] on an open UTF-8 stream. *)
Example print_refuses_surrogates :
  fst (scripted_print (u "ab" ++ [55296%N]) world_silent_timeout)
  = Raise (UnicodeEncodeError
             (u "'utf-8' codec can't encode character '" ++ BSL
                :: u "ud800' in position 2: surrogates not allowed"))
  /\ fst (scripted_print ([56320%N; 57343%N] ++ u "x") world_silent_timeout)
     = Raise (UnicodeEncodeError
                (u "'utf-8' codec can't encode characters in position 0-1: surrogates not allowed"))
  /\ fst (scripted_print (u "ok " ++ [233%N; 128512%N]) world_silent_timeout) = Ok tt.
Proof. repeat split. Qed.

Lemma startswith_app (a b s : pystr) :
  Str.startswith (a ++ b) s = true -> Str.startswith a s = true.
Proof.
  revert s; induction a as [|x a IH]; intros s; simpl; [reflexivity|].
  destruct s as [|y s]; [discriminate|].
  intros H. apply andb_true_iff in H as [H1 H2].
  rewrite H1. simpl. now apply IH.
Qed.

Lemma startswith_self (a s : pystr) : Str.startswith a (a ++ s) = true.
Proof.
  induction a as [|x a IH]; simpl; [reflexivity|].
  now rewrite N.eqb_refl.
Qed.

Lemma contains_cons_false (sub : pystr) (c : N) (s : pystr) :
  Str.contains sub (c :: s) = false ->
  Str.startswith sub (c :: s) = false /\ Str.contains sub s = false.
Proof. simpl. intros H. now apply orb_false_elim in H. Qed.

Lemma contains_false_startswith (sub s : pystr) :
  Str.contains sub s = false -> Str.startswith sub s = false.
Proof.
  destruct s; simpl; intros H; now apply orb_false_elim in H.
Qed.

Lemma replace_from_cons_keep (old new : pystr) (c : N) (s : pystr) :
  Str.startswith old (c :: s) = false ->
  Str.replace_from old new 0 (c :: s) = c :: Str.replace_from old new 0 s.
Proof. intros H. simpl. simpl in H. now rewrite H. Qed.

Lemma replace_from_skip (old new a s : pystr) :
  Str.replace_from old new (length a) (a ++ s) = Str.replace_from old new 0 s.
Proof. induction a as [|x a IH]; simpl; [reflexivity | exact IH]. Qed.

(** A leading occurrence is replaced and the scan goes on after it. *)
Lemma replace_from_prefix (old new s : pystr) :
  old <> [] ->
  Str.replace_from old new 0 (old ++ s) = new ++ Str.replace_from old new 0 s.
Proof.
  destruct old as [|x old]; [congruence|]. intros _.
  change ((x :: old) ++ s) with (x :: (old ++ s)).
  cbn [Str.replace_from].
  change (x :: old ++ s) with ((x :: old) ++ s). rewrite startswith_self.
  replace (length (x :: old) - 1) with (length old) by (simpl; lia).
  now rewrite replace_from_skip.
Qed.

(** Without an occurrence nothing is replaced. *)
Lemma replace_from_absent (old new s : pystr) :
  Str.contains old s = false -> Str.replace_from old new 0 s = s.
Proof.
  induction s as [|c s IH]; intros H; [reflexivity|].
  apply contains_cons_false in H as [H1 H2].
  rewrite (replace_from_cons_keep old new c s H1). now rewrite IH.
Qed.

Lemma rstrip_by_snoc_drop (drop : N -> bool) (s : pystr) (c : N) :
  drop c = true -> Str.rstrip_by drop (s ++ [c]) = Str.rstrip_by drop s.
Proof.
  intros H. unfold Str.rstrip_by. induction s as [|a s IH]; simpl.
  - now rewrite H.
  - now rewrite IH.
Qed.

Lemma rstrip_by_snoc_keep (drop : N -> bool) (s : pystr) (c : N) :
  drop c = false -> Str.rstrip_by drop (s ++ [c]) = s ++ [c].
Proof.
  intros H. unfold Str.rstrip_by. induction s as [|a s IH]; simpl.
  - now rewrite H.
  - rewrite IH.
    destruct (s ++ [c]) eqn:E; [|reflexivity].
    now destruct s.
Qed.

Lemma strip_cons_drop (drop : N -> bool) (c : N) (s : pystr) :
  drop c = true ->
  Str.lstrip_by drop (Str.rstrip_by drop (c :: s))
  = Str.lstrip_by drop (Str.rstrip_by drop s).
Proof.
  intros H. unfold Str.rstrip_by. simpl.
  destruct (fold_right _ [] s); simpl; now rewrite H.
Qed.

(** ** The code-fence markers *)

Abbreviation ticks := [96%N; 96%N; 96%N].

(** A payload without three back quotes in a row, followed by a line feed
    and the closing marker, does not start with a marker. *)
Lemma fence_not_at_start (p : pystr) :
  Str.contains ticks p = false ->
  Str.startswith ticks (p ++ LF :: ticks) = false.
Proof.
  intros H. apply contains_false_startswith in H.
  destruct p as [|a [|b [|c p]]]; cbn [app Str.startswith] in *.
  - reflexivity.
  - destruct (96 =? a)%N; reflexivity.
  - destruct (96 =? a)%N, (96 =? b)%N; reflexivity.
  - exact H.
Qed.

Lemma opening_marker_absent (p : pystr) :
  Str.contains ticks p = false ->
  Str.contains (u "```json") (p ++ LF :: ticks) = false.
Proof.
  induction p as [|c p IH]; intros H; [reflexivity|].
  pose proof (fence_not_at_start (c :: p) H) as S.
  apply contains_cons_false in H as [_ H2].
  change ((c :: p) ++ LF :: ticks) with (c :: (p ++ LF :: ticks)) in *.
  cbn [Str.contains]. rewrite (IH H2), orb_false_r.
  destruct (Str.startswith (u "```json") (c :: p ++ LF :: ticks)) eqn:E;
    [|reflexivity].
  change (u "```json") with (ticks ++ u "json") in E.
  apply startswith_app in E. congruence.
Qed.

Lemma closing_marker_removed (p : pystr) :
  Str.contains ticks p = false ->
  Str.replace_from ticks [] 0 (p ++ LF :: ticks) = p ++ [LF].
Proof.
  induction p as [|c p IH]; intros H; [reflexivity|].
  pose proof (fence_not_at_start (c :: p) H) as S.
  apply contains_cons_false in H as [_ H2].
  change ((c :: p) ++ LF :: ticks) with (c :: (p ++ LF :: ticks)) in *.
  rewrite (replace_from_cons_keep ticks [] c _ S), (IH H2). reflexivity.
Qed.

(** What the analyzer makes of a fenced payload that holds no marker. *)
Lemma clean_fenced (p : pystr) :
  Str.contains (u "```") p = false -> clean (fenced p) = Str.strip p.
Proof.
  intros H. change (u "```") with ticks in H.
  unfold clean, fenced, Str.replace.
  rewrite (replace_from_prefix (u "```json") [] _ ltac:(discriminate)).
  change ([] ++ ?x) with x.
  change ([LF] ++ p ++ [LF] ++ u "```") with (LF :: (p ++ LF :: ticks)).
  rewrite (replace_from_cons_keep (u "```json") [] LF _ eq_refl).
  rewrite (replace_from_absent (u "```json") [] _ (opening_marker_absent p H)).
  change (u "```") with ticks.
  rewrite (replace_from_cons_keep ticks [] LF _ eq_refl).
  rewrite (closing_marker_removed p H).
  unfold Str.strip.
  change (LF :: p ++ [LF]) with ((LF :: p) ++ [LF]).
  rewrite (rstrip_by_snoc_drop Str.isspace (LF :: p) LF eq_refl).
  apply (strip_cons_drop Str.isspace LF p eq_refl).
Qed.

(** A JSON object, from its opening to its closing brace, is its own
    stripped form. *)
Lemma strip_object (mid : pystr) :
  Str.strip (123%N :: mid ++ [125%N]) = 123%N :: mid ++ [125%N].
Proof.
  unfold Str.strip.
  change (123%N :: mid ++ [125%N]) with ((123%N :: mid) ++ [125%N]).
  rewrite (rstrip_by_snoc_keep Str.isspace (123%N :: mid) 125%N eq_refl).
  reflexivity.
Qed.

(** ** Dictionaries *)

Lemma key_beq_eq (a b : key) : key_beq a b = true -> a = b.
Proof.
  destruct a, b; cbn [key_beq]; try discriminate; try reflexivity.
  - intros H. apply Z.eqb_eq in H. now subst.
  - intros H. apply andb_true_iff in H as [H H3]. apply andb_true_iff in H as [H1 H2].
    apply Bool.eqb_prop in H1. apply Pos.eqb_eq in H2. apply Z.eqb_eq in H3.
    now subst.
  - intros H. apply Bool.eqb_prop in H. now subst.
  - intros H. apply Str_eqb_eq in H. now subst.
Qed.

Lemma key_beq_sym (a b : key) : key_beq a b = key_beq b a.
Proof.
  destruct a, b; cbn [key_beq]; try reflexivity.
  - apply Z.eqb_sym.
  - rewrite (Z.eqb_sym e), (Pos.eqb_sym m). now destruct s, s0.
  - now destruct s, s0.
  - apply eq_true_iff_eq. rewrite !Str_eqb_eq. split; congruence.
Qed.

Lemma key_eqb_sym (a b : pyval) : key_eqb a b = key_eqb b a.
Proof. apply key_beq_sym. Qed.

Lemma key_eqb_trans (a b c : pyval) :
  key_eqb a b = true -> key_eqb b c = true -> key_eqb a c = true.
Proof.
  unfold key_eqb. intros H1 H2. apply key_beq_eq in H1. now rewrite H1.
Qed.

(** Keys equal to the same key are looked up alike. *)
Lemma dict_get_key_eqb (k k' : pyval) (d : dict) :
  key_eqb k k' = true -> dict_get k d = dict_get k' d.
Proof.
  intros E. induction d as [|[k0 v0] d IH]; simpl; [reflexivity|].
  destruct (key_eqb k0 k) eqn:E1, (key_eqb k0 k') eqn:E2; auto.
  - rewrite (key_eqb_trans _ _ _ E1 E) in E2. discriminate.
  - rewrite key_eqb_sym in E.
    rewrite (key_eqb_trans _ _ _ E2 E) in E1. discriminate.
Qed.

Lemma dict_get_set_same (k k' v : pyval) (d : dict) :
  key_eqb k' k = true -> dict_get k (dict_set k' v d) = Some v.
Proof.
  intros E. induction d as [|[k0 v0] d IH]; simpl.
  - now rewrite E.
  - destruct (key_eqb k0 k') eqn:E0; simpl.
    + now rewrite (key_eqb_trans _ _ _ E0 E).
    + destruct (key_eqb k0 k) eqn:E1; [|exact IH].
      rewrite key_eqb_sym in E.
      rewrite (key_eqb_trans _ _ _ E1 E) in E0. discriminate.
Qed.

Lemma dict_get_set_other (k k' v : pyval) (d : dict) :
  key_eqb k' k = false -> dict_get k (dict_set k' v d) = dict_get k d.
Proof.
  intros E. induction d as [|[k0 v0] d IH]; simpl.
  - now rewrite E.
  - destruct (key_eqb k0 k') eqn:E0; simpl.
    + destruct (key_eqb k0 k) eqn:E1; [|reflexivity].
      rewrite key_eqb_sym in E0.
      rewrite (key_eqb_trans _ _ _ E0 E1) in E. discriminate.
    + now rewrite IH.
Qed.

Lemma dict_set_wf (k v : pyval) (d : dict) : dict_wf d -> dict_wf (dict_set k v d).
Proof.
  induction d as [|[k0 v0] d IH]; simpl.
  - auto.
  - intros [H1 H2]. destruct (key_eqb k0 k) eqn:E; simpl.
    + auto.
    + split; [|auto]. rewrite dict_get_set_other; [exact H1|].
      now rewrite key_eqb_sym.
Qed.

(** [d.update(items)], key by key: the value of [items] where it has the
    key, the old value elsewhere. *)
Lemma dict_get_update_items (k : pyval) (items : list (pyval * pyval)) :
  dict_wf items ->
  forall d,
    dict_get k (dict_update_items d items)
    = match dict_get k items with Some v => Some v | None => dict_get k d end.
Proof.
  unfold dict_update_items.
  induction items as [|[k1 v1] items IH]; simpl; intros W d; [reflexivity|].
  destruct W as [W1 W2]. rewrite (IH W2).
  destruct (key_eqb k1 k) eqn:E.
  - rewrite <- (dict_get_key_eqb k1 k items E), W1. now apply dict_get_set_same.
  - destruct (dict_get k items); [reflexivity|]. now apply dict_get_set_other.
Qed.

(** ** The decoder builds dictionaries with pairwise different keys *)

Ltac break_match_in H :=
  repeat match type of H with
         | context [match ?x with _ => _ end] => destruct x eqn:?; try discriminate
         end.

Lemma scan_wf (fuel : nat) :
  (forall s v r, Json.scan_once fuel s = Json.Got v r -> top_wf v)
  /\ (forall acc s v r,
         dict_wf acc -> Json.object_items fuel acc s = Json.Got v r -> top_wf v)
  /\ (forall acc s v r, Json.array_items fuel acc s = Json.Got v r -> top_wf v).
Proof.
  induction fuel as [|fuel (IHs & IHo & IHa)].
  - repeat split; intros; discriminate.
  - split; [|split].
    + intros s v r H. cbn [Json.scan_once] in H.
      break_match_in H; try (injection H as <- <-; exact I);
        try (eapply IHo; [|exact H]; exact I);
        try (eapply IHa; exact H).
      all: injection H as <- <-.
      all: match goal with P : Json.parse_int _ = Ok _ |- _ =>
             unfold Json.parse_int in P; break_match_in P; injection P as <-
           end.
      all: exact I.
    + intros acc s v r W H. cbn [Json.object_items] in H.
      break_match_in H.
      * injection H as <- <-. simpl. now apply dict_set_wf.
      * eapply IHo; [|exact H]. now apply dict_set_wf.
    + intros acc s v r H. cbn [Json.array_items] in H.
      break_match_in H.
      * injection H as <- <-. exact I.
      * eapply IHa; exact H.
Qed.

Lemma loads_wf (doc : pystr) (v : pyval) : Json.loads doc = Ok v -> top_wf v.
Proof.
  unfold Json.loads. intros H. break_match_in H.
  injection H as <-. eapply (proj1 (scan_wf _)); eassumption.
Qed.

(** ** The fuel of the decoder is enough for every document *)

Lemma skip_ws_length (s : pystr) : length (Json.skip_ws s) <= length s.
Proof.
  unfold Json.skip_ws. induction s as [|c s IH]; simpl; [lia|].
  destruct (Json.is_ws c); simpl; lia.
Qed.

Lemma span_digits_length (s : pystr) :
  length (snd (Json.span_digits s)) <= length s.
Proof.
  induction s as [|c s IH]; simpl; [lia|].
  destruct (Json.is_digit c); [|simpl; lia].
  destruct (Json.span_digits s); simpl in *; lia.
Qed.

Ltac break_simple_match :=
  match goal with
  | |- context [match ?x with _ => _ end] =>
      lazymatch x with
      | context [match _ with _ => _ end] => fail
      | Json.skip_ws ?a => pose proof (skip_ws_length a); destruct x eqn:?
      | Json.span_digits ?a => pose proof (span_digits_length a); destruct x eqn:?
      | _ => destruct x eqn:?
      end
  end.

Lemma scanstring_length (n : nat) :
  forall s, length s <= n ->
  forall start acc,
    match Json.scanstring start acc s with
    | Json.Got _ r => length r < length s
    | Json.Fail f => f <> Json.Other Json.out_of_fuel
    end.
Proof.
  induction n as [|n IH]; intros s Hn start acc.
  - destruct s; [discriminate | simpl in Hn; lia].
  - destruct s as [|c s]; [discriminate|]. cbn [Json.scanstring].
    repeat
      match goal with
      | |- match Json.scanstring ?a ?b ?x with _ => _ end =>
          let P := fresh in
          assert (P : length x <= n) by (simpl in *; lia);
          specialize (IH x P a b);
          destruct (Json.scanstring a b x); simpl in *; [lia | assumption]
      | |- _ < _ => simpl; lia
      | |- _ <> _ => discriminate
      | _ => break_simple_match
      end.
Qed.

Lemma match_number_length (s : pystr) :
  match Json.match_number s with
  | Some (_, _, _, rest) => length rest < length s
  | None => True
  end.
Proof.
  unfold Json.match_number.
  repeat
    match goal with
    | |- True => exact I
    | |- _ < _ => simpl in *; lia
    | _ => break_simple_match
    end.
Qed.

Ltac ws_fact x :=
  lazymatch x with
  | Json.skip_ws ?y => pose proof (skip_ws_length y)
  | _ => idtac
  end.

Lemma parse_int_not_out_of_fuel (lexeme : pystr) :
  Json.parse_int lexeme <> Raise Json.out_of_fuel.
Proof.
  unfold Json.parse_int.
  repeat break_simple_match; discriminate.
Qed.

(** With twice as much fuel as characters the scanner does not run out,
    and what it reads is not empty. *)
Lemma scan_fuel (fuel : nat) :
  (forall s, 2 * length s + 1 <= fuel ->
      match Json.scan_once fuel s with
      | Json.Got _ r => length r < length s
      | Json.Fail f => f <> Json.Other Json.out_of_fuel
      end)
  /\ (forall acc s, 2 * length s + 2 <= fuel ->
         match Json.object_items fuel acc s with
         | Json.Got _ r => length r < length s
         | Json.Fail f => f <> Json.Other Json.out_of_fuel
         end)
  /\ (forall acc s, 2 * length s + 2 <= fuel ->
         match Json.array_items fuel acc s with
         | Json.Got _ r => length r < length s
         | Json.Fail f => f <> Json.Other Json.out_of_fuel
         end).
Proof.
  induction fuel as [|fuel (IHs & IHo & IHa)].
  { repeat split; intros; lia. }
  split; [|split].
  - intros s Hf. cbn [Json.scan_once].
    repeat
      match goal with
      | |- match Json.object_items ?f ?a ?x with _ => _ end =>
          ws_fact x;
          let P := fresh in
          assert (P : 2 * length x + 2 <= f) by (simpl in *; lia);
          specialize (IHo a x P);
          destruct (Json.object_items f a x); simpl in *; [lia | assumption]
      | |- match Json.array_items ?f ?a ?x with _ => _ end =>
          ws_fact x;
          let P := fresh in
          assert (P : 2 * length x + 2 <= f) by (simpl in *; lia);
          specialize (IHa a x P);
          destruct (Json.array_items f a x); simpl in *; [lia | assumption]
      | |- context [match Json.scanstring ?a ?b ?x with _ => _ end] =>
          pose proof (scanstring_length (length x) x (le_n _) a b);
          destruct (Json.scanstring a b x) eqn:?
      | |- context [match Json.match_number ?x with _ => _ end] =>
          pose proof (match_number_length x);
          destruct (Json.match_number x) as [[[[? ?] ?] ?]|] eqn:?
      | |- context [match Json.parse_int ?x with _ => _ end] =>
          pose proof (parse_int_not_out_of_fuel x);
          destruct (Json.parse_int x) eqn:?
      | |- _ < _ => rewrite ?length_skipn; simpl in *; lia
      | |- _ <> _ => congruence
      | _ => break_simple_match
      end.
  - intros acc s Hf. cbn [Json.object_items].
    repeat
      match goal with
      | |- match Json.object_items ?f ?a ?x with _ => _ end =>
          ws_fact x;
          let P := fresh in
          assert (P : 2 * length x + 2 <= f) by (simpl in *; lia);
          specialize (IHo a x P);
          destruct (Json.object_items f a x); simpl in *; [lia | assumption]
      | |- context [match Json.scan_once ?f ?x with _ => _ end] =>
          ws_fact x;
          let P := fresh in
          assert (P : 2 * length x + 1 <= f) by (simpl in *; lia);
          specialize (IHs x P);
          destruct (Json.scan_once f x) eqn:?
      | |- context [match Json.scanstring ?a ?b ?x with _ => _ end] =>
          pose proof (scanstring_length (length x) x (le_n _) a b);
          destruct (Json.scanstring a b x) eqn:?
      | |- _ < _ => simpl in *; lia
      | |- _ <> _ => congruence
      | _ => break_simple_match
      end.
  - intros acc s Hf. cbn [Json.array_items].
    repeat
      match goal with
      | |- match Json.array_items ?f ?a ?x with _ => _ end =>
          ws_fact x;
          let P := fresh in
          assert (P : 2 * length x + 2 <= f) by (simpl in *; lia);
          specialize (IHa a x P);
          destruct (Json.array_items f a x); simpl in *; [lia | assumption]
      | |- context [match Json.scan_once ?f ?x with _ => _ end] =>
          ws_fact x;
          let P := fresh in
          assert (P : 2 * length x + 1 <= f) by (simpl in *; lia);
          specialize (IHs x P);
          destruct (Json.scan_once f x) eqn:?
      | |- _ < _ => simpl in *; lia
      | |- _ <> _ => congruence
      | _ => break_simple_match
      end.
Qed.

(** [json.loads] never fails for lack of fuel. *)
Lemma loads_fuel_is_enough (doc : pystr) : Json.loads doc <> Raise Json.out_of_fuel.
Proof.
  unfold Json.loads.
  pose proof (proj1 (scan_fuel (2 * length doc + 1)) (Json.skip_ws doc)) as H.
  pose proof (skip_ws_length doc) as L.
  destruct (Str.startswith [65279%N] doc); [discriminate|].
  destruct (Json.scan_once (2 * length doc + 1) (Json.skip_ws doc)) as [v rest|f].
  - destruct (Json.skip_ws rest); discriminate.
  - specialize (H ltac:(lia)).
    destruct f; try discriminate. intros E. injection E as ->. now apply H.
Qed.

(** ** What [json.dumps] writes, [json.loads] reads *)

Lemma hex_digit_hexchar (d : N) :
  (d < 16)%N -> Json.hex_digit (JsonEncode.hexchar d) = Some d.
Proof.
  intros H.
  assert (E : In d [0; 1; 2; 3; 4; 5; 6; 7; 8; 9; 10; 11; 12; 13; 14; 15]%N).
  { simpl. lia. }
  simpl in E.
  repeat (destruct E as [<- | E]; [reflexivity|]). contradiction.
Qed.

Lemma hex4_hex4_of (n : N) :
  exists a b c d v,
    JsonEncode.hex4_of n = [a; b; c; d] /\ Json.hex4 a b c d = Some v.
Proof.
  unfold JsonEncode.hex4_of, Json.hex4.
  do 4 eexists. eexists. split; [reflexivity|].
  rewrite !hex_digit_hexchar by (apply N.mod_lt; discriminate).
  reflexivity.
Qed.

Lemma uXXXX_unit (n : N) : scan_unit (JsonEncode.uXXXX n).
Proof.
  unfold JsonEncode.uXXXX.
  destruct (hex4_hex4_of n) as (a & b & c & d & v & -> & H).
  exact (@unit_hex a b c d v H).
Qed.

(** Every character is written as one or two units. *)
Lemma escape_char_units (c : N) :
  exists us, JsonEncode.escape_char c = concat us /\ Forall scan_unit us.
Proof.
  unfold JsonEncode.escape_char.
  destruct (c =? BSL)%N eqn:E1.
  { exists [[BSL; BSL]]. split; [reflexivity|].
    repeat constructor. now apply (@unit_letter BSL BSL). }
  destruct (c =? DQ)%N eqn:E2.
  { exists [[BSL; DQ]]. split; [reflexivity|].
    repeat constructor. now apply (@unit_letter DQ DQ). }
  destruct (c =? 8)%N.
  { eexists [[_; _]]. split; [reflexivity|].
    repeat constructor. now apply (@unit_letter _ 8%N). }
  destruct (c =? 12)%N.
  { eexists [[_; _]]. split; [reflexivity|].
    repeat constructor. now apply (@unit_letter _ 12%N). }
  destruct (c =? 10)%N.
  { eexists [[_; _]]. split; [reflexivity|].
    repeat constructor. now apply (@unit_letter _ 10%N). }
  destruct (c =? 13)%N.
  { eexists [[_; _]]. split; [reflexivity|].
    repeat constructor. now apply (@unit_letter _ 13%N). }
  destruct (c =? 9)%N.
  { eexists [[_; _]]. split; [reflexivity|].
    repeat constructor. now apply (@unit_letter _ 9%N). }
  destruct ((32 <=? c)%N && (c <=? 126)%N) eqn:E3.
  { exists [[c]]. split; [reflexivity|].
    apply andb_true_iff in E3 as [E3 _].
    apply N.eqb_neq in E1, E2.
    repeat constructor; assumption. }
  destruct (c <? 65536)%N.
  { exists [JsonEncode.uXXXX c]. split; [cbn [concat]; now rewrite app_nil_r|].
    repeat constructor. apply uXXXX_unit. }
  eexists [JsonEncode.uXXXX _; JsonEncode.uXXXX _].
  split; [cbn [concat]; now rewrite app_nil_r|].
  repeat constructor; apply uXXXX_unit.
Qed.

Lemma escape_units (m : pystr) :
  exists us, JsonEncode.escape m = concat us /\ Forall scan_unit us.
Proof.
  induction m as [|c m (us & E & F)].
  - exists []. split; [reflexivity | constructor].
  - destruct (escape_char_units c) as (us0 & E0 & F0).
    exists (us0 ++ us). split.
    + unfold JsonEncode.escape in *. simpl. rewrite E, E0.
      now rewrite concat_app.
    + apply Forall_app. now split.
Qed.

Lemma scanstring_plain (start : nat) (acc : pystr) (c : N) (rest : pystr) :
  (32 <=? c)%N = true -> c <> DQ -> c <> BSL ->
  Json.scanstring start acc (c :: rest) = Json.scanstring start (c :: acc) rest.
Proof.
  intros H1 H2 H3. cbn [Json.scanstring].
  rewrite (proj2 (N.eqb_neq c DQ) H2), (proj2 (N.eqb_neq c BSL) H3).
  replace (c <=? 31)%N with false; [reflexivity|].
  symmetry. apply N.leb_gt. apply N.leb_le in H1. lia.
Qed.

Lemma scanstring_letter (start : nat) (acc : pystr) (e x : N) (rest : pystr) :
  Json.backslash e = Some x ->
  Json.scanstring start acc (BSL :: e :: rest) = Json.scanstring start (x :: acc) rest.
Proof.
  intros H. cbn [Json.scanstring].
  change (BSL =? DQ)%N with false. change (BSL =? BSL)%N with true. cbv iota.
  destruct (e =? Json.ch "u")%N eqn:E.
  - apply N.eqb_eq in E. subst e. discriminate H.
  - now rewrite H.
Qed.

(** After a [\uXXXX] escape the scan goes on behind it, or, when a second
    escape follows, behind that one with the two joined. *)
Lemma scanstring_hex (start : nat) (acc : pystr) (a b c d hi : N) (rest : pystr) :
  Json.hex4 a b c d = Some hi ->
  rest <> [] ->
  Json.scanstring start acc (BSL :: Json.ch "u" :: a :: b :: c :: d :: rest)
  = Json.scanstring start (hi :: acc) rest
  \/ exists a' b' c' d' r3,
      rest = BSL :: Json.ch "u" :: a' :: b' :: c' :: d' :: r3
      /\ (Json.hex4 a' b' c' d' = None
          \/ exists lo,
            Json.scanstring start acc (BSL :: Json.ch "u" :: a :: b :: c :: d :: rest)
            = Json.scanstring start (Json.join_surrogates hi lo :: acc) r3).
Proof.
  intros H Hrest.
  destruct rest as [|x1 rest]; [congruence|].
  cbn [Json.scanstring].
  change (BSL =? DQ)%N with false. change (BSL =? BSL)%N with true.
  change (Json.ch "u" =? Json.ch "u")%N with true. cbv iota. rewrite H.
  destruct rest as [|x2 [|x3 [|x4 [|x5 [|x6 [|x7 rest]]]]]]; try (left; reflexivity).
  destruct (Json.is_high_surrogate hi && (x1 =? BSL)%N && (x2 =? Json.ch "u")%N) eqn:C;
    [|left; reflexivity].
  apply andb_true_iff in C as [C C2]. apply andb_true_iff in C as [_ C1].
  apply N.eqb_eq in C1, C2. subst x1 x2.
  destruct (Json.hex4 x3 x4 x5 x6) as [lo|] eqn:L.
  - destruct (Json.is_low_surrogate lo); [|left; reflexivity].
    right. exists x3, x4, x5, x6, (x7 :: rest). split; [reflexivity|].
    right. exists lo. reflexivity.
  - right. exists x3, x4, x5, x6, (x7 :: rest). split; [reflexivity|]. now left.
Qed.

(** A run of units up to the closing quote is read to its end. *)
Lemma scanstring_units (n : nat) :
  forall us, length us <= n -> Forall scan_unit us ->
  forall start acc tail,
  exists out, Json.scanstring start acc (concat us ++ DQ :: tail) = Json.Got out tail.
Proof.
  induction n as [|n IH]; intros us Hn F start acc tail.
  - destruct us; [|simpl in Hn; lia]. simpl. eexists. reflexivity.
  - destruct us as [|un us]; [simpl; eexists; reflexivity|].
    simpl in Hn. inversion F as [|? ? Fu Fus]; subst.
    assert (IH1 : forall acc', exists out,
               Json.scanstring start acc' (concat us ++ DQ :: tail) = Json.Got out tail).
    { intros acc'. apply IH; [lia | assumption]. }
    destruct Fu as [c H1 H2 H3 | e x H | a b c d hi H]; cbn [concat app].
    + rewrite (scanstring_plain start acc c _ H1 H2 H3). apply IH1.
    + rewrite (scanstring_letter start acc e x _ H). apply IH1.
    + destruct (scanstring_hex start acc a b c d hi (concat us ++ DQ :: tail) H)
        as [E | (a' & b' & c' & d' & r3 & Er & Hpair)].
      * now destruct (concat us).
      * rewrite E. apply IH1.
      * destruct us as [|un2 us2]; [discriminate Er|].
        inversion Fus as [|? ? Fu2 Fus2]; subst.
        destruct Fu2 as [c2 G1 G2 G3 | e2 x2 G | a2 b2 c2 d2 lo2 G];
          cbn [concat app] in Er.
        -- injection Er as Er _. congruence.
        -- injection Er as Er _. subst e2. discriminate G.
        -- injection Er as -> -> -> -> <-.
           destruct Hpair as [Hnone | [lo Hlo]]; [congruence|].
           rewrite Hlo. apply IH; [simpl in Hn; lia | assumption].
Qed.

Lemma scanstring_escape (m : pystr) (start : nat) (acc tail : pystr) :
  exists out,
    Json.scanstring start acc (JsonEncode.escape m ++ DQ :: tail) = Json.Got out tail.
Proof.
  destruct (escape_units m) as (us & -> & F).
  exact (scanstring_units (length us) us (le_n _) F start acc tail).
Qed.

Lemma error_json_shape (m : pystr) :
  error_json m
  = u "{" ++ quote "error" ++ u ": " ++ DQ :: JsonEncode.escape m ++ DQ :: u "}".
Proof.
  unfold error_json, JsonEncode.dumps, JsonEncode.encode_basestring_ascii.
  simpl. now rewrite <- app_assoc.
Qed.

Lemma scan_error_object (fuel : nat) (m : pystr) :
  exists m',
    Json.scan_once (S (S (S fuel)))
      (123%N :: DQ :: u "error" ++ DQ :: 58%N :: 32%N :: DQ
             :: JsonEncode.escape m ++ DQ :: u "}")
    = Json.Got (VDict [(VStr (u "error"), VStr m')]) [].
Proof.
  remember (JsonEncode.escape m ++ DQ :: u "}") as tail eqn:Et.
  simpl.
  match goal with
  | |- context [Json.scanstring ?start [] tail] =>
      destruct (scanstring_escape m start [] (u "}")) as [out Hout];
      rewrite <- Et in Hout; rewrite Hout
  end.
  exists out. reflexivity.
Qed.

(** The error object of the analyzer is valid JSON: an object with the one
    key [error], bound to a string. *)
Lemma loads_error_json (m : pystr) :
  exists m', Json.loads (error_json m) = Ok (VDict [(VStr (u "error"), VStr m')]).
Proof.
  rewrite error_json_shape. unfold Json.loads.
  set (doc := u "{" ++ quote "error" ++ u ": " ++ DQ :: JsonEncode.escape m ++ DQ :: u "}").
  assert (L : 3 <= 2 * length doc + 1) by (subst doc; simpl; lia).
  destruct (2 * length doc + 1) as [|[|[|fuel]]]; try lia. clear L.
  subst doc.
  change (u "{" ++ quote "error" ++ u ": " ++ DQ :: JsonEncode.escape m ++ DQ :: u "}")
    with (123%N :: DQ :: u "error" ++ DQ :: 58%N :: 32%N :: DQ
               :: JsonEncode.escape m ++ DQ :: u "}").
  remember (DQ :: u "error" ++ DQ :: 58%N :: 32%N :: DQ
               :: JsonEncode.escape m ++ DQ :: u "}") as body eqn:Eb.
  cbn [Str.startswith Str.lstrip_by Json.skip_ws].
  change (65279 =? 123)%N with false. change (Json.is_ws 123) with false.
  cbv iota. cbn [andb]. cbv iota. subst body.
  destruct (scan_error_object fuel m) as [m' ->].
  exists m'. reflexivity.
Qed.

(** ** The normalizer: [safe_analysis] after the [try] of [render_dashboard] *)

Section NormalizerProperties.

Variable repr : pyval -> pystr.

Lemma normalize_parse_failure (txt : pystr) (e : exn) :
  Json.loads txt = Raise e ->
  normalize repr txt = with_summary (u "Error parsing AI response: " ++ exn_str e).
Proof.
  intros H. unfold normalize, merge_analysis. rewrite H. reflexivity.
Qed.

Lemma normalize_object_without_error (txt : pystr) (d : dict) :
  Json.loads txt = Ok (VDict d) ->
  dict_has (VStr (u "error")) d = false ->
  normalize repr txt = dict_update_items safe_default d.
Proof.
  intros H E. unfold normalize, merge_analysis. rewrite H. simpl.
  rewrite E. reflexivity.
Qed.

Lemma normalize_object_with_error (txt : pystr) (d : dict) (E : pyval) :
  Json.loads txt = Ok (VDict d) ->
  dict_get (VStr (u "error")) d = Some E ->
  normalize repr txt = with_summary (u "AI Error: " ++ py_str repr E).
Proof.
  intros H G. unfold normalize, merge_analysis. rewrite H. simpl.
  unfold dict_has. rewrite G. reflexivity.
Qed.





End NormalizerProperties.

(** ** Claims on the normalizer *)

(** C3, as stated, fails: a key outside the schema is not dropped.  On
    [{"type": "bug", "severity": "high"}] the assembled analysis has a
    [severity] entry, which the schema does not have. *)
Lemma C3_extra_key_is_kept :
  Json.loads doc_extra_key
  = Ok (VDict [(VStr (u "type"), VStr (u "bug"));
               (VStr (u "severity"), VStr (u "high"))])
  /\ dict_get (VStr (u "severity")) safe_default = None
  /\ dict_get (VStr (u "severity")) (normalize plain_repr doc_extra_key)
     = Some (VStr (u "high")).
Proof. repeat split. Qed.

(** C3, amended: when the analyzer output parses as an object without an
    [error] key, the assembled analysis is [safe_default] updated with all
    the items of the object: every key of the object, in the schema or not,
    carries the object's value, and every other key keeps the value of
    [safe_default].  On [{"type": "bug", "priority_score": 4}] this is
    [safe_default] with only [type] and [priority_score] changed. *)
Theorem C3_merge_is_dict_update (repr : pyval -> pystr) :
  (forall (txt : pystr) (d : dict),
      Json.loads txt = Ok (VDict d) ->
      dict_has (VStr (u "error")) d = false ->
      forall k,
        dict_get k (normalize repr txt)
        = match dict_get k d with
          | Some v => Some v
          | None => dict_get k safe_default
          end)
  /\ normalize repr doc_type_priority
     = [ (VStr (u "summary"), VStr (u "AI could not analyze this issue."));
         (VStr (u "type"), VStr (u "bug"));
         (VStr (u "priority_score"), VInt 4);
         (VStr (u "suggested_labels"), VList [VStr (u "error")]);
         (VStr (u "potential_impact"), VStr (u "Unknown")) ].
Proof.
  split.
  - intros txt d H E k.
    rewrite (normalize_object_without_error repr txt d H E).
    apply dict_get_update_items. exact (loads_wf txt _ H).
  - reflexivity.
Qed.

Lemma C3_merge_is_dict_update_witness :
  dict_get (VStr (u "type")) (normalize plain_repr doc_type_priority)
  = Some (VStr (u "bug"))
  /\ dict_get (VStr (u "potential_impact")) (normalize plain_repr doc_type_priority)
     = Some (VStr (u "Unknown")).
Proof.
  split.
  - exact (proj1 (C3_merge_is_dict_update plain_repr) doc_type_priority
             [(VStr (u "type"), VStr (u "bug")); (VStr (u "priority_score"), VInt 4)]
             eq_refl eq_refl (VStr (u "type"))).
  - exact (proj1 (C3_merge_is_dict_update plain_repr) doc_type_priority
             [(VStr (u "type"), VStr (u "bug")); (VStr (u "priority_score"), VInt 4)]
             eq_refl eq_refl (VStr (u "potential_impact"))).
Defined.

(** C4: when the analyzer output parses as an object with an [error] key
    of value [E], the summary of the assembled analysis is ["AI Error: "]
    followed by [E] (by [E] itself when it is a string, by [str(E)]
    otherwise) and every other field keeps the value of [safe_default]. *)
Theorem C4_error_field_sets_summary
        (repr : pyval -> pystr) (txt : pystr) (d : dict) (E : pyval) :
  Json.loads txt = Ok (VDict d) ->
  dict_get (VStr (u "error")) d = Some E ->
  normalize repr txt
  = [ (VStr (u "summary"), VStr (u "AI Error: " ++ py_str repr E));
      (VStr (u "type"), VStr (u "other"));
      (VStr (u "priority_score"), VInt 0);
      (VStr (u "suggested_labels"), VList [VStr (u "error")]);
      (VStr (u "potential_impact"), VStr (u "Unknown")) ]
  /\ (forall e, E = VStr e -> py_str repr E = e).
Proof.
  intros H G. split.
  - exact (normalize_object_with_error repr txt d E H G).
  - intros e ->. reflexivity.
Qed.

Lemma C4_error_field_sets_summary_witness :
  normalize plain_repr doc_quota
  = [ (VStr (u "summary"), VStr (u "AI Error: quota exceeded"));
      (VStr (u "type"), VStr (u "other"));
      (VStr (u "priority_score"), VInt 0);
      (VStr (u "suggested_labels"), VList [VStr (u "error")]);
      (VStr (u "potential_impact"), VStr (u "Unknown")) ].
Proof.
  exact (proj1 (C4_error_field_sets_summary plain_repr doc_quota
                  [(VStr (u "error"), VStr (u "quota exceeded"))]
                  (VStr (u "quota exceeded")) eq_refl eq_refl)).
Defined.

(** C8, as stated, fails: on [{"priority_score": 99}] the assembled
    analysis carries the priority 99, outside the range from 0 to 5. *)
Lemma C8_priority_out_of_range :
  priority_score (normalize plain_repr doc_priority_99) = Some (VInt 99)
  /\ in_priority_range (priority_score (normalize plain_repr doc_priority_99)) = false.
Proof. split; reflexivity. Qed.

(** C8, amended: the priority of the assembled analysis is 0 when the
    analyzer output does not parse, when it parses as an object with an
    [error] key, as an object without a [priority_score] key, or as a
    number, a boolean, [null] or a string; when it parses as an object
    with a [priority_score] key and no [error] key, the priority is the
    value of that key, whatever its type and range; when it parses as an
    array, the priority is what the merge of the array leaves under the
    key. *)
Theorem C8_priority_is_default_or_supplied (repr : pyval -> pystr) (txt : pystr) :
  match Json.loads txt with
  | Ok (VDict d) =>
      priority_score (normalize repr txt)
      = if dict_has (VStr (u "error")) d then Some (VInt 0)
        else match priority_score d with
             | Some v => Some v
             | None => Some (VInt 0)
             end
  | Ok (VList l) =>
      priority_score (normalize repr txt)
      = if existsb (key_eqb (VStr (u "error"))) l then Some (VInt 0)
        else priority_score (fst (dict_merge_seq safe_default 0 l))
  | _ => priority_score (normalize repr txt) = Some (VInt 0)
  end.
Proof.
  destruct (Json.loads txt) as [v|e] eqn:H.
  - destruct v as [| b | z | x | s | l | d];
      try (unfold normalize, merge_analysis; rewrite H; reflexivity).
    + unfold normalize, merge_analysis. rewrite H. simpl.
      destruct (Str.contains (u "error") s); [reflexivity|].
      destruct s as [|c s]; reflexivity.
    + unfold normalize, merge_analysis. rewrite H. cbv beta iota.
      unfold py_contains.
      destruct (existsb (key_eqb (VStr (u "error"))) l); [reflexivity|].
      unfold dict_update, py_iter.
      destruct (dict_merge_seq safe_default 0 l) as [d [[]|e]]; [reflexivity|].
      unfold priority_score. simpl fst. now apply dict_get_set_other.
    + destruct (dict_has (VStr (u "error")) d) eqn:E.
      * unfold dict_has in E.
        destruct (dict_get (VStr (u "error")) d) as [err|] eqn:G; [|discriminate].
        rewrite (normalize_object_with_error repr txt d err H G). reflexivity.
      * rewrite (normalize_object_without_error repr txt d H E).
        unfold priority_score. rewrite dict_get_update_items by exact (loads_wf txt _ H).
        reflexivity.
  - rewrite (normalize_parse_failure repr txt e H). reflexivity.
Qed.

(** ** The pipeline against an arbitrary world *)

Section PipelineProperties.

Variable World : Type.
Variable requests_get : pystr -> headers -> World -> result http_response * World.
Variable generate_content : pystr -> pystr -> World -> result generation * World.
Variable list_models : World -> (list model_info * option exn) * World.
Variable builtin_print : pystr -> World -> result unit * World.
Variable repr : pyval -> pystr.

Local Abbreviation fetch := (fetch_github_data requests_get repr).
Local Abbreviation analyze :=
  (analyze_with_gemini generate_content list_models builtin_print repr).
Local Abbreviation render :=
  (render_dashboard requests_get generate_content list_models builtin_print repr).
Local Abbreviation State w tr := (@Build_state World w tr).

(** *** The analyzer, path by path *)

Lemma extract_text_read (resp : generation) (raw : pystr) (st : state World) :
  text resp = Ok raw -> extract_text resp st = (Ok (clean raw), st).
Proof.
  intros H. unfold extract_text, try_except, bind, lift, ret. now rewrite H.
Qed.

Lemma extract_text_unreadable (resp : generation) (e : exn) (st : state World) :
  text resp = Raise e ->
  extract_text resp st
  = (Ok (error_json (u "AI Parsing failed: " ++ exn_str e)), st).
Proof.
  intros H. unfold extract_text, try_except, bind, lift, ret. now rewrite H.
Qed.

Lemma analyze_primary (t : pystr) (st : state World) (resp : generation) (w1 : World) :
  generate_content target_model_name (make_prompt t) (world st) = (Ok resp, w1) ->
  analyze t st = extract_text resp (after_primary t st w1).
Proof.
  intros H.
  unfold analyze_with_gemini, bind, try_except, invoke_model, ret, after_primary.
  rewrite H. reflexivity.
Qed.

Lemma analyze_first_print_raises (t : pystr) (st : state World) (e : exn)
      (w1 : World) (pe : exn) (w2 : World) :
  generate_content target_model_name (make_prompt t) (world st) = (Raise e, w1) ->
  builtin_print (error_using e) w1 = (Raise pe, w2) ->
  analyze t st
  = (Raise pe,
     State w2 (trace st ++ [EvGenerate target_model_name (make_prompt t);
                            EvPrint (error_using e)])).
Proof.
  intros H1 P1.
  unfold analyze_with_gemini, bind, try_except, invoke_model, print, ret, log.
  rewrite H1. cbn [fst snd world trace]. unfold error_using in P1. rewrite P1.
  cbn [fst snd world trace]. now rewrite <- !app_assoc.
Qed.

Lemma analyze_second_print_raises (t : pystr) (st : state World) (e : exn)
      (w1 w2 : World) (pe : exn) (w3 : World)
      (listed : list model_info) (failure : option exn) (w4 : World) :
  generate_content target_model_name (make_prompt t) (world st) = (Raise e, w1) ->
  builtin_print (error_using e) w1 = (Ok tt, w2) ->
  builtin_print retrying w2 = (Raise pe, w3) ->
  list_models w3 = ((listed, failure), w4) ->
  analyze t st
  = (Ok (error_json
           (both_failed_message repr (map name (filter supports_generate listed)) pe)),
     State w4 (trace st ++ [EvGenerate target_model_name (make_prompt t);
                            EvPrint (error_using e); EvPrint retrying;
                            EvListModels])).
Proof.
  intros H1 P1 P2 L.
  unfold analyze_with_gemini, bind, try_except, invoke_model, print, ret,
    enumerate_models, log.
  rewrite H1. cbn [fst snd world trace]. unfold error_using in P1. rewrite P1.
  cbn [fst snd world trace]. unfold retrying in P2. rewrite P2.
  cbn [fst snd world trace]. rewrite L. cbn [fst snd world trace].
  rewrite <- !app_assoc. destruct failure; reflexivity.
Qed.

Lemma analyze_fallback (t : pystr) (st : state World) (e : exn) (w : World)
      (resp : generation) (w' : World) :
  falls_back generate_content builtin_print t st e w ->
  generate_content fallback_model_name (make_prompt t) w = (Ok resp, w') ->
  analyze t st = extract_text resp (after_fallback t st e w').
Proof.
  intros (w1 & w2 & H1 & P1 & P2) H2.
  unfold analyze_with_gemini, bind, try_except, invoke_model, print, ret,
    after_fallback, log.
  rewrite H1. cbn [fst snd world trace]. unfold error_using in P1. rewrite P1.
  cbn [fst snd world trace]. unfold retrying in P2. rewrite P2.
  cbn [fst snd world trace]. rewrite H2. cbn [fst snd world trace].
  rewrite <- !app_assoc. reflexivity.
Qed.

Lemma analyze_both_fail (t : pystr) (st : state World) (e : exn) (w : World)
      (e2 : exn) (w' : World)
      (listed : list model_info) (failure : option exn) (w'' : World) :
  falls_back generate_content builtin_print t st e w ->
  generate_content fallback_model_name (make_prompt t) w = (Raise e2, w') ->
  list_models w' = ((listed, failure), w'') ->
  analyze t st
  = (Ok (error_json
           (both_failed_message repr (map name (filter supports_generate listed)) e2)),
     State w'' (trace st ++ fallback_events (make_prompt t) e ++ [EvListModels])).
Proof.
  intros (w1 & w2 & H1 & P1 & P2) H2 L.
  unfold analyze_with_gemini, bind, try_except, invoke_model, print, ret,
    enumerate_models, log.
  rewrite H1. cbn [fst snd world trace]. unfold error_using in P1. rewrite P1.
  cbn [fst snd world trace]. unfold retrying in P2. rewrite P2.
  cbn [fst snd world trace]. rewrite H2. cbn [fst snd world trace].
  rewrite L. cbn [fst snd world trace].
  unfold fallback_events. rewrite <- !app_assoc. destruct failure; reflexivity.
Qed.

Lemma analyze_path (t : pystr) (st : state World) :
  analyzer_path generate_content list_models builtin_print repr t st (analyze t st).
Proof.
  destruct (generate_content target_model_name (make_prompt t) (world st))
    as [[resp|e] w1] eqn:H1.
  - rewrite (analyze_primary t st resp w1 H1). now apply path_primary.
  - destruct (builtin_print (error_using e) w1) as [[[]|pe] w2] eqn:P1.
    2:{ rewrite (analyze_first_print_raises t st e w1 pe w2 H1 P1).
        now apply path_first_print with (w1 := w1). }
    destruct (builtin_print retrying w2) as [[[]|pe] w3] eqn:P2.
    2:{ destruct (list_models w3) as [[listed failure] w4] eqn:L.
        rewrite (analyze_second_print_raises t st e w1 w2 pe w3 listed failure w4
                   H1 P1 P2 L).
        now apply path_second_print with (w1 := w1) (w2 := w2) (w3 := w3)
                                        (failure := failure). }
    assert (F : falls_back generate_content builtin_print t st e w3)
      by (exists w1, w2; auto).
    destruct (generate_content fallback_model_name (make_prompt t) w3)
      as [[resp|e2] w4] eqn:H2.
    + rewrite (analyze_fallback t st e w3 resp w4 F H2).
      now apply path_fallback with (w := w3).
    + destruct (list_models w4) as [[listed failure] w5] eqn:L.
      rewrite (analyze_both_fail t st e w3 e2 w4 listed failure w5 F H2 L).
      now apply path_both_fail with (w := w3) (w' := w4) (failure := failure).
Qed.

Lemma extract_text_returns (resp : generation) (st : state World) :
  extract_text resp st
  = (match text resp with
     | Ok raw => Ok (clean raw)
     | Raise e => Ok (error_json (u "AI Parsing failed: " ++ exn_str e))
     end, st).
Proof.
  destruct (text resp) as [raw|e] eqn:T.
  - now apply extract_text_read.
  - now apply extract_text_unreadable.
Qed.

(** The analyzer raises on one path only: the first [print] raised. *)
Lemma analyze_outcome (t : pystr) (st : state World) :
  (exists txt st', analyze t st = (Ok txt, st'))
  \/ (exists e w1 pe w2,
         generate_content target_model_name (make_prompt t) (world st) = (Raise e, w1)
         /\ builtin_print (error_using e) w1 = (Raise pe, w2)
         /\ analyze t st
            = (Raise pe,
               State w2 (trace st ++ [EvGenerate target_model_name (make_prompt t);
                                      EvPrint (error_using e)]))).
Proof.
  destruct (analyze_path t st) as [resp w1 H1 | e w1 pe w2 H1 P1 | | e w resp w' F H2 | ].
  - left. rewrite extract_text_returns. destruct (text resp); eauto.
  - right. exists e, w1, pe, w2. auto.
  - left. eauto.
  - left. rewrite extract_text_returns. destruct (text resp); eauto.
  - left. eauto.
Qed.

Lemma invocations_app (a b : list event) :
  invocations (a ++ b) = invocations a ++ invocations b.
Proof. unfold invocations. apply flat_map_app. Qed.

Lemma model_names_differ : target_model_name <> fallback_model_name.
Proof. discriminate. Qed.

(** *** The fetcher *)

Ltac break_goal :=
  repeat match goal with
         | |- context [match ?x with _ => _ end] =>
             lazymatch x with
             | context [match _ with _ => _ end] => fail
             | _ => destruct x eqn:?
             end
         end.

Lemma generate_calls_app (a b : list event) :
  generate_calls (a ++ b) = generate_calls a + generate_calls b.
Proof. unfold generate_calls. now rewrite filter_app, length_app. Qed.

(** A fetch whose issue-detail request answers with a status other than
    200 returns no data, after requests only; its error is the text of the
    exception of a later request, or else the status. *)
Lemma fetch_non_200 (repo_url : pystr) (issue_number page : Z) (st : state World)
      (owner repo : pystr) (res : http_response) (w1 : World) :
  owner_and_repo repo_url = Ok (owner, repo) ->
  requests_get (issue_url owner repo issue_number) request_headers (world st)
  = (Ok res, w1) ->
  status_code res <> 200%Z ->
  exists w' gets,
    fetch repo_url issue_number page st
    = (Ok (None,
           Some match requests_get (comments_url owner repo issue_number)
                                   request_headers w1 with
                | (Raise e2, _) => exn_str e2
                | (Ok _, w2) =>
                    match requests_get (issues_list_url owner repo page)
                                       request_headers w2 with
                    | (Raise e3, _) => exn_str e3
                    | (Ok _, _) =>
                        u "Error fetching issue: " ++ Str.of_Z (status_code res)
                    end
                end),
       State w' (trace st ++ gets))
    /\ generate_calls gets = 0.
Proof.
  intros Hn H1 Hs. apply Z.eqb_neq in Hs.
  unfold fetch_github_data, try_except, bind, lift, ret, http_get, log.
  rewrite Hn, H1. simpl.
  destruct (requests_get (comments_url owner repo issue_number) request_headers w1)
    as [[r2|e2] w2]; simpl.
  - destruct (requests_get (issues_list_url owner repo page) request_headers w2)
      as [[r3|e3] w3]; simpl.
    + rewrite Hs. simpl. rewrite <- !app_assoc. do 2 eexists. split; reflexivity.
    + rewrite <- !app_assoc. do 2 eexists. split; reflexivity.
  - rewrite <- !app_assoc. do 2 eexists. split; reflexivity.
Qed.

(** When the fetch returns no data, [render_dashboard] stops there: it
    answers with the error page, or raises when the error text is empty,
    and in both cases leaves the state as the fetch left it. *)
Lemma render_without_data (repo_url : pystr) (issue_number page : Z)
      (st st' : state World) (msg : pystr) :
  fetch repo_url issue_number page st = (Ok (None, Some msg), st') ->
  snd (render repo_url issue_number page st) = st'
  /\ forall ctx, fst (render repo_url issue_number page st) <> Ok (DashboardHtml ctx).
Proof.
  intros H. unfold render_dashboard, bind. rewrite H.
  destruct msg; simpl; split; try reflexivity; intros ctx; discriminate.
Qed.

(** C2, amended: when the issue-detail request answers with a status
    other than 200, [fetch_github_data] returns an error and no data, and
    [render_dashboard] makes no model invocation and renders no
    dashboard.  The comments request and the issue-list request are made
    before the status is looked at: when one of them raises, the error is
    the text of that exception; when both return a response, the error is
    ["Error fetching issue: "] followed by the status, and the answer is
    the index page with that error. *)
Theorem C2_non_200_stops_the_pipeline
        (repo_url : pystr) (issue_number page : Z) (st : state World)
        (owner repo : pystr) (res : http_response) (w1 : World) :
  owner_and_repo repo_url = Ok (owner, repo) ->
  requests_get (issue_url owner repo issue_number) request_headers (world st)
  = (Ok res, w1) ->
  status_code res <> 200%Z ->
  fst (fetch repo_url issue_number page st)
  = Ok (None,
        Some match requests_get (comments_url owner repo issue_number)
                                request_headers w1 with
             | (Raise e2, _) => exn_str e2
             | (Ok _, w2) =>
                 match requests_get (issues_list_url owner repo page)
                                    request_headers w2 with
                 | (Raise e3, _) => exn_str e3
                 | (Ok _, _) => u "Error fetching issue: " ++ Str.of_Z (status_code res)
                 end
             end)
  /\ generate_calls (trace (snd (render repo_url issue_number page st)))
     = generate_calls (trace st)
  /\ (forall ctx, fst (render repo_url issue_number page st) <> Ok (DashboardHtml ctx))
  /\ (forall r2 w2 r3 w3,
         requests_get (comments_url owner repo issue_number) request_headers w1
         = (Ok r2, w2) ->
         requests_get (issues_list_url owner repo page) request_headers w2
         = (Ok r3, w3) ->
         fst (fetch repo_url issue_number page st)
         = Ok (None, Some (u "Error fetching issue: " ++ Str.of_Z (status_code res)))
         /\ fst (render repo_url issue_number page st)
            = Ok (IndexHtml (u "Could not find issue: Error fetching issue: "
                             ++ Str.of_Z (status_code res)))).
Proof.
  intros Hn H1 Hs.
  destruct (fetch_non_200 repo_url issue_number page st owner repo res w1 Hn H1 Hs)
    as (w' & gets & Hf & Hg).
  destruct (render_without_data repo_url issue_number page st _ _ Hf) as [Hr1 Hr2].
  split; [|split; [|split]].
  - now rewrite Hf.
  - rewrite Hr1. simpl. rewrite generate_calls_app, Hg. apply Nat.add_0_r.
  - exact Hr2.
  - intros r2 w2 r3 w3 H2 H3. rewrite H2, H3 in Hf.
    split; [now rewrite Hf|].
    unfold render_dashboard, bind. rewrite Hf. reflexivity.
Qed.

(** *** From the fetched data to the dashboard *)

Lemma render_with_data (repo_url : pystr) (issue_number page : Z)
      (st st1 st2 : state World) (data : github_data) (txt : pystr) :
  fetch repo_url issue_number page st = (Ok (Some data, None), st1) ->
  analyze (full_text data) st1 = (Ok txt, st2) ->
  render repo_url issue_number page st
  = (Ok (DashboardHtml
           (dashboard_of repo_url issue_number page data (normalize repr txt))),
     st2).
Proof.
  intros Hf Ha. unfold render_dashboard, bind. rewrite Hf. simpl.
  unfold lift. simpl. rewrite Ha. reflexivity.
Qed.

(** The call of the analyzer is under no [try]: what it raises leaves
    [render_dashboard]. *)
Lemma render_analyzer_raises (repo_url : pystr) (issue_number page : Z)
      (st st1 st2 : state World) (data : github_data) (pe : exn) :
  fetch repo_url issue_number page st = (Ok (Some data, None), st1) ->
  analyze (full_text data) st1 = (Raise pe, st2) ->
  render repo_url issue_number page st = (Raise pe, st2).
Proof.
  intros Hf Ha. unfold render_dashboard, bind. rewrite Hf. simpl.
  unfold lift. simpl. rewrite Ha. reflexivity.
Qed.

(** C5: when the analyzer output is not valid JSON, nothing is raised:
    the request reaches the dashboard, whose analysis is [safe_default]
    with the summary replaced by ["Error parsing AI response: "] followed
    by the text of the parse exception. *)
Theorem C5_parse_failure_is_absorbed
        (repo_url : pystr) (issue_number page : Z) (st st1 st2 : state World)
        (data : github_data) (txt : pystr) (e : exn) :
  fetch repo_url issue_number page st = (Ok (Some data, None), st1) ->
  analyze (full_text data) st1 = (Ok txt, st2) ->
  Json.loads txt = Raise e ->
  render repo_url issue_number page st
  = (Ok (DashboardHtml
           (dashboard_of repo_url issue_number page data
              [ (VStr (u "summary"),
                 VStr (u "Error parsing AI response: " ++ exn_str e));
                (VStr (u "type"), VStr (u "other"));
                (VStr (u "priority_score"), VInt 0);
                (VStr (u "suggested_labels"), VList [VStr (u "error")]);
                (VStr (u "potential_impact"), VStr (u "Unknown")) ])),
     st2).
Proof.
  intros Hf Ha He.
  rewrite (render_with_data repo_url issue_number page st st1 st2 data txt Hf Ha).
  now rewrite (normalize_parse_failure repr txt e He).
Qed.


(** *** The fallback model *)

(** C6, amended: when the invocation of the primary model raises [e],
    what follows depends on the two calls of [print].  When both return,
    the fallback model (another identifier) is invoked exactly once, after
    the primary and with the same prompt, and when it returns a response
    the analyzer output is made from the text of that response.  When the
    first [print] raises, its exception leaves the analyzer; when the
    second raises, the analyzer returns the error object made from that
    exception; in both cases the fallback model is not invoked. *)
Theorem C6_fallback_invoked_once
        (issue_text : pystr) (st : state World) (e : exn) (w1 : World) :
  generate_content target_model_name (make_prompt issue_text) (world st)
  = (Raise e, w1) ->
  target_model_name <> fallback_model_name
  /\ match builtin_print (error_using e) w1 with
     | (Raise pe, _) =>
         fst (analyze issue_text st) = Raise pe
         /\ invocations (trace (snd (analyze issue_text st)))
            = invocations (trace st) ++ [ (target_model_name, make_prompt issue_text) ]
     | (Ok _, w2) =>
         match builtin_print retrying w2 with
         | (Raise pe, w3) =>
             fst (analyze issue_text st)
             = Ok (error_json
                     (both_failed_message
                        repr
                        (map name (filter supports_generate (fst (fst (list_models w3)))))
                        pe))
             /\ invocations (trace (snd (analyze issue_text st)))
                = invocations (trace st)
                    ++ [ (target_model_name, make_prompt issue_text) ]
         | (Ok _, w3) =>
             invocations (trace (snd (analyze issue_text st)))
             = invocations (trace st)
                 ++ [ (target_model_name, make_prompt issue_text);
                      (fallback_model_name, make_prompt issue_text) ]
             /\ (forall resp w4,
                    generate_content fallback_model_name (make_prompt issue_text) w3
                    = (Ok resp, w4) ->
                    fst (analyze issue_text st)
                    = match text resp with
                      | Ok raw => Ok (clean raw)
                      | Raise e' =>
                          Ok (error_json (u "AI Parsing failed: " ++ exn_str e'))
                      end)
         end
     end.
Proof.
  intros H1. split; [exact model_names_differ|].
  destruct (builtin_print (error_using e) w1) as [[[]|pe] w2] eqn:P1.
  2:{ rewrite (analyze_first_print_raises issue_text st e w1 pe w2 H1 P1).
      split; [reflexivity|]. cbn [snd trace]. now rewrite invocations_app. }
  destruct (builtin_print retrying w2) as [[[]|pe] w3] eqn:P2.
  2:{ destruct (list_models w3) as [[listed failure] w4] eqn:L.
      rewrite (analyze_second_print_raises issue_text st e w1 w2 pe w3
                 listed failure w4 H1 P1 P2 L).
      split; [reflexivity|]. cbn [snd trace]. now rewrite invocations_app. }
  assert (F : falls_back generate_content builtin_print issue_text st e w3)
    by (exists w1, w2; auto).
  destruct (generate_content fallback_model_name (make_prompt issue_text) w3)
    as [[resp|e2] w4] eqn:H2.
  - rewrite (analyze_fallback issue_text st e w3 resp w4 F H2), extract_text_returns.
    split.
    + cbn [snd trace after_fallback]. now rewrite invocations_app.
    + intros resp' w4' E. injection E as <- <-. reflexivity.
  - destruct (list_models w4) as [[listed failure] w5] eqn:L.
    rewrite (analyze_both_fail issue_text st e w3 e2 w4 listed failure w5 F H2 L).
    split.
    + cbn [snd trace]. rewrite !invocations_app. simpl. now rewrite ?app_nil_r.
    + intros resp w4' E. discriminate.
Qed.

(** C1, amended: the analyzer returns a string on every path but one.
    When a model answers, the string is the cleaned text of the response,
    which is JSON only when the model wrote JSON, or, when the text cannot
    be read, the error object for that failure.  When what follows the
    first [print] raises (the second [print], or the invocation of the
    fallback model), the string is the error object that names both models.
    When the first [print] raises, after a failure of the primary model, its
    exception leaves the analyzer; that is the only way the analyzer
    raises.  Every error object is valid JSON with the one key [error]. *)
Theorem C1_analyzer_returns_a_string (issue_text : pystr) (st : state World) :
  (forall resp,
      answers generate_content builtin_print issue_text st resp ->
      fst (analyze issue_text st)
      = match text resp with
        | Ok raw => Ok (clean raw)
        | Raise e => Ok (error_json (u "AI Parsing failed: " ++ exn_str e))
        end)
  /\ (forall e w e2 w',
         falls_back generate_content builtin_print issue_text st e w ->
         generate_content fallback_model_name (make_prompt issue_text) w
         = (Raise e2, w') ->
         fst (analyze issue_text st)
         = Ok (error_json
                 (both_failed_message
                    repr
                    (map name (filter supports_generate (fst (fst (list_models w')))))
                    e2)))
  /\ (forall e w1 w2 pe w3,
         generate_content target_model_name (make_prompt issue_text) (world st)
         = (Raise e, w1) ->
         builtin_print (error_using e) w1 = (Ok tt, w2) ->
         builtin_print retrying w2 = (Raise pe, w3) ->
         fst (analyze issue_text st)
         = Ok (error_json
                 (both_failed_message
                    repr
                    (map name (filter supports_generate (fst (fst (list_models w3)))))
                    pe)))
  /\ (forall pe,
         fst (analyze issue_text st) = Raise pe
         <-> exists e w1 w2,
             generate_content target_model_name (make_prompt issue_text) (world st)
             = (Raise e, w1)
             /\ builtin_print (error_using e) w1 = (Raise pe, w2))
  /\ (forall m,
         exists m', Json.loads (error_json m) = Ok (VDict [(VStr (u "error"), VStr m')])).
Proof.
  split; [|split; [|split; [|split]]].
  - intros resp [[w1 H1] | (e & w & w' & F & H2)].
    + now rewrite (analyze_primary issue_text st resp w1 H1), extract_text_returns.
    + now rewrite (analyze_fallback issue_text st e w resp w' F H2),
        extract_text_returns.
  - intros e w e2 w' F H2.
    destruct (list_models w') as [[listed failure] w''] eqn:L.
    now rewrite (analyze_both_fail issue_text st e w e2 w' listed failure w'' F H2 L).
  - intros e w1 w2 pe w3 H1 P1 P2.
    destruct (list_models w3) as [[listed failure] w4] eqn:L.
    now rewrite (analyze_second_print_raises issue_text st e w1 w2 pe w3
                   listed failure w4 H1 P1 P2 L).
  - intros pe. split.
    + intros R.
      destruct (analyze_outcome issue_text st)
        as [(txt & st' & E) | (e & w1 & pe' & w2 & H1 & P1 & E)];
        rewrite E in R; [discriminate|].
      injection R as <-. now exists e, w1, w2.
    + intros (e & w1 & w2 & H1 & P1).
      now rewrite (analyze_first_print_raises issue_text st e w1 pe w2 H1 P1).
  - apply loads_error_json.
Qed.

(** *** The code fences *)

Lemma analyze_answered (issue_text : pystr) (st : state World) (resp : generation) :
  answers generate_content builtin_print issue_text st resp ->
  fst (analyze issue_text st)
  = match text resp with
    | Ok raw => Ok (clean raw)
    | Raise e => Ok (error_json (u "AI Parsing failed: " ++ exn_str e))
    end.
Proof.
  intros [[w1 H1] | (e & w & w' & F & H2)].
  - now rewrite (analyze_primary issue_text st resp w1 H1), extract_text_returns.
  - now rewrite (analyze_fallback issue_text st e w resp w' F H2), extract_text_returns.
Qed.

(** A model that answers lets the analyzer return, in some state. *)
Lemma analyze_answered_state (issue_text : pystr) (st : state World)
      (resp : generation) :
  answers generate_content builtin_print issue_text st resp ->
  exists st',
    analyze issue_text st
    = (match text resp with
       | Ok raw => Ok (clean raw)
       | Raise e => Ok (error_json (u "AI Parsing failed: " ++ exn_str e))
       end, st').
Proof.
  intros [[w1 H1] | (e & w & w' & F & H2)].
  - rewrite (analyze_primary issue_text st resp w1 H1), extract_text_returns. eauto.
  - rewrite (analyze_fallback issue_text st e w resp w' F H2), extract_text_returns.
    eauto.
Qed.

(** C7, amended: when a model answers with a payload between the
    markers, as in ["```json\n{...}\n```"], and the payload itself holds
    no run of three back quotes, the analyzer returns the payload with the
    white space around it trimmed: the payload itself when it is an
    object, from its opening to its closing brace. *)
Theorem C7_fenced_payload_is_unwrapped
        (issue_text payload : pystr) (st : state World) (resp : generation) :
  answers generate_content builtin_print issue_text st resp ->
  text resp = Ok (fenced payload) ->
  Str.contains (u "```") payload = false ->
  fst (analyze issue_text st) = Ok (Str.strip payload)
  /\ (forall mid,
         payload = 123%N :: mid ++ [125%N] ->
         fst (analyze issue_text st) = Ok payload).
Proof.
  intros Ha Ht Hp.
  assert (E : fst (analyze issue_text st) = Ok (Str.strip payload)).
  { rewrite (analyze_answered issue_text st resp Ha), Ht.
    now rewrite (clean_fenced payload Hp). }
  split; [exact E|].
  intros mid ->. rewrite E. now rewrite strip_object.
Qed.

End PipelineProperties.

(** ** The pipeline on the scenarios *)

Local Abbreviation fetch_in := (fetch_github_data scripted_get plain_repr).
Local Abbreviation analyze_in :=
  (analyze_with_gemini scripted_generate scripted_list_models scripted_print plain_repr).
Local Abbreviation render_in :=
  (render_dashboard scripted_get scripted_generate scripted_list_models scripted_print
                    plain_repr).

(** C1, as stated, fails: the model answers in prose, the analyzer returns
    the prose, and the prose is not valid JSON. *)
Lemma C1_prose_is_returned_as_it_is :
  fst (analyze_in (u "It crashes.") (start (world_answering doc_prose))) = Ok doc_prose
  /\ Json.loads doc_prose
     = Raise (Exn (u "JSONDecodeError") (u "Expecting value: line 1 column 1 (char 0)")).
Proof. split; reflexivity. Qed.

Lemma C1_analyzer_returns_a_string_witness :
  fst (analyze_in (u "It crashes.")
                  (start (world_primary_down (fenced doc_type_priority))))
  = Ok doc_type_priority.
Proof.
  refine (proj1 (C1_analyzer_returns_a_string
                   script scripted_generate scripted_list_models scripted_print
                   plain_repr (u "It crashes.")
                   (start (world_primary_down (fenced doc_type_priority))))
                {| text := Ok (fenced doc_type_priority) |} _).
  right. do 3 eexists. split; [do 2 eexists; repeat split|]; reflexivity.
Defined.

(** C2, as stated, fails: the issue-detail request answers 404, the
    comments request then raises, and the error [fetch_github_data] returns
    is the text of that exception, which does not carry the status. *)
Lemma C2_status_lost_when_a_later_request_raises :
  fst (scripted_get (issue_url (u "octo") (u "seed") 7) request_headers
                    world_not_found_then_down)
  = not_found
  /\ fst (fetch_in repo_url_example 7 1 (start world_not_found_then_down))
     = Ok (None, Some (u "Connection aborted."))
  /\ Str.contains (u "404") (u "Connection aborted.") = false.
Proof. repeat split. Qed.

Lemma C2_non_200_stops_the_pipeline_witness :
  fst (fetch_in repo_url_example 7 1 (start world_not_found))
  = Ok (None, Some (u "Error fetching issue: 404"))
  /\ fst (render_in repo_url_example 7 1 (start world_not_found))
     = Ok (IndexHtml (u "Could not find issue: Error fetching issue: 404"))
  /\ generate_calls (trace (snd (render_in repo_url_example 7 1 (start world_not_found)))) = 0.
Proof.
  destruct (C2_non_200_stops_the_pipeline
              script scripted_get scripted_generate scripted_list_models scripted_print plain_repr
              repo_url_example 7 1 (start world_not_found)
              (u "octo") (u "seed")
              {| status_code := 404;
                 json := Ok (VDict [ (VStr (u "message"), VStr (u "Not Found")) ]) |}
              {| http_answers := [ ok_response (VList []); ok_response (VList []) ];
                 model_answers := [ answer (u "{}") ];
                 listing := ([], None) |}
              eq_refl eq_refl ltac:(discriminate))
    as (_ & Hcalls & _ & Hstatus).
  destruct (Hstatus _ _ _ _ eq_refl eq_refl) as [Hf Hr].
  split; [exact Hf | split; [exact Hr | exact Hcalls]].
Defined.



Lemma C5_parse_failure_is_absorbed_witness :
  Json.loads doc_prose
  = Raise (Exn (u "JSONDecodeError") (u "Expecting value: line 1 column 1 (char 0)"))
  /\ fst (render_in repo_url_example 7 2 (start (world_answering doc_prose)))
     = Ok (DashboardHtml
             {| ctx_repo_url := repo_url_example;
                ctx_repo_name := u "octo/seed";
                ctx_issue_number := 7;
                ctx_issue_title := VStr (u "Crash on start");
                ctx_issues_list := VList [];
                ctx_analysis :=
                  with_summary
                    (u "Error parsing AI response: Expecting value: line 1 column 1 (char 0)");
                ctx_page := 2 |}).
Proof.
  split; [reflexivity|].
  erewrite (C5_parse_failure_is_absorbed
              script scripted_get scripted_generate scripted_list_models scripted_print plain_repr
              repo_url_example 7 2 (start (world_answering doc_prose)));
    cycle 1; [reflexivity | reflexivity | reflexivity | reflexivity].
Defined.

(** C6, as stated, fails: the primary model is refused with a message
    that the standard output cannot encode, the first [print] raises, and
    its exception leaves the analyzer: the fallback model, which would have
    answered, is not invoked. *)
Lemma C6_print_failure_skips_the_fallback :
  fst (scripted_generate target_model_name (make_prompt (u "It crashes."))
                         (world_primary_garbled doc_type_priority))
  = Raise garbled
  /\ fst (analyze_in (u "It crashes.") (start (world_primary_garbled doc_type_priority)))
     = Raise (UnicodeEncodeError
                (u "'utf-8' codec can't encode character '" ++ BSL
                   :: u "ud83d' in position 52: surrogates not allowed"))
  /\ invocations (trace (snd (analyze_in (u "It crashes.")
                                (start (world_primary_garbled doc_type_priority)))))
     = [ (u "gemini-2.5-flash", make_prompt (u "It crashes.")) ].
Proof. repeat split. Qed.

Lemma C6_fallback_invoked_once_witness :
  invocations (trace (snd (analyze_in (u "It crashes.")
                             (start (world_primary_down (fenced doc_type_priority))))))
  = [ (u "gemini-2.5-flash", make_prompt (u "It crashes."));
      (u "gemini-2.0-flash", make_prompt (u "It crashes.")) ]
  /\ fst (analyze_in (u "It crashes.") (start (world_primary_down (fenced doc_type_priority))))
     = Ok doc_type_priority.
Proof.
  destruct (C6_fallback_invoked_once
              script scripted_generate scripted_list_models scripted_print plain_repr
              (u "It crashes.") (start (world_primary_down (fenced doc_type_priority)))
              (Exn (u "NotFound") (u "404 models/gemini-2.5-flash is not found"))
              {| http_answers := [];
                 model_answers := [ answer (fenced doc_type_priority) ];
                 listing := ([], None) |}
              eq_refl)
    as (_ & Hcalls & Hout).
  split; [exact Hcalls|].
  exact (Hout {| text := Ok (fenced doc_type_priority) |}
              {| http_answers := []; model_answers := []; listing := ([], None) |}
              eq_refl).
Defined.

(** C7, as stated, fails: the payload [{"summary": "Use ``` to quote"}]
    is valid JSON; wrapped in the markers it comes back without the three
    back quotes of its summary, which is another JSON value. *)
Lemma C7_marker_inside_the_payload_is_removed :
  Json.loads doc_backticks
  = Ok (VDict [ (VStr (u "summary"), VStr (u "Use ``` to quote")) ])
  /\ fst (analyze_in (u "It crashes.") (start (world_answering (fenced doc_backticks))))
     = Ok (u "{" ++ quote "summary" ++ u ": " ++ quote "Use  to quote" ++ u "}")
  /\ Json.loads (u "{" ++ quote "summary" ++ u ": " ++ quote "Use  to quote" ++ u "}")
     = Ok (VDict [ (VStr (u "summary"), VStr (u "Use  to quote")) ]).
Proof. repeat split. Qed.

Lemma C7_fenced_payload_is_unwrapped_witness :
  fst (analyze_in (u "It crashes.") (start (world_answering (fenced doc_type_priority))))
  = Ok doc_type_priority.
Proof.
  refine (proj2 (C7_fenced_payload_is_unwrapped
                   script scripted_generate scripted_list_models scripted_print plain_repr
                   (u "It crashes.") doc_type_priority
                   (start (world_answering (fenced doc_type_priority)))
                   {| text := Ok (fenced doc_type_priority) |}
                   _ eq_refl eq_refl)
                (quote "type" ++ u ": " ++ quote "bug" ++ u ", "
                   ++ quote "priority_score" ++ u ": 4")
                eq_refl).
  left. eexists. reflexivity.
Defined.



(* ================================================================== *)
(** * Further properties of the pipeline *)
(* ================================================================== *)

(** ** The owner and the repository of a URL *)

Lemma rstrip_by_repeat (drop : N -> bool) (c : N) (n : nat) (s : pystr) :
  drop c = true -> Str.rstrip_by drop (s ++ repeat c n) = Str.rstrip_by drop s.
Proof.
  intros H. revert s. induction n as [|n IH]; intros s; simpl.
  - now rewrite app_nil_r.
  - change (s ++ c :: repeat c n) with (s ++ [c] ++ repeat c n).
    rewrite app_assoc, IH. now apply rstrip_by_snoc_drop.
Qed.

Lemma rstrip_by_kept_end (drop : N -> bool) (s : pystr) (c : N) :
  drop c = false -> Str.rstrip_by drop (s ++ [c]) = s ++ [c].
Proof. apply rstrip_by_snoc_keep. Qed.

Lemma no_slash_cons (c : N) (s : pystr) :
  no_slash (c :: s) = true -> (SLASH =? c)%N = false /\ no_slash s = true.
Proof.
  unfold no_slash. simpl. intros H. apply negb_true_iff, orb_false_elim in H.
  destruct H as [H1 H2]. split; [exact H1 | now rewrite H2].
Qed.

Lemma no_slash_app (a b : pystr) :
  no_slash (a ++ b) = true -> no_slash a = true /\ no_slash b = true.
Proof.
  unfold no_slash. rewrite existsb_app. intros H.
  apply negb_true_iff, orb_false_elim in H. destruct H as [-> ->]. now split.
Qed.

Lemma last_not_slash (r : pystr) :
  no_slash r = true -> r <> [] ->
  exists r' c, r = r' ++ [c] /\ existsb (N.eqb c) (u "/") = false.
Proof.
  intros H Hr. destruct (exists_last Hr) as (r' & c & ->).
  exists r', c. split; [reflexivity|].
  apply no_slash_app in H as [_ H]. apply no_slash_cons in H as [H _].
  simpl. unfold SLASH in H. now rewrite N.eqb_sym, H.
Qed.

(** Without a slash nothing is stripped and nothing is split. *)
Lemma rstrip_no_slash (s : pystr) :
  no_slash s = true -> Str.rstrip (u "/") s = s.
Proof.
  intros H. destruct s as [|c0 s0] eqn:E; [reflexivity|]. rewrite <- E in *.
  destruct (last_not_slash s H ltac:(subst; discriminate)) as (r' & c & -> & Hc).
  unfold Str.rstrip. now apply rstrip_by_snoc_keep.
Qed.

Lemma split_from_no_slash (cur s : pystr) :
  no_slash s = true -> Str.split_from (u "/") 0 cur s = [rev cur ++ s].
Proof.
  change (u "/") with [SLASH].
  revert cur. induction s as [|c s IH]; intros cur H.
  - simpl. now rewrite app_nil_r.
  - apply no_slash_cons in H as [H1 H2].
    cbn [Str.split_from Str.startswith].
    rewrite H1. cbn [andb]. rewrite (IH (c :: cur) H2). simpl.
    now rewrite <- app_assoc.
Qed.

(** Splitting at a slash: the parts before it, then the parts after it. *)
Lemma split_from_at_slash (cur a b : pystr) :
  Str.split_from (u "/") 0 cur (a ++ SLASH :: b)
  = Str.split_from (u "/") 0 cur a ++ Str.split_from (u "/") 0 [] b.
Proof.
  change (u "/") with [SLASH].
  revert cur. induction a as [|c a IH]; intros cur.
  - reflexivity.
  - change ((c :: a) ++ SLASH :: b) with (c :: (a ++ SLASH :: b)).
    cbn [Str.split_from Str.startswith].
    destruct (SLASH =? c)%N; cbn [andb length Nat.sub].
    + now rewrite IH.
    + apply IH.
Qed.

(** X1: the owner and the repository are the last two segments of the URL,
    whatever comes before them and however many slashes come after. *)
Theorem owner_and_repo_last_two_segments (before o r : pystr) (n : nat) :
  no_slash o = true -> no_slash r = true -> r <> [] ->
  owner_and_repo (before ++ SLASH :: o ++ SLASH :: r ++ repeat SLASH n) = Ok (o, r).
Proof.
  intros Ho Hr Hne. unfold owner_and_repo.
  destruct (last_not_slash r Hr Hne) as (r' & c & -> & Hc).
  replace (Str.rstrip (u "/")
             (before ++ SLASH :: o ++ SLASH :: (r' ++ [c]) ++ repeat SLASH n))
    with (before ++ SLASH :: o ++ SLASH :: r' ++ [c]).
  2:{ unfold Str.rstrip.
      replace (before ++ SLASH :: o ++ SLASH :: (r' ++ [c]) ++ repeat SLASH n)
        with ((before ++ SLASH :: o ++ SLASH :: r' ++ [c]) ++ repeat SLASH n)
        by (repeat (rewrite <- ?app_assoc; simpl); reflexivity).
      rewrite rstrip_by_repeat by reflexivity.
      replace (before ++ SLASH :: o ++ SLASH :: r' ++ [c])
        with ((before ++ SLASH :: o ++ SLASH :: r') ++ [c])
        by (repeat (rewrite <- ?app_assoc; simpl); reflexivity).
      now rewrite rstrip_by_snoc_keep. }
  unfold Str.split.
  rewrite split_from_at_slash, split_from_at_slash.
  rewrite (split_from_no_slash [] o Ho), (split_from_no_slash [] (r' ++ [c]) Hr).
  simpl (rev [] ++ _). unfold index_from_end.
  rewrite !rev_app_distr. reflexivity.
Qed.

Lemma owner_and_repo_last_two_segments_witness :
  owner_and_repo (u "https://github.com/octo/seed///") = Ok (u "octo", u "seed").
Proof.
  exact (owner_and_repo_last_two_segments (u "https://github.com") (u "octo") (u "seed") 3
           eq_refl eq_refl ltac:(discriminate)).
Defined.

(** X2: slashes at the end of the URL change nothing. *)
Theorem owner_and_repo_ignores_trailing_slashes (repo_url : pystr) (n : nat) :
  owner_and_repo (repo_url ++ repeat SLASH n) = owner_and_repo repo_url.
Proof.
  unfold owner_and_repo, Str.rstrip.
  now rewrite rstrip_by_repeat by reflexivity.
Qed.

(** X3: a URL with no slash before its trailing slashes has one segment
    only; [parts[-2]] raises, no request is made and the error is the text
    of the [IndexError]. *)
Theorem fetch_needs_two_segments
        (World : Type)
        (requests_get : pystr -> headers -> World -> result http_response * World)
        (repr : pyval -> pystr)
        (name : pystr) (n : nat) (issue_number page : Z) (st : state World) :
  no_slash name = true ->
  fetch_github_data requests_get repr (name ++ repeat SLASH n) issue_number page st
  = (Ok (None, Some (u "list index out of range")), st).
Proof.
  intros H. unfold fetch_github_data, try_except, bind, lift.
  unfold owner_and_repo. unfold Str.rstrip at 1.
  rewrite rstrip_by_repeat by reflexivity.
  fold (Str.rstrip (u "/") name). rewrite (rstrip_no_slash name H).
  unfold Str.split. rewrite (split_from_no_slash [] name H). reflexivity.
Qed.

Lemma fetch_needs_two_segments_witness :
  fetch_github_data scripted_get plain_repr (u "seed/") 7 1 (start world_not_found)
  = (Ok (None, Some (u "list index out of range")), start world_not_found).
Proof.
  exact (fetch_needs_two_segments script scripted_get plain_repr (u "seed") 1 7 1
           (start world_not_found) eq_refl).
Defined.

(** ** The fetcher, answer by answer *)

Section FetchProperties.

Variable World : Type.
Variable requests_get : pystr -> headers -> World -> result http_response * World.
Variable repr : pyval -> pystr.

Local Abbreviation fetch := (fetch_github_data requests_get repr).

Lemma py_get_field (d : dict) (key : string) :
  py_get (VDict d) (u key) = Ok (field (VDict d) key).
Proof. reflexivity. Qed.

Lemma py_get_not_dict (v : pyval) (key : pystr) :
  is_dict v = false ->
  py_get v key = Raise (AttributeError (quoted_type v ++ u " object has no attribute 'get'")).
Proof. destruct v; try reflexivity; discriminate. Qed.

Lemma add_comments_dicts (comments : list pyval) :
  forallb is_dict comments = true ->
  forall full_text,
    add_comments repr full_text comments
    = Ok (full_text ++ flat_map (comment_line repr) comments).
Proof.
  induction comments as [|c comments IH]; intros H full_text;
    cbn [add_comments flat_map].
  - now rewrite app_nil_r.
  - apply andb_true_iff in H as [Hc H].
    destruct c; try discriminate. rewrite py_get_field.
    rewrite (IH H). unfold comment_line. now rewrite <- !app_assoc.
Qed.

Lemma add_comments_stops (pre post : list pyval) (bad : pyval) :
  forallb is_dict pre = true -> is_dict bad = false ->
  forall full_text,
    add_comments repr full_text (pre ++ bad :: post)
    = Raise (AttributeError (quoted_type bad ++ u " object has no attribute 'get'")).
Proof.
  induction pre as [|c pre IH]; intros H Hb full_text; cbn [add_comments app].
  - now rewrite (py_get_not_dict bad (u "body") Hb).
  - apply andb_true_iff in H as [Hc H].
    destruct c; try discriminate. rewrite py_get_field. now apply IH.
Qed.

(** The three requests answered, the body of a fetch is at its
    [if issue_res.status_code != 200]. *)
Lemma fetch_after_requests (repo_url : pystr) (issue_number page : Z) (st : state World)
      (o r : pystr) (r1 r2 r3 : http_response) (w1 w2 w3 : World) :
  owner_and_repo repo_url = Ok (o, r) ->
  requests_get (issue_url o r issue_number) request_headers (world st) = (Ok r1, w1) ->
  requests_get (comments_url o r issue_number) request_headers w1 = (Ok r2, w2) ->
  requests_get (issues_list_url o r page) request_headers w2 = (Ok r3, w3) ->
  status_code r1 = 200%Z ->
  fetch repo_url issue_number page st
  = let st3 := {| world := w3;
                  trace := trace st ++ fetch_requests o r issue_number page |} in
    match json r1, json_or_empty r2, json_or_empty r3 with
    | Raise e, _, _ => (Ok (None, Some (exn_str e)), st3)
    | Ok _, Raise e, _ => (Ok (None, Some (exn_str e)), st3)
    | Ok _, Ok _, Raise e => (Ok (None, Some (exn_str e)), st3)
    | Ok issue_data, Ok comments_data, Ok issues_list_data =>
        match py_get issue_data (u "title"), py_get issue_data (u "body"),
              py_iter comments_data with
        | Ok title, Ok body, Ok comments =>
            match add_comments repr
                    (u "Title: " ++ py_str repr title ++ [LF; LF] ++ u "Body:" ++ [LF]
                       ++ py_str repr body ++ [LF; LF]) comments with
            | Ok full_text =>
                (Ok (Some {| owner := o; repo := r; issue_title := title;
                             full_text := full_text;
                             issues_list := issues_list_data;
                             current_page := page |}, None), st3)
            | Raise e => (Ok (None, Some (exn_str e)), st3)
            end
        | Raise e, _, _ => (Ok (None, Some (exn_str e)), st3)
        | Ok _, Raise e, _ => (Ok (None, Some (exn_str e)), st3)
        | Ok _, Ok _, Raise e => (Ok (None, Some (exn_str e)), st3)
        end
    end.
Proof.
  intros Hn H1 H2 H3 Hs.
  unfold fetch_github_data, try_except, bind, lift, ret, http_get, log, json_or_empty.
  rewrite Hn, H1. simpl. rewrite H2. simpl. rewrite H3. simpl.
  rewrite Hs. simpl. unfold fetch_requests. rewrite <- !app_assoc. simpl.
  destruct (json r1) as [issue_data|e]; [|reflexivity].
  destruct (status_code r2 =? 200)%Z, (status_code r3 =? 200)%Z;
    repeat match goal with
           | |- context [match json ?x with _ => _ end] => destruct (json x)
           | |- context [match py_get ?x ?k with _ => _ end] => destruct (py_get x k)
           | |- context [match py_iter ?x with _ => _ end] => destruct (py_iter x)
           | |- context [match add_comments ?f ?t ?x with _ => _ end] =>
               destruct (add_comments f t x)
           end; reflexivity.
Qed.


(** X4: when the three requests answer with status 200, the issue is an
    object and the comments are a list of objects, the fetch returns the
    owner and the repository of the URL, the title of the issue, the issue
    list, the page it was asked, and as text the title and the body followed
    by one line per comment, in the order of the comments; a title, a body
    or a comment body that is missing reads [None]. *)
Theorem fetch_builds_the_text
        (repo_url : pystr) (issue_number page : Z) (st : state World)
        (o r : pystr) (r1 r2 r3 : http_response) (w1 w2 w3 : World)
        (issue : dict) (comments : list pyval) (issues : pyval) :
  owner_and_repo repo_url = Ok (o, r) ->
  requests_get (issue_url o r issue_number) request_headers (world st) = (Ok r1, w1) ->
  requests_get (comments_url o r issue_number) request_headers w1 = (Ok r2, w2) ->
  requests_get (issues_list_url o r page) request_headers w2 = (Ok r3, w3) ->
  status_code r1 = 200%Z -> json r1 = Ok (VDict issue) ->
  json_or_empty r2 = Ok (VList comments) -> forallb is_dict comments = true ->
  json_or_empty r3 = Ok issues ->
  fetch repo_url issue_number page st
  = (Ok (Some {| owner := o;
                 repo := r;
                 issue_title := field (VDict issue) "title";
                 full_text :=
                   header_text repr (VDict issue)
                     ++ flat_map (comment_line repr) comments;
                 issues_list := issues;
                 current_page := page |},
         None),
     {| world := w3; trace := trace st ++ fetch_requests o r issue_number page |}).
Proof.
  intros Hn H1 H2 H3 Hs Hj Hc Hd Hi.
  rewrite (fetch_after_requests repo_url issue_number page st o r r1 r2 r3 w1 w2 w3
             Hn H1 H2 H3 Hs).
  cbv zeta. rewrite Hj, Hc, Hi, !py_get_field. cbn [py_iter].
  change (u "Title: " ++ py_str repr (field (VDict issue) "title") ++ [LF; LF]
            ++ u "Body:" ++ [LF] ++ py_str repr (field (VDict issue) "body") ++ [LF; LF])
    with (header_text repr (VDict issue)).
  now rewrite (add_comments_dicts comments Hd).
Qed.

(** X5: a comments request or an issue-list request answered with another
    status than 200 counts for an empty list, whatever its body: the text
    has no comment line and the issue list is empty. *)
Theorem fetch_degrades_to_empty_lists
        (repo_url : pystr) (issue_number page : Z) (st : state World)
        (o r : pystr) (r1 r2 r3 : http_response) (w1 w2 w3 : World) (issue : dict) :
  owner_and_repo repo_url = Ok (o, r) ->
  requests_get (issue_url o r issue_number) request_headers (world st) = (Ok r1, w1) ->
  requests_get (comments_url o r issue_number) request_headers w1 = (Ok r2, w2) ->
  requests_get (issues_list_url o r page) request_headers w2 = (Ok r3, w3) ->
  status_code r1 = 200%Z -> json r1 = Ok (VDict issue) ->
  status_code r2 <> 200%Z -> status_code r3 <> 200%Z ->
  exists st',
    fetch repo_url issue_number page st
    = (Ok (Some {| owner := o;
                   repo := r;
                   issue_title := field (VDict issue) "title";
                   full_text := header_text repr (VDict issue);
                   issues_list := VList [];
                   current_page := page |},
           None), st').
Proof.
  intros Hn H1 H2 H3 Hs Hj Hc Hi. apply Z.eqb_neq in Hc, Hi. eexists.
  rewrite (fetch_after_requests repo_url issue_number page st o r r1 r2 r3 w1 w2 w3
             Hn H1 H2 H3 Hs).
  cbv zeta. unfold json_or_empty. rewrite Hj, Hc, Hi, !py_get_field.
  reflexivity.
Qed.

(** X6: when the URL has an owner and a repository, the three requests
    return, the issue is answered with status 200 and a body that is JSON
    but not an object, and the bodies of the comments and of the issue list,
    which are read before [issue_data.get] is called, are read without an
    exception (each is JSON, or is not read because the status is not 200),
    the fetch gives no data: the error is the text of the [AttributeError]
    raised by [issue_data.get]. *)
Theorem fetch_refuses_an_issue_that_is_no_object
        (repo_url : pystr) (issue_number page : Z) (st : state World)
        (o r : pystr) (r1 r2 r3 : http_response) (w1 w2 w3 : World)
        (v comments_data issues : pyval) :
  owner_and_repo repo_url = Ok (o, r) ->
  requests_get (issue_url o r issue_number) request_headers (world st) = (Ok r1, w1) ->
  requests_get (comments_url o r issue_number) request_headers w1 = (Ok r2, w2) ->
  requests_get (issues_list_url o r page) request_headers w2 = (Ok r3, w3) ->
  status_code r1 = 200%Z -> json r1 = Ok v -> is_dict v = false ->
  json_or_empty r2 = Ok comments_data -> json_or_empty r3 = Ok issues ->
  fst (fetch repo_url issue_number page st)
  = Ok (None, Some (quoted_type v ++ u " object has no attribute 'get'")).
Proof.
  intros Hn H1 H2 H3 Hs Hj Hv Hc Hi.
  rewrite (fetch_after_requests repo_url issue_number page st o r r1 r2 r3 w1 w2 w3
             Hn H1 H2 H3 Hs).
  cbv zeta. rewrite Hj, Hc, Hi, !(py_get_not_dict v _ Hv). reflexivity.
Qed.

(** X7: when the URL has an owner and a repository, the three requests
    return, the issue is answered with status 200 and an object, the issue
    list is read without an exception, and the comments are a list whose
    first element that is no object is [bad], one such comment is enough to
    lose the fetch, although the issue itself was fetched: the error is the
    text of the [AttributeError] raised by [comment.get] on [bad]. *)
Theorem fetch_refuses_a_comment_that_is_no_object
        (repo_url : pystr) (issue_number page : Z) (st : state World)
        (o r : pystr) (r1 r2 r3 : http_response) (w1 w2 w3 : World)
        (issue : dict) (pre post : list pyval) (bad issues : pyval) :
  owner_and_repo repo_url = Ok (o, r) ->
  requests_get (issue_url o r issue_number) request_headers (world st) = (Ok r1, w1) ->
  requests_get (comments_url o r issue_number) request_headers w1 = (Ok r2, w2) ->
  requests_get (issues_list_url o r page) request_headers w2 = (Ok r3, w3) ->
  status_code r1 = 200%Z -> json r1 = Ok (VDict issue) ->
  json_or_empty r2 = Ok (VList (pre ++ bad :: post)) ->
  forallb is_dict pre = true -> is_dict bad = false ->
  json_or_empty r3 = Ok issues ->
  fst (fetch repo_url issue_number page st)
  = Ok (None, Some (quoted_type bad ++ u " object has no attribute 'get'")).
Proof.
  intros Hn H1 H2 H3 Hs Hj Hc Hp Hb Hi.
  rewrite (fetch_after_requests repo_url issue_number page st o r r1 r2 r3 w1 w2 w3
             Hn H1 H2 H3 Hs).
  cbv zeta. rewrite Hj, Hc, Hi, !py_get_field. cbn [py_iter].
  now rewrite (add_comments_stops pre post bad Hp Hb).
Qed.

Lemma fetch_adds_requests
      (repo_url : pystr) (issue_number page : Z) (st : state World) :
  exists gets,
    trace (snd (fetch repo_url issue_number page st)) = trace st ++ gets
    /\ length gets <= 3
    /\ forallb is_get gets = true.
Proof.
  unfold fetch_github_data, try_except, bind, lift, ret, http_get, log.
  destruct (owner_and_repo repo_url) as [[o r]|e]; simpl.
  2:{ exists []. rewrite app_nil_r. repeat split. simpl. lia. }
  destruct (requests_get (issue_url o r issue_number) request_headers (world st))
    as [[r1|e1] w1]; simpl.
  2:{ eexists [_]. repeat split. simpl. lia. }
  destruct (requests_get (comments_url o r issue_number) request_headers w1)
    as [[r2|e2] w2]; simpl.
  2:{ eexists [_; _]. rewrite <- !app_assoc. repeat split. simpl. lia. }
  exists (fetch_requests o r issue_number page).
  destruct (requests_get (issues_list_url o r page) request_headers w2)
    as [[r3|e3] w3]; simpl.
  2:{ unfold fetch_requests. rewrite <- !app_assoc. repeat split. simpl. lia. }
  repeat match goal with
         | |- context [match ?x with _ => _ end] =>
             lazymatch x with
             | context [match _ with _ => _ end] => fail
             | _ => destruct x eqn:?
             end
         end; simpl;
    unfold fetch_requests; rewrite <- !app_assoc; repeat split; simpl; lia.
Qed.

Lemma generate_calls_of_requests (gets : list event) :
  forallb is_get gets = true -> generate_calls gets = 0.
Proof.
  unfold generate_calls.
  induction gets as [|[] gets IH]; simpl; intros H; try discriminate; auto.
Qed.

(** X8: a fetch talks to the HTTP layer only: it adds to the trace at most
    three events, all of them requests, and no model invocation. *)
Theorem fetch_only_makes_requests
        (repo_url : pystr) (issue_number page : Z) (st : state World) :
  exists gets,
    trace (snd (fetch repo_url issue_number page st)) = trace st ++ gets
    /\ length gets <= 3
    /\ forallb is_get gets = true
    /\ generate_calls (trace (snd (fetch repo_url issue_number page st)))
       = generate_calls (trace st).
Proof.
  destruct (fetch_adds_requests repo_url issue_number page st) as (gets & Ht & Hl & Hg).
  exists gets. repeat split; try assumption.
  rewrite Ht. unfold generate_calls. rewrite filter_app, length_app.
  fold (generate_calls gets). rewrite (generate_calls_of_requests gets Hg). lia.
Qed.

(** X10: the requests of a fetch are the issue, its comments and the
    issue list, in that order and with the same headers; only a request that
    raises stops the later ones.  The status of the issue is looked at after
    the three requests: when all three are answered, all three were made,
    whatever their status codes. *)
Theorem fetch_asks_in_order
        (repo_url : pystr) (issue_number page : Z) (st : state World)
        (o r : pystr) :
  owner_and_repo repo_url = Ok (o, r) ->
  (exists k,
      1 <= k <= 3
      /\ trace (snd (fetch repo_url issue_number page st))
         = trace st ++ firstn k (fetch_requests o r issue_number page))
  /\ (forall r1 w1 r2 w2 r3 w3,
         requests_get (issue_url o r issue_number) request_headers (world st)
         = (Ok r1, w1) ->
         requests_get (comments_url o r issue_number) request_headers w1
         = (Ok r2, w2) ->
         requests_get (issues_list_url o r page) request_headers w2
         = (Ok r3, w3) ->
         trace (snd (fetch repo_url issue_number page st))
         = trace st ++ fetch_requests o r issue_number page
         /\ world (snd (fetch repo_url issue_number page st)) = w3).
Proof.
  intros Hn. split.
  - unfold fetch_github_data, try_except, bind, lift, ret, http_get, log.
    rewrite Hn. cbn [fst snd world trace].
    destruct (requests_get (issue_url o r issue_number) request_headers (world st))
      as [[r1|e1] w1]; cbn [fst snd world trace].
    2:{ exists 1. split; [lia | reflexivity]. }
    destruct (requests_get (comments_url o r issue_number) request_headers w1)
      as [[r2|e2] w2]; cbn [fst snd world trace].
    2:{ exists 2. split; [lia | now rewrite <- app_assoc]. }
    exists 3. split; [lia|].
    destruct (requests_get (issues_list_url o r page) request_headers w2)
      as [[r3|e3] w3]; cbn [fst snd world trace].
    2:{ now rewrite <- !app_assoc. }
    repeat match goal with
           | |- context [match ?x with _ => _ end] =>
               lazymatch x with
               | context [match _ with _ => _ end] => fail
               | _ => destruct x eqn:?
               end
           end; cbn [fst snd world trace]; now rewrite <- !app_assoc.
  - intros r1 w1 r2 w2 r3 w3 H1 H2 H3.
    unfold fetch_github_data, try_except, bind, lift, ret, http_get, log.
    rewrite Hn. cbn [fst snd world trace]. rewrite H1. cbn [fst snd world trace].
    rewrite H2. cbn [fst snd world trace]. rewrite H3. cbn [fst snd world trace].
    repeat match goal with
           | |- context [match ?x with _ => _ end] =>
               lazymatch x with
               | context [match _ with _ => _ end] => fail
               | _ => destruct x eqn:?
               end
           end; cbn [fst snd world trace]; now rewrite <- !app_assoc.
Qed.

End FetchProperties.


Lemma fetch_asks_in_order_witness :
  trace (snd (fetch_in repo_url_example 7 1 (start world_not_found)))
  = [] ++ fetch_requests (u "octo") (u "seed") 7 1
  /\ world (snd (fetch_in repo_url_example 7 1 (start world_not_found)))
     = {| http_answers := []; model_answers := [ answer (u "{}") ];
          listing := ([], None) |}.
Proof.
  exact (proj2 (fetch_asks_in_order
                  script scripted_get plain_repr
                  repo_url_example 7 1 (start world_not_found)
                  (u "octo") (u "seed") eq_refl)
               {| status_code := 404;
                  json := Ok (VDict [ (VStr (u "message"), VStr (u "Not Found")) ]) |}
               {| http_answers := [ ok_response (VList []); ok_response (VList []) ];
                  model_answers := [ answer (u "{}") ]; listing := ([], None) |}
               {| status_code := 200; json := Ok (VList []) |}
               {| http_answers := [ ok_response (VList []) ];
                  model_answers := [ answer (u "{}") ]; listing := ([], None) |}
               {| status_code := 200; json := Ok (VList []) |}
               {| http_answers := []; model_answers := [ answer (u "{}") ];
                  listing := ([], None) |}
               eq_refl eq_refl eq_refl).
Defined.

Lemma fetch_builds_the_text_witness :
  fst (fetch_in repo_url_example 7 2 (start (world_answering doc_prose)))
  = Ok (Some {| owner := u "octo";
                repo := u "seed";
                issue_title := VStr (u "Crash on start");
                full_text :=
                  u "Title: Crash on start" ++ [LF; LF] ++ u "Body:" ++ [LF]
                    ++ u "It crashes." ++ [LF; LF] ++ u "Comment: Same here." ++ [LF];
                issues_list := VList [];
                current_page := 2 |},
        None).
Proof.
  rewrite (fetch_builds_the_text script scripted_get plain_repr
             repo_url_example 7 2 (start (world_answering doc_prose))
             (u "octo") (u "seed")
             {| status_code := 200; json := Ok issue_json |}
             {| status_code := 200; json := Ok comments_json |}
             {| status_code := 200; json := Ok (VList []) |}
             {| http_answers := [ ok_response comments_json; ok_response (VList []) ];
                model_answers := [ answer doc_prose ]; listing := ([], None) |}
             {| http_answers := [ ok_response (VList []) ];
                model_answers := [ answer doc_prose ]; listing := ([], None) |}
             {| http_answers := [];
                model_answers := [ answer doc_prose ]; listing := ([], None) |}
             [ (VStr (u "title"), VStr (u "Crash on start"));
               (VStr (u "body"), VStr (u "It crashes.")) ]
             [ VDict [ (VStr (u "body"), VStr (u "Same here.")) ] ]
             (VList [])
             eq_refl eq_refl eq_refl eq_refl eq_refl eq_refl eq_refl eq_refl eq_refl).
  reflexivity.
Defined.

Lemma fetch_degrades_to_empty_lists_witness :
  fst (fetch_in repo_url_example 7 1 (start world_issue_only))
  = Ok (Some {| owner := u "octo";
                repo := u "seed";
                issue_title := VStr (u "Crash on start");
                full_text :=
                  u "Title: Crash on start" ++ [LF; LF] ++ u "Body:" ++ [LF]
                    ++ u "It crashes." ++ [LF; LF];
                issues_list := VList [];
                current_page := 1 |},
        None).
Proof.
  destruct (fetch_degrades_to_empty_lists script scripted_get plain_repr
              repo_url_example 7 1 (start world_issue_only)
              (u "octo") (u "seed")
              {| status_code := 200; json := Ok issue_json |}
              {| status_code := 500;
                 json := Raise (Exn (u "JSONDecodeError")
                                    (u "Expecting value: line 1 column 1 (char 0)")) |}
              {| status_code := 403;
                 json := Raise (Exn (u "JSONDecodeError")
                                    (u "Expecting value: line 1 column 1 (char 0)")) |}
              {| http_answers := [ status_only 500; status_only 403 ];
                 model_answers := [ answer (u "{}") ]; listing := ([], None) |}
              {| http_answers := [ status_only 403 ];
                 model_answers := [ answer (u "{}") ]; listing := ([], None) |}
              {| http_answers := [];
                 model_answers := [ answer (u "{}") ]; listing := ([], None) |}
              [ (VStr (u "title"), VStr (u "Crash on start"));
                (VStr (u "body"), VStr (u "It crashes.")) ]
              eq_refl eq_refl eq_refl eq_refl eq_refl eq_refl
              ltac:(discriminate) ltac:(discriminate))
    as [st' ->].
  reflexivity.
Defined.

Lemma fetch_refuses_an_issue_that_is_no_object_witness :
  fst (fetch_in repo_url_example 7 1 (start world_issue_is_array))
  = Ok (None, Some (u "'list' object has no attribute 'get'")).
Proof.
  exact (fetch_refuses_an_issue_that_is_no_object script scripted_get plain_repr
           repo_url_example 7 1 (start world_issue_is_array)
           (u "octo") (u "seed")
           {| status_code := 200; json := Ok (VList []) |}
           {| status_code := 200; json := Ok comments_json |}
           {| status_code := 200; json := Ok (VList []) |}
           {| http_answers := [ ok_response comments_json; ok_response (VList []) ];
              model_answers := [ answer (u "{}") ]; listing := ([], None) |}
           {| http_answers := [ ok_response (VList []) ];
              model_answers := [ answer (u "{}") ]; listing := ([], None) |}
           {| http_answers := [];
              model_answers := [ answer (u "{}") ]; listing := ([], None) |}
           (VList []) comments_json (VList [])
           eq_refl eq_refl eq_refl eq_refl eq_refl eq_refl eq_refl eq_refl eq_refl).
Defined.

Lemma fetch_refuses_a_comment_that_is_no_object_witness :
  fst (fetch_in repo_url_example 7 1 (start world_comment_is_string))
  = Ok (None, Some (u "'str' object has no attribute 'get'")).
Proof.
  exact (fetch_refuses_a_comment_that_is_no_object script scripted_get plain_repr
           repo_url_example 7 1 (start world_comment_is_string)
           (u "octo") (u "seed")
           {| status_code := 200; json := Ok issue_json |}
           {| status_code := 200;
              json := Ok (VList [ VDict [ (VStr (u "body"), VStr (u "Same here.")) ];
                                  VStr (u "oops");
                                  VDict [] ]) |}
           {| status_code := 200; json := Ok (VList []) |}
           {| http_answers :=
                [ ok_response (VList [ VDict [ (VStr (u "body"), VStr (u "Same here.")) ];
                                       VStr (u "oops");
                                       VDict [] ]);
                  ok_response (VList []) ];
              model_answers := [ answer (u "{}") ]; listing := ([], None) |}
           {| http_answers := [ ok_response (VList []) ];
              model_answers := [ answer (u "{}") ]; listing := ([], None) |}
           {| http_answers := [];
              model_answers := [ answer (u "{}") ]; listing := ([], None) |}
           [ (VStr (u "title"), VStr (u "Crash on start"));
             (VStr (u "body"), VStr (u "It crashes.")) ]
           [ VDict [ (VStr (u "body"), VStr (u "Same here.")) ] ] [ VDict [] ]
           (VStr (u "oops")) (VList [])
           eq_refl eq_refl eq_refl eq_refl eq_refl eq_refl eq_refl eq_refl eq_refl eq_refl).
Defined.

(** ** What the analyzer asks of the model service *)

Section AnalyzerProperties.

Variable World : Type.
Variable requests_get : pystr -> headers -> World -> result http_response * World.
Variable generate_content : pystr -> pystr -> World -> result generation * World.
Variable list_models : World -> (list model_info * option exn) * World.
Variable builtin_print : pystr -> World -> result unit * World.
Variable repr : pyval -> pystr.

Local Abbreviation fetch := (fetch_github_data requests_get repr).
Local Abbreviation analyze :=
  (analyze_with_gemini generate_content list_models builtin_print repr).
Local Abbreviation render :=
  (render_dashboard requests_get generate_content list_models builtin_print repr).

(** The run of the analyzer on [t] from [st], path by path; on the two
    paths that end in [extract_text] the result is written out. *)
Ltac by_path t st :=
  let P := fresh "P" in
  let r := fresh "r" in
  let E := fresh "E" in
  pose proof (analyze_path World generate_content list_models builtin_print repr t st)
    as P;
  remember (analyze_with_gemini generate_content list_models builtin_print repr t st)
    as r eqn:E in *;
  destruct P as [ resp w1 H1
                | e w1 pe w2 H1 P1
                | e w1 w2 pe w3 listed failure w4 H1 P1 P2 L
                | e w resp w' F H2
                | e w e2 w' listed failure w'' F H2 L ];
  clear E; rewrite ?(extract_text_returns World);
  cbn [fst snd trace world after_primary after_fallback].

(** X9: the analyzer asks no more than it needs.  When the primary model
    answers, the one event is its invocation: nothing is printed, the
    fallback model is not invoked, the models are not listed.  When the
    primary model raises, the first line is printed; if that [print] raises
    nothing more is done.  Otherwise the second line is printed, and the
    fallback model is invoked if that [print] returned.  The models are
    listed, once and last, exactly when the second [print] or the
    invocation of the fallback model raised. *)
Theorem analyze_asks_no_more_than_needed (issue_text : pystr) (st : state World) :
  match generate_content target_model_name (make_prompt issue_text) (world st) with
  | (Ok _, _) =>
      trace (snd (analyze issue_text st))
      = trace st ++ [EvGenerate target_model_name (make_prompt issue_text)]
  | (Raise e, w1) =>
      match builtin_print (error_using e) w1 with
      | (Raise _, _) =>
          trace (snd (analyze issue_text st))
          = trace st ++ [EvGenerate target_model_name (make_prompt issue_text);
                         EvPrint (error_using e)]
      | (Ok _, w2) =>
          match builtin_print retrying w2 with
          | (Raise _, _) =>
              trace (snd (analyze issue_text st))
              = trace st ++ [EvGenerate target_model_name (make_prompt issue_text);
                             EvPrint (error_using e); EvPrint retrying; EvListModels]
          | (Ok _, w3) =>
              match generate_content fallback_model_name (make_prompt issue_text) w3
              with
              | (Ok _, _) =>
                  trace (snd (analyze issue_text st))
                  = trace st ++ fallback_events (make_prompt issue_text) e
              | (Raise _, _) =>
                  trace (snd (analyze issue_text st))
                  = trace st ++ fallback_events (make_prompt issue_text) e
                      ++ [EvListModels]
              end
          end
      end
  end.
Proof.
  by_path issue_text st.
  - now rewrite H1.
  - now rewrite H1, P1.
  - now rewrite H1, P1, P2.
  - destruct F as (w1 & w2 & H1 & P1 & P2). now rewrite H1, P1, P2, H2.
  - destruct F as (w1 & w2 & H1 & P1 & P2). now rewrite H1, P1, P2, H2.
Qed.


(** The analyzer only appends to the trace. *)
Lemma analyze_extends_the_trace (issue_text : pystr) (st : state World) :
  exists more, trace (snd (analyze issue_text st)) = trace st ++ more.
Proof.
  by_path issue_text st; eauto.
Qed.

(** The invocations of one run of the analyzer: the primary model, then
    at most the fallback model, with the same prompt. *)
Lemma analyze_invocations (issue_text : pystr) (st : state World) :
  exists rest,
    invocations (trace (snd (analyze issue_text st)))
    = invocations (trace st) ++ (target_model_name, make_prompt issue_text) :: rest
    /\ (rest = [] \/ rest = [(fallback_model_name, make_prompt issue_text)]).
Proof.
  by_path issue_text st; rewrite ?invocations_app; cbn; rewrite ?app_nil_r; eauto.
Qed.

(** What a fetch that returns data has done. *)
Lemma fetch_with_data (repo_url : pystr) (issue_number page : Z)
      (st st1 : state World) (data : github_data) (error : option pystr) :
  fetch repo_url issue_number page st = (Ok (Some data, error), st1) ->
  error = None
  /\ owner_and_repo repo_url = Ok (owner data, repo data)
  /\ current_page data = page
  /\ trace st1
     = trace st ++ fetch_requests (owner data) (repo data) issue_number page.
Proof.
  unfold fetch_github_data, try_except, bind, lift, ret, http_get, log.
  destruct (owner_and_repo repo_url) as [[o r]|e]; simpl; [|discriminate].
  destruct (requests_get (issue_url o r issue_number) request_headers (world st))
    as [[r1|e1] w1]; simpl; [|discriminate].
  destruct (requests_get (comments_url o r issue_number) request_headers w1)
    as [[r2|e2] w2]; simpl; [|discriminate].
  destruct (requests_get (issues_list_url o r page) request_headers w2)
    as [[r3|e3] w3]; simpl; [|discriminate].
  repeat match goal with
         | |- context [match ?x with _ => _ end] =>
             lazymatch x with
             | context [match _ with _ => _ end] => fail
             | _ => destruct x eqn:?
             end
         end; simpl; try discriminate.
  all: intros E; injection E as <- <- <-; simpl.
  all: unfold fetch_requests; rewrite <- !app_assoc; now repeat split.
Qed.

Lemma fetch_outcome (repo_url : pystr) (issue_number page : Z) (st : state World) :
  exists st1,
    generate_calls (trace st1) = generate_calls (trace st)
    /\ ((exists data, fetch repo_url issue_number page st = (Ok (Some data, None), st1))
        \/ (exists msg, fetch repo_url issue_number page st = (Ok (None, Some msg), st1))).
Proof.
  destruct (fetch_adds_requests World requests_get repr
              repo_url issue_number page st) as (gets & Ht & _ & Hg).
  destruct (fetch repo_url issue_number page st) as [out st1] eqn:Hf. simpl in Ht.
  exists st1. split.
  - rewrite Ht, generate_calls_app, (generate_calls_of_requests gets Hg). lia.
  - revert Hf.
    unfold fetch_github_data, try_except, bind, lift, ret, http_get.
    repeat match goal with
           | |- context [match ?x with _ => _ end] =>
               lazymatch x with
               | context [match _ with _ => _ end] => fail
               | _ => destruct x eqn:?
               end
           end; simpl; intros E; injection E as <- <-; eauto.
Qed.


Lemma render_echoes (repo_url : pystr) (issue_number page : Z) (st : state World)
      (ctx : template_context) :
  fst (render repo_url issue_number page st) = Ok (DashboardHtml ctx) ->
  echoes repo_url issue_number page ctx
         (trace (snd (render repo_url issue_number page st))).
Proof.
  intros H.
  destruct (fetch_outcome repo_url issue_number page st)
    as (st1 & _ & [[data Hf] | [msg Hf]]).
  - destruct (analyze_outcome World generate_content list_models builtin_print repr
                (full_text data) st1)
      as [(txt & st2 & Ha) | (e & w1 & pe & w2 & H1 & P1 & Ha)].
    2:{ rewrite (render_analyzer_raises World requests_get generate_content
                   list_models builtin_print repr
                   repo_url issue_number page st st1 _ data pe Hf Ha) in H.
        discriminate H. }
    rewrite (render_with_data World requests_get generate_content list_models
               builtin_print repr
               repo_url issue_number page st st1 st2 data txt Hf Ha) in *.
    simpl in H. injection H as <-.
    destruct (fetch_with_data repo_url issue_number page st st1 data None Hf)
      as (_ & Hn & _ & Ht).
    repeat split. exists (owner data), (repo data). repeat split; [assumption|].
    simpl.
    destruct (analyze_extends_the_trace (full_text data) st1) as [more T].
    rewrite Ha in T. simpl in T. rewrite T, Ht. unfold fetch_requests.
    apply in_or_app. left. apply in_or_app. right. simpl. auto.
  - unfold render_dashboard, bind in H. rewrite Hf in H.
    destruct msg; discriminate.
Qed.

(** X12: a dashboard answers the request it was asked.  From
    [GET /analyze] it carries the URL, the issue number and the page of the
    query, whatever the analysis, and the issue list was requested for that
    page; from [POST /analyze] the page is 1. *)
Theorem dashboard_echoes_the_request
        (repo_url : pystr) (issue_number : Z) (st : state World) :
  (forall page ctx,
      fst (analyze_get requests_get generate_content list_models builtin_print repr
                       repo_url issue_number page st)
      = Ok (DashboardHtml ctx) ->
      echoes repo_url issue_number page ctx
             (trace (snd (analyze_get requests_get generate_content list_models
                                      builtin_print repr
                                      repo_url issue_number page st))))
  /\ (forall ctx,
         fst (analyze_post requests_get generate_content list_models builtin_print repr
                           repo_url issue_number st)
         = Ok (DashboardHtml ctx) ->
         echoes repo_url issue_number 1 ctx
                (trace (snd (analyze_post requests_get generate_content list_models
                                          builtin_print repr
                                          repo_url issue_number st)))).
Proof.
  split.
  - intros page ctx H. now apply render_echoes.
  - intros ctx H. now apply render_echoes.
Qed.

(** X16: when a model answers and its cleaned text is a JSON object
    without an [error] key, the dashboard is rendered, its analysis is
    [safe_default] updated with the object, and every field the model gave
    is shown with the model's value. *)
Theorem model_fields_reach_the_dashboard
        (repo_url : pystr) (issue_number page : Z) (st st1 : state World)
        (data : github_data) (resp : generation) (raw : pystr) (d : dict) :
  fetch repo_url issue_number page st = (Ok (Some data, None), st1) ->
  answers generate_content builtin_print (full_text data) st1 resp ->
  text resp = Ok raw ->
  Json.loads (clean raw) = Ok (VDict d) ->
  dict_has (VStr (u "error")) d = false ->
  fst (render repo_url issue_number page st)
  = Ok (DashboardHtml
          (dashboard_of repo_url issue_number page data
                        (dict_update_items safe_default d)))
  /\ forall k v,
      dict_get k d = Some v ->
      dict_get k (dict_update_items safe_default d) = Some v.
Proof.
  intros Hf Ha Ht Hl He. split.
  - destruct (analyze_answered_state World generate_content list_models builtin_print
                repr (full_text data) st1 resp Ha) as [st2 Hr].
    rewrite Ht in Hr.
    rewrite (render_with_data World requests_get generate_content list_models
               builtin_print repr
               repo_url issue_number page st st1 st2 data (clean raw) Hf Hr).
    cbn [fst]. now rewrite (normalize_object_without_error repr (clean raw) d Hl He).
  - intros k v Hk.
    rewrite (dict_get_update_items k d (loads_wf (clean raw) _ Hl)). now rewrite Hk.
Qed.

(** X13: what the model is asked is the text the fetch has built.  When
    the fetch returns data, the first invocation of [render_dashboard] is
    of the primary model, with the prompt made from [data["full_text"]];
    a second one, if any, is of the fallback model with the same prompt. *)
Theorem render_asks_about_the_fetched_text
        (repo_url : pystr) (issue_number page : Z) (st st1 : state World)
        (data : github_data) :
  fetch repo_url issue_number page st = (Ok (Some data, None), st1) ->
  exists rest,
    invocations (trace (snd (render repo_url issue_number page st)))
    = invocations (trace st)
        ++ (target_model_name, make_prompt (full_text data)) :: rest
    /\ (rest = []
        \/ rest = [(fallback_model_name, make_prompt (full_text data))]).
Proof.
  intros Hf.
  destruct (analyze_invocations (full_text data) st1) as (rest & E & R).
  exists rest. split; [|exact R].
  assert (S : snd (render repo_url issue_number page st)
              = snd (analyze (full_text data) st1)).
  { destruct (analyze_outcome World generate_content list_models builtin_print repr
                (full_text data) st1)
      as [(txt & st2 & Ha) | (e & w1 & pe & w2 & H1 & P1 & Ha)].
    - now rewrite (render_with_data World requests_get generate_content list_models
                     builtin_print repr
                     repo_url issue_number page st st1 st2 data txt Hf Ha), Ha.
    - now rewrite (render_analyzer_raises World requests_get generate_content
                     list_models builtin_print repr
                     repo_url issue_number page st st1 _ data pe Hf Ha), Ha. }
  rewrite S, E.
  destruct (fetch_with_data repo_url issue_number page st st1 data None Hf)
    as (_ & _ & _ & ->).
  rewrite invocations_app. unfold fetch_requests. simpl. now rewrite app_nil_r.
Qed.

End AnalyzerProperties.

Lemma model_fields_reach_the_dashboard_witness :
  fst (render_in repo_url_example 7 1
                 (start (world_answering (fenced doc_type_priority))))
  = Ok (DashboardHtml
          {| ctx_repo_url := repo_url_example;
             ctx_repo_name := u "octo/seed";
             ctx_issue_number := 7;
             ctx_issue_title := VStr (u "Crash on start");
             ctx_issues_list := VList [];
             ctx_analysis :=
               [ (VStr (u "summary"), VStr (u "AI could not analyze this issue."));
                 (VStr (u "type"), VStr (u "bug"));
                 (VStr (u "priority_score"), VInt 4);
                 (VStr (u "suggested_labels"), VList [VStr (u "error")]);
                 (VStr (u "potential_impact"), VStr (u "Unknown")) ];
             ctx_page := 1 |}).
Proof.
  refine (proj1 (model_fields_reach_the_dashboard
                   script scripted_get scripted_generate scripted_list_models
                   scripted_print plain_repr repo_url_example 7 1
                   (start (world_answering (fenced doc_type_priority)))
                   (snd (fetch_in repo_url_example 7 1
                                  (start (world_answering (fenced doc_type_priority)))))
                   {| owner := u "octo"; repo := u "seed";
                      issue_title := VStr (u "Crash on start");
                      full_text :=
                        u "Title: Crash on start" ++ [LF; LF] ++ u "Body:" ++ [LF]
                          ++ u "It crashes." ++ [LF; LF] ++ u "Comment: Same here."
                          ++ [LF];
                      issues_list := VList [];
                      current_page := 1 |}
                   {| text := Ok (fenced doc_type_priority) |}
                   (fenced doc_type_priority)
                   [ (VStr (u "type"), VStr (u "bug"));
                     (VStr (u "priority_score"), VInt 4) ]
                   eq_refl _ eq_refl eq_refl eq_refl)).
  left. eexists. reflexivity.
Defined.

Lemma dashboard_echoes_the_request_witness :
  echoes repo_url_example 7 2
         (dashboard_of repo_url_example 7 2 data_example safe_default)
         (trace (snd (analyze_get scripted_get scripted_generate scripted_list_models scripted_print
                                  plain_repr repo_url_example 7 2
                                  (start (world_answering (u "{}")))))).
Proof.
  exact (proj1 (dashboard_echoes_the_request
                  script scripted_get scripted_generate scripted_list_models scripted_print plain_repr
                  repo_url_example 7 (start (world_answering (u "{}"))))
               2%Z (dashboard_of repo_url_example 7 2 data_example safe_default)
               eq_refl).
Defined.

Lemma render_asks_about_the_fetched_text_witness :
  exists rest,
    invocations
      (trace (snd (render_in repo_url_example 7 1 (start (world_answering (u "{}"))))))
    = [] ++ (u "gemini-2.5-flash",
             make_prompt
               (u "Title: Crash on start" ++ [LF; LF] ++ u "Body:" ++ [LF]
                  ++ u "It crashes." ++ [LF; LF] ++ u "Comment: Same here." ++ [LF]))
            :: rest
    /\ (rest = []
        \/ rest
           = [ (u "gemini-2.0-flash",
                make_prompt
                  (u "Title: Crash on start" ++ [LF; LF] ++ u "Body:" ++ [LF]
                     ++ u "It crashes." ++ [LF; LF] ++ u "Comment: Same here."
                     ++ [LF])) ]).
Proof.
  exact (render_asks_about_the_fetched_text
           script scripted_get scripted_generate scripted_list_models scripted_print plain_repr
           repo_url_example 7 1 (start (world_answering (u "{}")))
           (snd (fetch_in repo_url_example 7 1 (start (world_answering (u "{}")))))
           {| owner := u "octo"; repo := u "seed";
              issue_title := VStr (u "Crash on start");
              full_text :=
                u "Title: Crash on start" ++ [LF; LF] ++ u "Body:" ++ [LF]
                  ++ u "It crashes." ++ [LF; LF] ++ u "Comment: Same here." ++ [LF];
              issues_list := VList [];
              current_page := 1 |}
           eq_refl).
Defined.

(** ** The analysis keeps the schema *)

Lemma dict_set_keys (k v : pyval) (d : dict) :
  exists more, map fst (dict_set k v d) = map fst d ++ more.
Proof.
  induction d as [|[k' v'] d [more IH]]; simpl.
  - now exists [k].
  - destruct (key_eqb k' k); simpl.
    + exists []. now rewrite app_nil_r.
    + exists more. now rewrite IH.
Qed.

Lemma dict_update_items_keys (items : list (pyval * pyval)) (d : dict) :
  exists more, map fst (dict_update_items d items) = map fst d ++ more.
Proof.
  unfold dict_update_items. revert d.
  induction items as [|[k v] items IH]; intros d; simpl.
  - exists []. now rewrite app_nil_r.
  - destruct (IH (dict_set k v d)) as [m1 E1].
    destruct (dict_set_keys k v d) as [m2 E2].
    exists (m2 ++ m1). now rewrite E1, E2, app_assoc.
Qed.

Lemma dict_merge_seq_keys (elems : list pyval) (d : dict) (i : Z) :
  exists more, map fst (fst (dict_merge_seq d i elems)) = map fst d ++ more.
Proof.
  revert d i. induction elems as [|e rest IH]; intros d i; simpl.
  - exists []. now rewrite app_nil_r.
  - destruct (py_iter e) as [[|k [|v [|x fast]]]|err]; simpl;
      try (exists []; now rewrite app_nil_r).
    destruct (hashable k); simpl; [|exists []; now rewrite app_nil_r].
    destruct (IH (dict_set k v d) (i + 1)%Z) as [m1 E1].
    destruct (dict_set_keys k v d) as [m2 E2].
    exists (m2 ++ m1). now rewrite E1, E2, app_assoc.
Qed.

Lemma merge_analysis_keys (repr : pyval -> pystr) (d : dict) (txt : pystr) :
  exists more, map fst (fst (merge_analysis repr d txt)) = map fst d ++ more.
Proof.
  assert (Same : exists more : list pyval, map fst d = map fst d ++ more).
  { exists []. now rewrite app_nil_r. }
  unfold merge_analysis.
  destruct (Json.loads txt) as [parsed|e]; [|exact Same].
  destruct (py_contains (u "error") parsed) as [[|]|e]; [| |exact Same].
  - destruct (py_getitem parsed (u "error")); [|exact Same].
    apply dict_set_keys.
  - unfold dict_update. destruct parsed; simpl; try exact Same.
    + apply (dict_merge_seq_keys _ d 0%Z).
    + apply (dict_merge_seq_keys _ d 0%Z).
    + apply dict_update_items_keys.
Qed.

Lemma dict_has_keys (k : pyval) (d : dict) :
  dict_has k d = existsb (fun k' => key_eqb k' k) (map fst d).
Proof.
  unfold dict_has. induction d as [|[k' v] d IH]; simpl; [reflexivity|].
  now destruct (key_eqb k' k).
Qed.

(** X14: whatever the analyzer returned, the analysis handed to the
    dashboard has the five keys of the schema, first and in the order of
    [safe_analysis]; keys the model added come after them. *)
Theorem analysis_keeps_the_schema (repr : pyval -> pystr) (txt : pystr) :
  (exists more,
      map fst (normalize repr txt)
      = [ VStr (u "summary"); VStr (u "type"); VStr (u "priority_score");
          VStr (u "suggested_labels"); VStr (u "potential_impact") ] ++ more)
  /\ forall k, dict_has k safe_default = true ->
               dict_has k (normalize repr txt) = true.
Proof.
  assert (K : exists more,
             map fst (normalize repr txt) = map fst safe_default ++ more).
  { unfold normalize.
    destruct (merge_analysis_keys repr safe_default txt) as [m1 E1].
    destruct (merge_analysis repr safe_default txt) as [d [[]|e]]; simpl in E1.
    - now exists m1.
    - destruct (dict_set_keys (VStr (u "summary"))
                  (VStr (u "Error parsing AI response: " ++ exn_str e)) d)
        as [m2 E2].
      exists (m1 ++ m2). now rewrite E2, E1, app_assoc. }
  split; [exact K|].
  intros k H. destruct K as [more E].
  rewrite dict_has_keys in *. rewrite E, existsb_app, H. reflexivity.
Qed.

(** ** What [clean] leaves of the markers *)

Lemma startswith_prefix (p s : pystr) :
  Str.startswith p s = true -> exists t, s = p ++ t.
Proof.
  revert s. induction p as [|x p IH]; intros s H; [now exists s|].
  destruct s as [|y s]; [discriminate|]. simpl in H.
  apply andb_true_iff in H as [H1 H2]. apply N.eqb_eq in H1. subst y.
  destruct (IH s H2) as [t ->]. now exists t.
Qed.

Lemma startswith_app_r (p a t : pystr) :
  Str.startswith p a = true -> Str.startswith p (a ++ t) = true.
Proof.
  revert a. induction p as [|x p IH]; intros a H; [reflexivity|].
  destruct a as [|y a]; [discriminate|]. simpl in *.
  apply andb_true_iff in H as [H1 H2]. rewrite H1. simpl. now apply IH.
Qed.

Lemma startswith_ticks_lead (s : pystr) :
  Str.startswith ticks s = (3 <=? leading_ticks s).
Proof.
  destruct s as [|a [|b [|c s]]]; cbn [Str.startswith leading_ticks];
    repeat match goal with
           | |- context [(96 =? ?x)%N] => destruct (96 =? x)%N
           end; reflexivity.
Qed.

(** Of a run of back quotes, whole markers are removed: what stays at the
    start is the rest of the run. *)
Lemma replace_ticks_lead (n : nat) (s : pystr) :
  length s <= n ->
  leading_ticks (Str.replace_from ticks [] 0 s) = leading_ticks s mod 3.
Proof.
  revert s. induction n as [|n IH]; intros s L.
  - destruct s; [reflexivity | simpl in L; lia].
  - destruct (Str.startswith ticks s) eqn:E.
    + destruct (startswith_prefix ticks s E) as [t ->].
      rewrite (replace_from_prefix ticks [] t ltac:(discriminate)).
      cbn [app]. rewrite (IH t) by (simpl in L; lia).
      change (leading_ticks (96%N :: 96%N :: 96%N :: t)) with (3 + leading_ticks t).
      replace (3 + leading_ticks t) with (leading_ticks t + 1 * 3) by lia.
      now rewrite Nat.Div0.mod_add.
    + destruct s as [|c s]; [reflexivity|].
      rewrite (replace_from_cons_keep ticks [] c s E).
      rewrite startswith_ticks_lead in E. apply Nat.leb_gt in E.
      cbn [leading_ticks] in *.
      destruct (96 =? c)%N; [|reflexivity].
      rewrite (IH s) by (simpl in L; lia).
      rewrite !Nat.mod_small by lia. reflexivity.
Qed.

Lemma replace_ticks_clear (n : nat) (s : pystr) :
  length s <= n -> Str.contains ticks (Str.replace_from ticks [] 0 s) = false.
Proof.
  revert s. induction n as [|n IH]; intros s L.
  - destruct s; [reflexivity | simpl in L; lia].
  - destruct (Str.startswith ticks s) eqn:E.
    + destruct (startswith_prefix ticks s E) as [t ->].
      rewrite (replace_from_prefix ticks [] t ltac:(discriminate)).
      apply IH. simpl in L. lia.
    + destruct s as [|c s]; [reflexivity|].
      pose proof (replace_ticks_lead (S n) (c :: s) L) as Lead.
      rewrite (replace_from_cons_keep ticks [] c s E) in *.
      cbn [Str.contains]. rewrite (IH s) by (simpl in L; lia).
      rewrite orb_false_r, startswith_ticks_lead, Lead.
      apply Nat.leb_gt. apply Nat.mod_upper_bound. discriminate.
Qed.

Lemma contains_lstrip (sub : pystr) (drop : N -> bool) (s : pystr) :
  Str.contains sub s = false -> Str.contains sub (Str.lstrip_by drop s) = false.
Proof.
  induction s as [|c s IH]; intros H; [exact H|].
  cbn [Str.lstrip_by]. destruct (drop c); [|exact H].
  apply contains_cons_false in H as [_ H]. now apply IH.
Qed.

Lemma contains_prefix (sub a t : pystr) :
  Str.contains sub (a ++ t) = false -> Str.contains sub a = false.
Proof.
  induction a as [|c a IH]; intros H.
  - destruct sub; [|reflexivity]. now destruct t.
  - change ((c :: a) ++ t) with (c :: (a ++ t)) in H.
    apply contains_cons_false in H as [H1 H2].
    cbn [Str.contains]. rewrite (IH H2), orb_false_r.
    destruct (Str.startswith sub (c :: a)) eqn:E; [|reflexivity].
    apply (startswith_app_r sub (c :: a) t) in E.
    change ((c :: a) ++ t) with (c :: (a ++ t)) in E. congruence.
Qed.

Lemma rstrip_by_prefix (drop : N -> bool) (s : pystr) :
  exists t, s = Str.rstrip_by drop s ++ t.
Proof.
  unfold Str.rstrip_by. induction s as [|c s [t IH]]; [now exists []|].
  cbn [fold_right].
  destruct (fold_right _ [] s) as [|a acc].
  - destruct (drop c).
    + now exists (c :: s).
    + exists t. simpl in *. congruence.
  - exists t. simpl in *. congruence.
Qed.

Lemma rstrip_by_end (drop : N -> bool) (s : pystr) :
  Str.rstrip_by drop s = []
  \/ exists r c, Str.rstrip_by drop s = r ++ [c] /\ drop c = false.
Proof.
  unfold Str.rstrip_by. induction s as [|x s IH]; [now left|].
  cbn [fold_right].
  destruct (fold_right _ [] s) as [|a acc].
  - destruct (drop x) eqn:D; [now left|].
    right. now exists [], x.
  - right. destruct IH as [IH | (r & c & E & D)]; [discriminate|].
    exists (x :: r), c. now rewrite E.
Qed.

Lemma lstrip_by_suffix (drop : N -> bool) (s : pystr) :
  exists pre, s = pre ++ Str.lstrip_by drop s.
Proof.
  induction s as [|c s [pre IH]]; [now exists []|].
  cbn [Str.lstrip_by]. destruct (drop c).
  - exists (c :: pre). simpl. now rewrite <- IH.
  - now exists [].
Qed.

Lemma lstrip_by_again (drop : N -> bool) (s : pystr) :
  Str.lstrip_by drop (Str.lstrip_by drop s) = Str.lstrip_by drop s.
Proof.
  induction s as [|c s IH]; [reflexivity|].
  cbn [Str.lstrip_by]. destruct (drop c) eqn:D; [exact IH|].
  cbn [Str.lstrip_by]. now rewrite D.
Qed.

(** A stripped string is its own stripped form. *)
Lemma strip_strip (s : pystr) : Str.strip (Str.strip s) = Str.strip s.
Proof.
  unfold Str.strip.
  set (r := Str.rstrip_by Str.isspace s).
  assert (K : Str.rstrip_by Str.isspace (Str.lstrip_by Str.isspace r)
              = Str.lstrip_by Str.isspace r).
  { destruct (lstrip_by_suffix Str.isspace r) as [pre E].
    destruct (Str.lstrip_by Str.isspace r) as [|x l] eqn:El; [reflexivity|].
    destruct (rstrip_by_end Str.isspace s) as [R | (r' & c & R & D)]; fold r in R.
    - rewrite R in El. discriminate El.
    - destruct (exists_last (l := x :: l) ltac:(discriminate)) as (l' & c' & El').
      rewrite El' in *. rewrite R, app_assoc in E.
      apply app_inj_tail in E as [_ <-].
      now apply rstrip_by_snoc_keep. }
  rewrite K. apply lstrip_by_again.
Qed.

Lemma contains_longer (a b s : pystr) :
  Str.contains a s = false -> Str.contains (a ++ b) s = false.
Proof.
  induction s as [|c s IH]; intros H.
  - destruct a; [discriminate H | reflexivity].
  - apply contains_cons_false in H as [H1 H2].
    cbn [Str.contains]. rewrite (IH H2), orb_false_r.
    destruct (Str.startswith (a ++ b) (c :: s)) eqn:E; [|reflexivity].
    apply startswith_app in E. congruence.
Qed.

(** X15: what [analyze_with_gemini] returns of a model's text holds no
    code-fence marker, whatever the text was, and has no white space at
    either end; cleaning it again changes nothing. *)
Theorem clean_leaves_no_marker (raw : pystr) :
  Str.contains (u "```") (clean raw) = false
  /\ Str.strip (clean raw) = clean raw
  /\ clean (clean raw) = clean raw.
Proof.
  assert (C : Str.contains ticks (clean raw) = false).
  { unfold clean, Str.strip, Str.replace. change (u "```") with ticks.
    apply contains_lstrip.
    set (x := Str.replace_from ticks [] 0 _).
    assert (X : Str.contains ticks x = false)
      by (apply (replace_ticks_clear _ _ (le_n _))).
    destruct (rstrip_by_prefix Str.isspace x) as [t E].
    rewrite E in X. now apply contains_prefix in X. }
  assert (S : Str.strip (clean raw) = clean raw) by apply strip_strip.
  repeat split; [exact C | exact S |].
  unfold clean at 1. unfold Str.replace.
  change (u "```json") with (ticks ++ u "json").
  rewrite (replace_from_absent (ticks ++ u "json") [] _
             (contains_longer ticks (u "json") _ C)).
  change (u "```") with ticks.
  rewrite (replace_from_absent ticks [] _ C). exact S.
Qed.

(** ** The error object, written and read back *)

Lemma hex4_of_value (n : N) :
  (n < 65536)%N ->
  Json.hex4 (JsonEncode.hexchar (n / 4096 mod 16)) (JsonEncode.hexchar (n / 256 mod 16))
            (JsonEncode.hexchar (n / 16 mod 16)) (JsonEncode.hexchar (n mod 16))
  = Some n.
Proof.
  intros H. unfold Json.hex4.
  rewrite !hex_digit_hexchar by (apply N.mod_lt; discriminate).
  f_equal.
  pose proof (N.div_mod n 16 ltac:(discriminate)) as E0.
  pose proof (N.div_mod (n / 16) 16 ltac:(discriminate)) as E1.
  pose proof (N.div_mod (n / 256) 16 ltac:(discriminate)) as E2.
  rewrite N.Div0.div_div in E1, E2.
  change (16 * 16)%N with 256%N in E1. change (256 * 16)%N with 4096%N in E2.
  assert (S : (n / 4096 < 16)%N) by (apply N.Div0.div_lt_upper_bound; lia).
  rewrite (N.mod_small (n / 4096) 16 S).
  generalize dependent (n / 4096)%N. generalize dependent (n / 256)%N.
  generalize dependent (n / 16)%N.
  intros. lia.
Qed.

Lemma scanstring_hex_single (start : nat) (acc : pystr) (a b c d hi : N) (rest : pystr) :
  Json.hex4 a b c d = Some hi ->
  Json.is_high_surrogate hi = false ->
  rest <> [] ->
  Json.scanstring start acc (BSL :: Json.ch "u" :: a :: b :: c :: d :: rest)
  = Json.scanstring start (hi :: acc) rest.
Proof.
  intros H Hs Hrest.
  destruct rest as [|x1 rest]; [congruence|].
  cbn [Json.scanstring].
  change (BSL =? DQ)%N with false. change (BSL =? BSL)%N with true.
  change (Json.ch "u" =? Json.ch "u")%N with true. cbv iota. rewrite H.
  destruct rest as [|x2 [|x3 [|x4 [|x5 [|x6 [|x7 rest]]]]]]; try reflexivity.
  rewrite Hs. reflexivity.
Qed.

Lemma scanstring_hex_pair (start : nat) (acc : pystr)
      (a b c d hi a' b' c' d' lo : N) (rest : pystr) :
  Json.hex4 a b c d = Some hi ->
  Json.hex4 a' b' c' d' = Some lo ->
  Json.is_high_surrogate hi = true ->
  Json.is_low_surrogate lo = true ->
  rest <> [] ->
  Json.scanstring start acc
    (BSL :: Json.ch "u" :: a :: b :: c :: d
         :: BSL :: Json.ch "u" :: a' :: b' :: c' :: d' :: rest)
  = Json.scanstring start (Json.join_surrogates hi lo :: acc) rest.
Proof.
  intros H H' Hh Hl Hrest.
  destruct rest as [|x1 rest]; [congruence|].
  cbn [Json.scanstring].
  change (BSL =? DQ)%N with false. change (BSL =? BSL)%N with true.
  change (Json.ch "u" =? Json.ch "u")%N with true. cbv iota.
  rewrite H, Hh. cbn [andb]. cbv iota. rewrite H', Hl. reflexivity.
Qed.

Lemma lor_low (k y : N) : (y < 1024)%N -> N.lor (k * 1024) y = (k * 1024 + y)%N.
Proof.
  intros H.
  assert (Z : N.land (k * 1024) y = 0%N).
  { apply N.bits_inj. intros i. rewrite N.land_spec, N.bits_0.
    change 1024%N with (2 ^ 10)%N in *.
    destruct (N.lt_ge_cases i 10) as [L | L].
    - now rewrite (N.mul_pow2_bits_low k 10 i L).
    - rewrite <- (N.mod_small y (2 ^ 10) H).
      rewrite (N.mod_pow2_bits_high y 10 i L). apply andb_false_r. }
  now rewrite (N.add_nocarry_lxor _ _ Z), (N.lxor_lor _ _ Z).
Qed.

(** The two halves [json.dumps] writes for a character outside the basic
    plane are a surrogate pair, and [json.loads] joins them back. *)
Lemma surrogates_join (c : N) :
  (65536 <= c)%N -> (c < 1114112)%N ->
  let n := (c - 65536)%N in
  let s1 := N.lor 55296 (N.land (N.shiftr n 10) 1023) in
  let s2 := N.lor 56320 (N.land n 1023) in
  (s1 < 65536)%N /\ (s2 < 65536)%N
  /\ Json.is_high_surrogate s1 = true /\ Json.is_low_surrogate s2 = true
  /\ Json.join_surrogates s1 s2 = c.
Proof.
  intros L U n s1 s2.
  assert (Hn : (n < 1048576)%N) by (subst n; lia).
  assert (Q : (n / 1024 < 1024)%N) by (apply N.Div0.div_lt_upper_bound; lia).
  assert (R : (n mod 1024 < 1024)%N) by (apply N.mod_lt; discriminate).
  assert (E1 : s1 = (55296 + n / 1024)%N).
  { subst s1. rewrite N.shiftr_div_pow2. change (2 ^ 10)%N with 1024%N.
    change 1023%N with (N.ones 10). rewrite N.land_ones.
    change (2 ^ 10)%N with 1024%N. rewrite (N.mod_small _ _ Q).
    change 55296%N with (54 * 1024)%N. now apply lor_low. }
  assert (E2 : s2 = (56320 + n mod 1024)%N).
  { subst s2. change 1023%N with (N.ones 10). rewrite N.land_ones.
    change (2 ^ 10)%N with 1024%N.
    change 56320%N with (55 * 1024)%N. now apply lor_low. }
  pose proof (N.div_mod n 1024 ltac:(discriminate)) as D.
  rewrite E1, E2. clear E1 E2. clearbody s1 s2.
  revert Q R D. generalize (n / 1024)%N, (n mod 1024)%N. intros q r Q R D.
  repeat split; try lia.
  - unfold Json.is_high_surrogate. apply andb_true_iff.
    split; apply N.leb_le; lia.
  - unfold Json.is_low_surrogate. apply andb_true_iff.
    split; apply N.leb_le; lia.
  - unfold Json.join_surrogates.
    replace (55296 + q - 55296)%N with q by lia.
    replace (56320 + r - 56320)%N with r by lia.
    rewrite N.shiftl_mul_pow2. change (2 ^ 10)%N with 1024%N.
    rewrite (lor_low _ _ R). subst n. lia.
Qed.

Lemma scalar_not_high (c : N) :
  is_scalar c = true -> Json.is_high_surrogate c = false.
Proof.
  unfold is_scalar, Json.is_high_surrogate. intros H.
  apply orb_true_iff in H as [H | H].
  - apply N.ltb_lt in H. apply andb_false_iff. left. apply N.leb_gt. lia.
  - apply andb_true_iff in H as [H _]. apply N.ltb_lt in H.
    apply andb_false_iff. right. apply N.leb_gt. lia.
Qed.

(** One character, written by [json.dumps], is read back by [json.loads]. *)
Lemma scanstring_escape_char (start : nat) (acc : pystr) (c : N) (rest : pystr) :
  is_scalar c = true ->
  rest <> [] ->
  Json.scanstring start acc (JsonEncode.escape_char c ++ rest)
  = Json.scanstring start (c :: acc) rest.
Proof.
  intros Hc Hrest. unfold JsonEncode.escape_char.
  destruct (c =? BSL)%N eqn:E1.
  { apply N.eqb_eq in E1. subst c.
    exact (scanstring_letter start acc BSL BSL rest eq_refl). }
  destruct (c =? DQ)%N eqn:E2.
  { apply N.eqb_eq in E2. subst c.
    exact (scanstring_letter start acc DQ DQ rest eq_refl). }
  destruct (c =? 8)%N eqn:E3.
  { apply N.eqb_eq in E3. subst c.
    exact (scanstring_letter start acc (Json.ch "b") 8%N rest eq_refl). }
  destruct (c =? 12)%N eqn:E4.
  { apply N.eqb_eq in E4. subst c.
    exact (scanstring_letter start acc (Json.ch "f") 12%N rest eq_refl). }
  destruct (c =? 10)%N eqn:E5.
  { apply N.eqb_eq in E5. subst c.
    exact (scanstring_letter start acc (Json.ch "n") 10%N rest eq_refl). }
  destruct (c =? 13)%N eqn:E6.
  { apply N.eqb_eq in E6. subst c.
    exact (scanstring_letter start acc (Json.ch "r") 13%N rest eq_refl). }
  destruct (c =? 9)%N eqn:E7.
  { apply N.eqb_eq in E7. subst c.
    exact (scanstring_letter start acc (Json.ch "t") 9%N rest eq_refl). }
  destruct ((32 <=? c)%N && (c <=? 126)%N) eqn:E8.
  { apply andb_true_iff in E8 as [E8 _].
    apply N.eqb_neq in E1, E2.
    exact (scanstring_plain start acc c rest E8 E2 E1). }
  destruct (c <? 65536)%N eqn:E9.
  { apply N.ltb_lt in E9.
    unfold JsonEncode.uXXXX, JsonEncode.hex4_of. cbn [app].
    exact (scanstring_hex_single start acc _ _ _ _ c rest
             (hex4_of_value c E9) (scalar_not_high c Hc) Hrest). }
  apply N.ltb_ge in E9.
  assert (U : (c < 1114112)%N).
  { unfold is_scalar in Hc. apply orb_true_iff in Hc as [H | H].
    - apply N.ltb_lt in H. lia.
    - apply andb_true_iff in H as [_ H]. now apply N.ltb_lt in H. }
  destruct (surrogates_join c E9 U) as (B1 & B2 & Hh & Hl & J).
  cbv zeta in *.
  unfold JsonEncode.uXXXX, JsonEncode.hex4_of. cbn [app].
  rewrite (scanstring_hex_pair start acc _ _ _ _ _ _ _ _ _ _ rest
             (hex4_of_value _ B1) (hex4_of_value _ B2) Hh Hl Hrest).
  now rewrite J.
Qed.

Lemma scanstring_escape_exact (m : pystr) (start : nat) (acc tail : pystr) :
  forallb is_scalar m = true ->
  Json.scanstring start acc (JsonEncode.escape m ++ DQ :: tail)
  = Json.Got (rev acc ++ m) tail.
Proof.
  revert acc. induction m as [|c m IH]; intros acc H.
  - simpl. now rewrite app_nil_r.
  - simpl in H. apply andb_true_iff in H as [Hc Hm].
    unfold JsonEncode.escape in *. cbn [flat_map]. rewrite <- app_assoc.
    rewrite (scanstring_escape_char start acc c _ Hc)
      by (now destruct (flat_map JsonEncode.escape_char m)).
    rewrite (IH (c :: acc) Hm). simpl. now rewrite <- app_assoc.
Qed.

Lemma scan_error_object_exact (fuel : nat) (m : pystr) :
  forallb is_scalar m = true ->
  Json.scan_once (S (S (S fuel)))
    (123%N :: DQ :: u "error" ++ DQ :: 58%N :: 32%N :: DQ
           :: JsonEncode.escape m ++ DQ :: u "}")
  = Json.Got (VDict [(VStr (u "error"), VStr m)]) [].
Proof.
  intros H.
  remember (JsonEncode.escape m ++ DQ :: u "}") as tail eqn:Et.
  simpl.
  match goal with
  | |- context [Json.scanstring ?start [] tail] =>
      pose proof (scanstring_escape_exact m start [] (u "}") H) as Hout;
      rewrite <- Et in Hout; rewrite Hout
  end.
  reflexivity.
Qed.

Lemma loads_error_object (m : pystr) :
  forallb is_scalar m = true ->
  Json.loads (error_json m) = Ok (VDict [(VStr (u "error"), VStr m)]).
Proof.
  intros H.
  rewrite error_json_shape. unfold Json.loads.
  set (doc := u "{" ++ quote "error" ++ u ": " ++ DQ :: JsonEncode.escape m ++ DQ :: u "}").
  assert (L : 3 <= 2 * length doc + 1) by (subst doc; simpl; lia).
  destruct (2 * length doc + 1) as [|[|[|fuel]]]; try lia. clear L.
  subst doc.
  change (u "{" ++ quote "error" ++ u ": " ++ DQ :: JsonEncode.escape m ++ DQ :: u "}")
    with (123%N :: DQ :: u "error" ++ DQ :: 58%N :: 32%N :: DQ
               :: JsonEncode.escape m ++ DQ :: u "}").
  remember (DQ :: u "error" ++ DQ :: 58%N :: 32%N :: DQ
               :: JsonEncode.escape m ++ DQ :: u "}") as body eqn:Eb.
  cbn [Str.startswith Str.lstrip_by Json.skip_ws].
  change (65279 =? 123)%N with false. change (Json.is_ws 123) with false.
  cbv iota. cbn [andb]. cbv iota. subst body.
  now rewrite (scan_error_object_exact fuel m H).
Qed.

(** X17: the error object of [analyze_with_gemini] carries its message
    unchanged into the dashboard: what [json.dumps] writes for
    [{"error": m}], [json.loads] reads as that dictionary, for every message
    made of characters (no half of a surrogate pair), and the summary of the
    analysis is [AI Error: ] followed by the message. *)
Theorem error_object_round_trip (repr : pyval -> pystr) (m : pystr) :
  forallb is_scalar m = true ->
  Json.loads (error_json m) = Ok (VDict [(VStr (u "error"), VStr m)])
  /\ normalize repr (error_json m) = with_summary (u "AI Error: " ++ m).
Proof.
  intros H. split; [now apply loads_error_object|].
  exact (normalize_object_with_error repr (error_json m) _ (VStr m)
           (loads_error_object m H) eq_refl).
Qed.

Lemma error_object_round_trip_witness :
  Json.loads (error_json (u "quota: " ++ [DQ; 233; 128512; DQ; LF]%N))
  = Ok (VDict [(VStr (u "error"), VStr (u "quota: " ++ [DQ; 233; 128512; DQ; LF]%N))])
  /\ normalize plain_repr (error_json (u "quota: " ++ [DQ; 233; 128512; DQ; LF]%N))
     = with_summary (u "AI Error: quota: " ++ [DQ; 233; 128512; DQ; LF]%N).
Proof.
  exact (error_object_round_trip plain_repr
           (u "quota: " ++ [DQ; 233; 128512; DQ; LF]%N) eq_refl).
Defined.

(** ** Failures of the model service, as the dashboard shows them *)

Section FailureProperties.

Variable World : Type.
Variable requests_get : pystr -> headers -> World -> result http_response * World.
Variable generate_content : pystr -> pystr -> World -> result generation * World.
Variable list_models : World -> (list model_info * option exn) * World.
Variable builtin_print : pystr -> World -> result unit * World.
Variable repr : pyval -> pystr.

Local Abbreviation fetch := (fetch_github_data requests_get repr).
Local Abbreviation analyze :=
  (analyze_with_gemini generate_content list_models builtin_print repr).
Local Abbreviation render :=
  (render_dashboard requests_get generate_content list_models builtin_print repr).

(** X18: when both models fail (the primary model raises, the two lines
    are printed, the fallback model raises), the dashboard is still rendered,
    and the summary of its analysis names both models, the models the
    service lists as able to generate, and the text of the fallback's
    exception. *)
Theorem both_failures_are_reported
        (repo_url : pystr) (issue_number page : Z) (st st1 : state World)
        (data : github_data) (e e2 : exn) (w w' w'' : World)
        (listed : list model_info) (failure : option exn) :
  fetch repo_url issue_number page st = (Ok (Some data, None), st1) ->
  falls_back generate_content builtin_print (full_text data) st1 e w ->
  generate_content fallback_model_name (make_prompt (full_text data)) w
  = (Raise e2, w') ->
  list_models w' = ((listed, failure), w'') ->
  forallb is_scalar
          (both_failed_message repr (map name (filter supports_generate listed)) e2)
  = true ->
  fst (render repo_url issue_number page st)
  = Ok (DashboardHtml
          (dashboard_of repo_url issue_number page data
             (with_summary
                (u "AI Error: "
                   ++ both_failed_message
                        repr (map name (filter supports_generate listed)) e2)))).
Proof.
  intros Hf F H2 H3 Hs.
  pose proof (analyze_both_fail World generate_content list_models builtin_print repr
                (full_text data) st1 e w e2 w' listed failure w'' F H2 H3) as Ha.
  rewrite (render_with_data World requests_get generate_content list_models
             builtin_print repr
             repo_url issue_number page st st1 _ data _ Hf Ha).
  cbn [fst].
  now rewrite (normalize_object_with_error repr _ _ (VStr _)
                 (loads_error_object _ Hs) eq_refl).
Qed.

(** X19: when a model answers and the text of the answer cannot be read,
    the dashboard is still rendered, and the summary of its analysis is
    [AI Error: AI Parsing failed: ] followed by the text of the exception. *)
Theorem unreadable_answer_is_reported
        (repo_url : pystr) (issue_number page : Z) (st st1 : state World)
        (data : github_data) (resp : generation) (e : exn) :
  fetch repo_url issue_number page st = (Ok (Some data, None), st1) ->
  answers generate_content builtin_print (full_text data) st1 resp ->
  text resp = Raise e ->
  forallb is_scalar (exn_str e) = true ->
  fst (render repo_url issue_number page st)
  = Ok (DashboardHtml
          (dashboard_of repo_url issue_number page data
             (with_summary (u "AI Error: AI Parsing failed: " ++ exn_str e)))).
Proof.
  intros Hf Ha Ht Hs.
  destruct (analyze_answered_state World generate_content list_models builtin_print
              repr (full_text data) st1 resp Ha) as [st2 Hr].
  rewrite Ht in Hr.
  rewrite (render_with_data World requests_get generate_content list_models
             builtin_print repr
             repo_url issue_number page st st1 st2 data _ Hf Hr).
  cbn [fst].
  assert (Hm : forallb is_scalar (u "AI Parsing failed: " ++ exn_str e) = true).
  { rewrite forallb_app, Hs. reflexivity. }
  rewrite (normalize_object_with_error repr _ _ (VStr _)
             (loads_error_object _ Hm) eq_refl).
  reflexivity.
Qed.

End FailureProperties.

Lemma both_failures_are_reported_witness :
  fst (render_in repo_url_example 7 1 (start world_models_down))
  = Ok (DashboardHtml
          (dashboard_of repo_url_example 7 1 data_example
             (with_summary
                (u "AI Error: Model gemini-2.5-flash failed. Fallback gemini-2.0-flash also failed. Available models: []. Error: 429 quota exceeded")))).
Proof.
  refine (both_failures_are_reported
            script scripted_get scripted_generate scripted_list_models scripted_print
            plain_repr
            repo_url_example 7 1 (start world_models_down)
            (snd (fetch_in repo_url_example 7 1 (start world_models_down)))
            data_example
            (Exn (u "ResourceExhausted") (u "429 quota exceeded"))
            (Exn (u "ResourceExhausted") (u "429 quota exceeded"))
            {| http_answers := []; model_answers := []; listing := ([], None) |}
            {| http_answers := []; model_answers := []; listing := ([], None) |}
            {| http_answers := []; model_answers := []; listing := ([], None) |}
            [] None
            eq_refl _ eq_refl eq_refl eq_refl).
  do 2 eexists. repeat split; reflexivity.
Defined.

Lemma unreadable_answer_is_reported_witness :
  fst (render_in repo_url_example 7 1 (start world_blocked))
  = Ok (DashboardHtml
          (dashboard_of repo_url_example 7 1 data_example
             (with_summary
                (u "AI Error: AI Parsing failed: The response was blocked.")))).
Proof.
  refine (unreadable_answer_is_reported
            script scripted_get scripted_generate scripted_list_models scripted_print plain_repr
            repo_url_example 7 1 (start world_blocked)
            (snd (fetch_in repo_url_example 7 1 (start world_blocked)))
            data_example blocked
            (Exn (u "ValueError") (u "The response was blocked."))
            eq_refl _ eq_refl eq_refl).
  left. eexists. reflexivity.
Defined.
